(** * Sintraopo: membership registry dashboards (src/App.py and src/app.py)

    A shallow embedding of the two Streamlit scripts.  The tabular library
    (pandas), the interpreter's [float], [str] and [re], and the widget
    toolkit are collaborators of the scripts; the part of their behaviour the
    scripts rely on is written out below, and what cannot be written out
    (floating-point arithmetic, the regular-expression engine on patterns
    with metacharacters, number formatting) is taken through the interface
    [Runtime].

    Conventions.
    - Text is [string], as its UTF-8 bytes.  [upper] and [lower] map the
      ASCII letters; matching whatever the case is written out for ASCII
      text and taken through the interface for any other text.
    - A number of a table is an integer or a floating-point number; the
      table [pd.read_csv] returns is taken as pandas holds it, so in a
      column without text a number beside a missing entry is a float.
    - A raised Python exception is [Raise e]; [try/except] is a [match].
    - The outcome of [pd.read_csv] on a byte source is an input of the
      model: [Ok raw] for the parsed table, [Raise e] when parsing fails. *)

From Stdlib Require Import Ascii QArith Qcanon DecimalString.
From stdpp Require Import base option list gmap strings sorting.

Local Open Scope string_scope.
Local Open Scope list_scope.

(** ** Exceptions and results *)

Inductive exn : Type :=
| KeyError (key : string)
| ValueError (text : string)
| TypeError
| ZeroDivisionError
| ReError (pattern : string)
| ReadError (msg : string)
| AttributeError.

Inductive result (A : Type) : Type :=
| Ok (a : A)
| Raise (e : exn).
Arguments Ok {A} a.
Arguments Raise {A} e.

#[global] Instance result_ret : MRet result := fun A a => Ok a.
#[global] Instance result_bind : MBind result := fun A B f m =>
  match m with Ok a => f a | Raise e => Raise e end.
#[global] Instance result_fmap : FMap result := fun A B f m =>
  match m with Ok a => Ok (f a) | Raise e => Raise e end.

Definition is_ok {A} (m : result A) : bool :=
  match m with Ok _ => true | Raise _ => false end.

(** [mapM] over a list, left to right; the first exception wins. *)
Fixpoint traverse {A B} (f : A → result B) (l : list A) : result (list B) :=
  match l with
  | [] => Ok []
  | a :: l' => b ← f a; bs ← traverse f l'; Ok (b :: bs)
  end.

(** ** Text *)

Definition is_lower (c : ascii) : bool :=
  let n := nat_of_ascii c in (97 <=? n)%nat && (n <=? 122)%nat.
Definition is_upper (c : ascii) : bool :=
  let n := nat_of_ascii c in (65 <=? n)%nat && (n <=? 90)%nat.
Definition upper_char (c : ascii) : ascii :=
  if is_lower c then ascii_of_nat (nat_of_ascii c - 32) else c.
Definition lower_char (c : ascii) : ascii :=
  if is_upper c then ascii_of_nat (nat_of_ascii c + 32) else c.

(** [s.upper()] and [s.lower()] *)
Fixpoint upper (s : string) : string :=
  match s with
  | EmptyString => EmptyString
  | String c s' => String (upper_char c) (upper s')
  end.
Fixpoint lower (s : string) : string :=
  match s with
  | EmptyString => EmptyString
  | String c s' => String (lower_char c) (lower s')
  end.

(** [str(n)] for an integer [n] that is not negative *)
Definition nat_text (n : nat) : string :=
  NilZero.string_of_uint (Nat.to_uint n).

(** [s.replace(c, '')] for a one-character [c] *)
Fixpoint remove_char (c : ascii) (s : string) : string :=
  match s with
  | EmptyString => EmptyString
  | String a s' =>
      if Ascii.eqb a c then remove_char c s' else String a (remove_char c s')
  end.

Fixpoint has_char (c : ascii) (s : string) : bool :=
  match s with
  | EmptyString => false
  | String a s' => Ascii.eqb c a || has_char c s'
  end.

(** [pat in s] *)
Fixpoint infix (pat s : string) : bool :=
  String.prefix pat s ||
  match s with
  | EmptyString => false
  | String _ s' => infix pat s'
  end.

(** [s.replace('$', '').replace(',', '')] *)
Definition strip_currency (s : string) : string :=
  remove_char "," (remove_char "$" s).

(** [q] occurs in [t] *)
Definition occurs_in (q t : string) : Prop :=
  ∃ pre post : string, t = pre +:+ q +:+ post.

(** The characters that have a meaning of their own in a Python regular
    expression.  A pattern without any of them matches itself only. *)
Definition metachars : string := ".^$*+?{}[]\|()".

(** Text made of ASCII characters only *)
Definition is_ascii_char (c : ascii) : bool := (nat_of_ascii c <? 128)%nat.
Fixpoint is_ascii (s : string) : bool :=
  match s with
  | EmptyString => true
  | String c s' => is_ascii_char c && is_ascii s'
  end.

Fixpoint literal (pat : string) : bool :=
  match pat with
  | EmptyString => true
  | String c pat' => negb (has_char c metachars) && literal pat'
  end.

(** ** The interpreter interface

    [F] is the type of the numbers a table holds, integers and
    floating-point numbers, other than NaN: NaN is the missing entry of a
    table and is kept apart (see [cell]). *)
Class Runtime (F : Type) : Type := {
  F_eq_dec :: EqDecision F;
  fzero : F;                           (* 0.0 *)
  fadd : F → F → F;                    (* x + y *)
  fleb : F → F → bool;                 (* x <= y *)
  (* float(s): None is ValueError, Some None is NaN (float('nan')) *)
  py_float : string → option (option F);
  is_int : F → bool;                   (* isinstance(x, int) *)
  float_of : F → F;                    (* float(x) *)
  py_str : F → string;                 (* str(x) *)
  fmt_money : F → string;              (* f"${x:,.2f}" *)
  (* re.compile(pat, flags) with re.IGNORECASE unless [case], as the
     predicate [re.search(pat, s) is not None]; None is re.error.
     Consulted for patterns with metacharacters only. *)
  re_compile : string → bool → option (string → bool);
  (* re.search(re.escape(q), t, re.IGNORECASE) is not None.  Consulted
     when [q] or [t] holds a character outside ASCII. *)
  icase_contains : string → string → bool
}.

(** Exact arithmetic: what floating-point addition is up to rounding. *)
Class ExactAdd (F : Type) `{Runtime F} : Prop := {
  fadd_comm : ∀ x y : F, fadd x y = fadd y x;
  fadd_assoc : ∀ x y z : F, fadd x (fadd y z) = fadd (fadd x y) z;
  fadd_0_l : ∀ x : F, fadd fzero x = x
}.

(** ** Tables *)

(** A stored value.  A missing entry (NaN) is the absence of a value, so a
    cell is an [option value] and a record maps column names to values.

    The dtype of a column is not stored; it is read off the entries where
    the scripts depend on it ([str_accessor], [csv_number]): text makes a
    column of dtype object, integers alone one of an integer dtype, and
    anything else without text a floating-point one. *)
Inductive value (F : Type) : Type :=
| Str (s : string)
| Num (x : F).
Arguments Str {F} s.
Arguments Num {F} x.

Abbreviation cell F := (option (value F)).
Abbreviation record F := (gmap string (value F)).

Record DataFrame (F : Type) : Type := mkDataFrame {
  columns : list string;
  rows : list (record F)
}.
Arguments mkDataFrame {F} columns rows.
Arguments columns {F} d.
Arguments rows {F} d.

(** The order pandas lists group keys in: numbers before text, each kind
    ascending. *)
Definition value_leb {F} `{Runtime F} (a b : value F) : bool :=
  match a, b with
  | Num x, Num y => fleb x y
  | Num _, Str _ => true
  | Str _, Num _ => false
  | Str s, Str t => String.leb s t
  end.

Definition value_le {F} `{Runtime F} (a b : value F) : Prop :=
  value_leb a b = true.
#[global] Instance value_le_dec {F} `{Runtime F} (a b : value F)
  : Decision (value_le a b).
Proof. unfold value_le. apply _. Defined.

(** More frequent first *)
Definition count_ge {A} (a b : A * nat) : Prop := (b.2 ≤ a.2)%nat.
#[global] Instance count_ge_dec {A} (a b : A * nat) : Decision (count_ge a b).
Proof. unfold count_ge. apply _. Defined.
#[global] Instance count_ge_total {A} : Total (@count_ge A).
Proof. intros a b. unfold count_ge. lia. Qed.
#[global] Instance count_ge_trans {A} : Transitive (@count_ge A).
Proof. intros a b c. unfold count_ge. lia. Qed.

#[global] Instance value_eq_dec {F} `{Runtime F} : EqDecision (value F).
Proof. solve_decision. Defined.

Section Pandas.
Context {F : Type} `{Runtime F}.

(** [pd.DataFrame()] and [pd.DataFrame(columns=cols)] *)
Definition empty_frame : DataFrame F := mkDataFrame [] [].
Definition frame_of_columns (cols : list string) : DataFrame F :=
  mkDataFrame cols [].

(** [len(df)] *)
Definition len (df : DataFrame F) : nat := length (rows df).

(** [df.empty]: some axis has length zero *)
Definition df_empty (df : DataFrame F) : bool :=
  bool_decide (columns df = []) || bool_decide (rows df = []).

(** [c in df.columns] *)
Definition has_column (c : string) (df : DataFrame F) : bool :=
  bool_decide (c ∈ columns df).

(** The entries of column [c], one per record *)
Definition column (df : DataFrame F) (c : string) : list (cell F) :=
  (λ r : record F, r !! c) <$> rows df.

(** [df[c]] *)
Definition getitem (df : DataFrame F) (c : string) : result (list (cell F)) :=
  if has_column c df then Ok (column df c) else Raise (KeyError c).

Definition set_cell (c : string) (v : cell F) (r : record F) : record F :=
  match v with
  | Some x => <[c:=x]> r
  | None => delete c r
  end.

(** [df[c] = s] for a series [s] on the index of [df] *)
Definition setitem (df : DataFrame F) (c : string) (s : list (cell F))
  : DataFrame F :=
  mkDataFrame (if has_column c df then columns df else columns df ++ [c])
              (zip_with (set_cell c) s (rows df)).

(** [df[c] = x] for a scalar [x] *)
Definition setitem_scalar (df : DataFrame F) (c : string) (x : value F)
  : DataFrame F :=
  setitem df c (replicate (len df) (Some x)).

(** [s.fillna(x)] *)
Definition fillna (x : value F) (s : list (cell F)) : list (cell F) :=
  (λ c : cell F, match c with None => Some x | Some _ => c end) <$> s.

(** Some entry is text *)
Definition is_text (c : cell F) : bool :=
  match c with Some (Str _) => true | _ => false end.
Definition has_text (s : list (cell F)) : bool := existsb is_text s.

(** [s.str]: the accessor is there for a column of dtype object, which
    is what a column with text in it has, and a column without any entry
    ([read_csv] of a header alone, [pd.DataFrame(columns=...)]); on a
    column of numbers, or of numbers and NaN, or of NaN alone, which
    [read_csv] makes of a numeric dtype, it raises AttributeError. *)
Definition str_accessor (s : list (cell F)) : result (list (cell F)) :=
  if bool_decide (s = []) || has_text s then Ok s else Raise AttributeError.

(** [.upper()] behind the accessor: text is mapped, anything else becomes
    NaN. *)
Definition str_upper (s : list (cell F)) : list (cell F) :=
  (λ c : cell F,
     match c with Some (Str t) => Some (Str (upper t)) | _ => None end) <$> s.

(** [s.astype(str)] *)
Definition astype_str (c : cell F) : string :=
  match c with
  | None => "nan"
  | Some (Str t) => t
  | Some (Num x) => py_str x
  end.

(** [s == x] *)
Definition eq_scalar (s : list (cell F)) (x : value F) : list bool :=
  (λ c : cell F, bool_decide (c = Some x)) <$> s.

(** [df[mask]] for a boolean mask on the index of [df] *)
Fixpoint mask_filter {A} (l : list A) (m : list bool) : list A :=
  match l, m with
  | a :: l', b :: m' =>
      if b then a :: mask_filter l' m' else mask_filter l' m'
  | _, _ => []
  end.
Definition select (df : DataFrame F) (m : list bool) : DataFrame F :=
  mkDataFrame (columns df) (mask_filter (rows df) m).

(** The character class of the pattern ['[\$,]'] and its removal,
    [s.replace('[\$,]', '', regex=True)] on one text cell. *)
Fixpoint remove_chars (cls s : string) : string :=
  match s with
  | EmptyString => EmptyString
  | String a s' =>
      if has_char a cls then remove_chars cls s'
      else String a (remove_chars cls s')
  end.
Definition replace_regex_class (cls : string) (s : list (cell F))
  : list (cell F) :=
  (λ c : cell F,
     match c with Some (Str t) => Some (Str (remove_chars cls t)) | _ => c end)
    <$> s.

(** [s.astype(float)]: numbers and NaN stay, text goes through [float],
    whose ValueError aborts the conversion. *)
Definition to_float (c : cell F) : result (cell F) :=
  match c with
  | Some (Str t) =>
      match py_float t with
      | Some (Some x) => Ok (Some (Num x))
      | Some None => Ok None
      | None => Raise (ValueError t)
      end
  | _ => Ok c
  end.
Definition astype_float (s : list (cell F)) : result (list (cell F)) :=
  traverse to_float s.

(** The matcher behind [s.str.contains(pat, case=case)] (the pattern is a
    regular expression: [regex=True] is the default). *)
Definition contains_matcher (pat : string) (case : bool)
  : result (string → bool) :=
  if literal pat then
    Ok (λ t, if case then infix pat t
             else if is_ascii pat && is_ascii t
                  then infix (lower pat) (lower t)
                  else icase_contains pat t)
  else
    match re_compile pat case with
    | Some m => Ok m
    | None => Raise (ReError pat)
    end.

(** [s.str.contains(pat, case=case, na=False)]: the accessor first, then
    the pattern; an entry that is not text does not match *)
Definition str_contains (pat : string) (case : bool) (s : list (cell F))
  : result (list bool) :=
  texts ← str_accessor s;
  m ← contains_matcher pat case;
  Ok ((λ c : cell F, match c with Some (Str t) => m t | _ => false end)
        <$> (texts : list (cell F))).

(** [s.astype(str).str.contains(pat)], case-sensitive by default; every
    entry is text after [astype(str)], so the accessor is there *)
Definition astype_str_contains (pat : string) (s : list (cell F))
  : result (list bool) :=
  m ← contains_matcher pat true;
  Ok ((λ c : cell F, m (astype_str c)) <$> s).

(** [a | b] on two masks *)
Definition mask_or (a b : list bool) : list bool := zip_with orb a b.

(** [s.sum()]: NaN is skipped, left to right from 0.  The dues column of
    the scripts holds numbers; summing a text cell is a TypeError here. *)
Definition add_cell (acc : F) (c : cell F) : result F :=
  match c with
  | None => Ok acc
  | Some (Num x) => Ok (fadd acc x)
  | Some (Str _) => Raise TypeError
  end.
Fixpoint sum_from (acc : F) (s : list (cell F)) : result F :=
  match s with
  | [] => Ok acc
  | c :: s' => acc' ← add_cell acc c; sum_from acc' s'
  end.
Definition series_sum (s : list (cell F)) : result F := sum_from fzero s.

(** [s.count()]: the entries that are not NaN *)
Definition series_count (s : list (cell F)) : nat :=
  length (filter (λ c : cell F, is_Some c) s).

(** [(s == x).sum()] *)
Definition count_true (m : list bool) : nat :=
  length (filter (λ b : bool, b = true) m).

(** The keys of [df.groupby(c)]: the distinct values of the column that
    are not NaN ([dropna=True]), sorted ([sort=True]). *)
Definition group_keys (s : list (cell F)) : list (value F) :=
  merge_sort value_le (remove_dups (omap id s)).

(** The rows of one group *)
Definition group (df : DataFrame F) (c : string) (k : value F)
  : DataFrame F :=
  mkDataFrame (columns df)
              (filter (λ r : record F, r !! c = Some k) (rows df)).

(** [df.groupby(c)] as the list of its groups *)
Definition groupby (df : DataFrame F) (c : string)
  : result (list (value F * DataFrame F)) :=
  s ← getitem df c;
  Ok ((λ k, (k, group df c k)) <$> group_keys s).

(** [s.value_counts()]: the distinct values that are not NaN with their
    number of occurrences, most frequent first. *)
Definition occurrences (k : value F) (s : list (cell F)) : nat :=
  length (filter (λ c : cell F, c = Some k) s).
Definition value_counts (s : list (cell F)) : list (value F * nat) :=
  merge_sort count_ge
             ((λ k, (k, occurrences k s)) <$> remove_dups (omap id s)).

(** [pd.concat([df1, df2], ignore_index=True)]: the rows of both, over
    the union of the columns in order of appearance.  The numbers stay the
    numbers they are; that a column of integers becomes a floating-point
    one when the other frame lacks it or brings a float shows where the
    column is written ([csv_number]). *)
Definition concat (df1 df2 : DataFrame F) : DataFrame F :=
  mkDataFrame (columns df1 ++ list_difference (columns df2) (columns df1))
              (rows df1 ++ rows df2).
End Pandas.

(** ** CSV output: [df.to_csv(index=False)] *)

Definition dquote : ascii := "034"%char.
Definition newline : ascii := "010"%char.
Definition creturn : ascii := "013"%char.

(** Minimal quoting: a field is quoted when it holds the delimiter, the
    quote character or a line break; quotes inside are doubled. *)
Definition needs_quote (t : string) : bool :=
  has_char "," t || has_char dquote t || has_char newline t || has_char creturn t.
Fixpoint csv_escape (t : string) : string :=
  match t with
  | EmptyString => EmptyString
  | String a t' =>
      if Ascii.eqb a dquote then String dquote (String dquote (csv_escape t'))
      else String a (csv_escape t')
  end.
Definition csv_field (t : string) : string :=
  if needs_quote t
  then String dquote (csv_escape t +:+ String dquote EmptyString)
  else t.
(** A line made of one empty field is written as a pair of quotes. *)
Definition csv_line (fields : list string) : string :=
  match fields with
  | [EmptyString] => String dquote (String dquote (String newline EmptyString))
  | _ => String.concat "," (csv_field <$> fields) +:+ String newline EmptyString
  end.

Section Serialise.
Context {F : Type} `{Runtime F}.

(** A column of an integer dtype: integers and nothing else *)
Definition int_column (s : list (cell F)) : bool :=
  forallb (λ c : cell F,
             match c with Some (Num x) => is_int x | _ => false end) s.

(** A number of the column [s] as it is written: as it is in a column of
    dtype object or of an integer dtype, as a float in a floating-point
    column. *)
Definition csv_number (s : list (cell F)) (x : F) : string :=
  if has_text s || int_column s then py_str x else py_str (float_of x).

(** An entry of the column [s]; NaN is written as the empty field. *)
Definition csv_cell (s : list (cell F)) (c : cell F) : string :=
  match c with
  | None => ""
  | Some (Str t) => t
  | Some (Num x) => csv_number s x
  end.

(** The header, then one line of fields per record; with [index=False]
    the fields are those of the columns and nothing else. *)
Definition csv_records (df : DataFrame F) : list (list string) :=
  columns df ::
  ((λ r : record F, (λ c, csv_cell (column df c) (r !! c)) <$> columns df)
     <$> rows df).

Definition to_csv (df : DataFrame F) : string :=
  foldr String.append "" (csv_line <$> csv_records df).

(** [s.encode('utf-8')]: text is kept as its bytes already. *)
Definition encode_utf8 (s : string) : string := s.
End Serialise.

(** ** What a script run puts on the page *)

Inductive metric_value : Type :=
| IntValue (n : nat)
| TextValue (s : string).

Inductive chart (F : Type) : Type :=
| BarCounts (data : list (value F * nat))
| BarTotals (data : list (value F * F))
| PieNames (names : list (cell F))
| PieTotals (data : list (value F * F)).
Arguments BarCounts {F} data.
Arguments BarTotals {F} data.
Arguments PieNames {F} names.
Arguments PieTotals {F} data.

(** One line of the per-regional summary table of src/App.py *)
Record SummaryLine (F : Type) : Type := mkSummaryLine {
  REGIONAL : value F;
  Afiliados : nat;
  Activos : nat;
  Recaudo_Total : F
}.
Arguments mkSummaryLine {F} REGIONAL Afiliados Activos Recaudo_Total.
Arguments REGIONAL {F} s.
Arguments Afiliados {F} s.
Arguments Activos {F} s.
Arguments Recaudo_Total {F} s.

(** [delta] of a metric is the percentage before its [.1f] formatting. *)
Inductive output (F : Type) : Type :=
| st_error (msg : string) (cause : exn)
| st_warning (msg : string)
| st_success (msg : string)
| st_metric (label : string) (v : metric_value) (delta : option Q)
| st_dataframe (df : DataFrame F)
| st_table (lines : list (SummaryLine F))
| st_plotly_chart (c : chart F)
| st_download_button (label data file_name mime : string)
| st_rerun.
Arguments st_error {F} msg cause.
Arguments st_warning {F} msg.
Arguments st_success {F} msg.
Arguments st_metric {F} label v delta.
Arguments st_dataframe {F} df.
Arguments st_table {F} lines.
Arguments st_plotly_chart {F} c.
Arguments st_download_button {F} label data file_name mime.
Arguments st_rerun {F}.

Definition is_message {F} (o : output F) : bool :=
  match o with
  | st_error _ _ | st_warning _ => true
  | _ => false
  end.

(** [a / b] on two integers *)
Definition py_truediv (a b : nat) : result Q :=
  match b with
  | O => Raise ZeroDivisionError
  | S _ => Ok (Z.of_nat a # Pos.of_nat b)
  end.

(** The choices of the status select box *)
Inductive Estado : Type := ACTIVO | RETIRADO.
Definition estado_text (e : Estado) : string :=
  match e with ACTIVO => "ACTIVO" | RETIRADO => "RETIRADO" end.

(** * Variant 1: src/App.py *)
Module Variant1.

Inductive Menu : Type := Dashboard | Gestion | Reportes.

Record Kpis (F : Type) : Type := mkKpis {
  total_afiliados : nat;
  activos : nat;
  retirados : nat;
  total_recaudo : F
}.
Arguments mkKpis {F} total_afiliados activos retirados total_recaudo.
Arguments total_afiliados {F} k.
Arguments activos {F} k.
Arguments retirados {F} k.
Arguments total_recaudo {F} k.

(** The widgets read in one run.  The form fields other than [nombre] are
    read and not used. *)
Record Inputs (F : Type) : Type := mkInputs {
  menu : Menu;
  cedula : string;
  nombre : string;
  regional : cell F;
  estado : Estado;
  cuota : F;
  submit : bool;
  search : string
}.
Arguments mkInputs {F} menu cedula nombre regional estado cuota submit search.
Arguments menu {F} i.
Arguments nombre {F} i.
Arguments submit {F} i.
Arguments search {F} i.

Definition missing_file_warning : string :=
  "Por favor, asegúrate de que 'DB_AFILIADOS.csv' esté en la misma carpeta que este script.".

Section Script.
Context {F : Type} `{Runtime F}.

(** The body of the [try] of [load_data] (lines 14-24) *)
Definition load_data_try (read : result (DataFrame F)) : result (DataFrame F) :=
  df ← read;
  df ← (if has_column "SUMA_CUOTAS" df then
          s ← getitem df "SUMA_CUOTAS";
          s ← astype_float (replace_regex_class "$," s);
          Ok (setitem df "SUMA_CUOTAS_NUM" s)
        else Ok df);
  df ← (if has_column "ESTADO_AFILIADO" df then
          s ← getitem df "ESTADO_AFILIADO";
          s ← str_accessor (fillna (Str "DESCONOCIDO") s);
          Ok (setitem df "ESTADO_AFILIADO" (str_upper s))
        else Ok df);
  Ok df.

(** [load_data]: any exception becomes an error message and the empty
    frame [pd.DataFrame()]. *)
Definition load_data (read : result (DataFrame F))
  : DataFrame F * list (output F) :=
  match load_data_try read with
  | Ok df => (df, [])
  | Raise e => (empty_frame, [st_error "Error al cargar el archivo: " e])
  end.

(** Lines 52-55 *)
Definition kpis (df : DataFrame F) : result (Kpis F) :=
  let total_afiliados := len df in
  s ← getitem df "ESTADO_AFILIADO";
  let activos := len (select df (eq_scalar s (Str "ACTIVO"))) in
  s ← getitem df "ESTADO_AFILIADO";
  let retirados := len (select df (eq_scalar s (Str "RETIRADO"))) in
  total_recaudo ← (if has_column "SUMA_CUOTAS_NUM" df
                   then s ← getitem df "SUMA_CUOTAS_NUM"; series_sum s
                   else Ok fzero);
  Ok (mkKpis total_afiliados activos retirados total_recaudo).

(** Lines 52-79 *)
Definition dashboard (df : DataFrame F) : result (list (output F)) :=
  k ← kpis df;
  pct ← py_truediv (activos k) (total_afiliados k);
  reg ← getitem df "REGIONAL";
  est ← getitem df "ESTADO_AFILIADO";
  Ok [ st_metric "Total Afiliados" (IntValue (total_afiliados k)) None;
       st_metric "Activos" (IntValue (activos k)) (Some (pct * 100)%Q);
       st_metric "Retirados" (IntValue (retirados k)) None;
       st_metric "Recaudo Total" (TextValue (fmt_money (total_recaudo k))) None;
       st_plotly_chart (BarCounts (value_counts reg));
       st_plotly_chart (PieNames est) ].

(** Lines 97-99: the quick filter *)
Definition search_filter (df : DataFrame F) (search : string)
  : result (DataFrame F) :=
  names ← getitem df "APELLIDOS / NOMBRES";
  by_name ← str_contains search false names;
  ids ← getitem df "CEDULA";
  by_id ← astype_str_contains search ids;
  Ok (select df (mask_or by_name by_id)).

(** Lines 82-100.  The regional select box lists [df['REGIONAL'].unique()].
    The submitted form is acknowledged and nothing is stored (the message
    says so: "Simulado"). *)
Definition gestion (df : DataFrame F) (ui : Inputs F)
  : result (list (output F)) :=
  _ ← getitem df "REGIONAL";
  let saved :=
    if submit ui
    then [st_success ("Afiliado " +:+ nombre ui +:+
                      " registrado correctamente (Simulado).")]
    else [] in
  filtered_df ← search_filter df (search ui);
  Ok (saved ++ [st_dataframe filtered_df])%list.

(** Lines 106-110 *)
Definition summarise (kg : value F * DataFrame F) : result (SummaryLine F) :=
  ids ← getitem kg.2 "CEDULA";
  est ← getitem kg.2 "ESTADO_AFILIADO";
  dues ← getitem kg.2 "SUMA_CUOTAS_NUM";
  total ← series_sum dues;
  Ok (mkSummaryLine kg.1 (series_count ids)
                    (count_true (eq_scalar est (Str "ACTIVO"))) total).

Definition resumen_regional (df : DataFrame F) : result (list (SummaryLine F)) :=
  groups ← groupby df "REGIONAL";
  _ ← getitem df "CEDULA";
  _ ← getitem df "ESTADO_AFILIADO";
  _ ← getitem df "SUMA_CUOTAS_NUM";
  traverse summarise groups.

(** Lines 103-119 *)
Definition reportes (df : DataFrame F) : result (list (output F)) :=
  resumen ← resumen_regional df;
  Ok [ st_table resumen;
       st_plotly_chart
         (BarTotals ((λ l, (REGIONAL l, Recaudo_Total l)) <$> resumen)) ].

(** One run of the script (lines 41-122): the page, or the exception
    that ends the run. *)
Definition script (read : result (DataFrame F)) (ui : Inputs F)
  : result (list (output F)) :=
  let '(df, shown) := load_data read in
  if negb (df_empty df) then
    page ← match menu ui with
           | Dashboard => dashboard df
           | Gestion => gestion df ui
           | Reportes => reportes df
           end;
    Ok (shown ++ page)%list
  else
    Ok (shown ++ [st_warning missing_file_warning])%list.
End Script.
End Variant1.

(** * Variant 2: src/app.py *)
Module Variant2.

Inductive Menu : Type := Dashboard | Gestion | ImportarExportar.

(** The choices of the regional select box *)
Inductive Regional : Type :=
  CENTRO_A | EJE_CAFETERO | NOROCCIDENTE | SUR | ORIENTE.
Definition regional_text (r : Regional) : string :=
  match r with
  | CENTRO_A => "CENTRO A"
  | EJE_CAFETERO => "EJE CAFETERO"
  | NOROCCIDENTE => "NOROCCIDENTE"
  | SUR => "SUR"
  | ORIENTE => "ORIENTE"
  end.

Record Kpis (F : Type) : Type := mkKpis {
  total_afiliados : nat;
  activos : nat;
  retirados : nat;
  total_recaudo : F
}.
Arguments mkKpis {F} total_afiliados activos retirados total_recaudo.
Arguments total_afiliados {F} k.
Arguments activos {F} k.
Arguments retirados {F} k.
Arguments total_recaudo {F} k.

(** The widgets read in one run.  [uploaded_file] is [None] when nothing
    is uploaded, and otherwise the outcome of [pd.read_csv] on the upload;
    [confirm] is the button "Confirmar Importacion". *)
Record Inputs (F : Type) : Type := mkInputs {
  menu : Menu;
  cedula : string;
  nombre : string;
  reg : Regional;
  estado : Estado;
  cuota : F;
  submit : bool;
  search : string;
  uploaded_file : option (result (DataFrame F));
  confirm : bool
}.
Arguments mkInputs {F} menu cedula nombre reg estado cuota submit search
  uploaded_file confirm.
Arguments menu {F} i.
Arguments cedula {F} i.
Arguments nombre {F} i.
Arguments reg {F} i.
Arguments estado {F} i.
Arguments cuota {F} i.
Arguments submit {F} i.
Arguments search {F} i.
Arguments uploaded_file {F} i.
Arguments confirm {F} i.

Definition replace_note : string :=
  "Nota: La actualización masiva reemplazará los datos actuales en pantalla.".

Definition expected_headers : list string :=
  [ "CEDULA"; "APELLIDOS / NOMBRES"; "REGIONAL"; "CIUDAD AFILIACION";
    "ESTADO_AFILIADO"; "SUMA_CUOTAS_NUM" ].

Section Script.
Context {F : Type} `{Runtime F}.

(** Lines 10-18 *)
Definition clean_currency (value : cell F) : cell F :=
  match value with
  | Some (Str s) =>
      let s := remove_char "," (remove_char "$" s) in
      match py_float s with
      | Some (Some x) => Some (Num x)
      | Some None => None
      | None => Some (Num fzero)
      end
  | _ => value
  end.

(** Lines 20-32; [df[c]] of a missing column raises KeyError *)
Definition load_data (read : result (DataFrame F)) : result (DataFrame F) :=
  df ← read;
  df ← (if has_column "SUMA_CUOTAS" df then
          s ← getitem df "SUMA_CUOTAS";
          Ok (setitem df "SUMA_CUOTAS_NUM" (clean_currency <$> s))
        else Ok (setitem_scalar df "SUMA_CUOTAS_NUM" (Num fzero)));
  s ← getitem df "ESTADO_AFILIADO";
  let df := setitem df "ESTADO_AFILIADO" (fillna (Str "DESCONOCIDO") s) in
  s ← getitem df "REGIONAL";
  let df := setitem df "REGIONAL" (fillna (Str "SIN ASIGNAR") s) in
  Ok df.

(** Lines 35-44: the table of the session, loaded on the first run.  The
    bare [except] swallows the exception and nothing is shown. *)
Definition session_init (session : option (DataFrame F))
    (read : result (DataFrame F)) : DataFrame F :=
  match session with
  | Some df => df
  | None =>
      match load_data read with
      | Ok df => df
      | Raise _ => frame_of_columns expected_headers
      end
  end.

(** Lines 65-73 *)
Definition kpis (df : DataFrame F) : result (Kpis F) :=
  let total_afiliados := len df in
  s ← getitem df "ESTADO_AFILIADO";
  s ← str_accessor s;
  let activos := len (select df (eq_scalar (str_upper s) (Str "ACTIVO"))) in
  s ← getitem df "ESTADO_AFILIADO";
  s ← str_accessor s;
  let retirados := len (select df (eq_scalar (str_upper s) (Str "RETIRADO"))) in
  s ← getitem df "SUMA_CUOTAS_NUM";
  total_recaudo ← series_sum s;
  Ok (mkKpis total_afiliados activos retirados total_recaudo).

(** Line 82 *)
Definition regional_counts (df : DataFrame F) : result (list (value F * nat)) :=
  s ← getitem df "REGIONAL";
  Ok (value_counts s).

(** Line 91: [df.groupby('REGIONAL')['SUMA_CUOTAS_NUM'].sum()] *)
Definition recaudo_reg (df : DataFrame F) : result (list (value F * F)) :=
  groups ← groupby df "REGIONAL";
  _ ← getitem df "SUMA_CUOTAS_NUM";
  traverse (λ kg : value F * DataFrame F,
              s ← getitem kg.2 "SUMA_CUOTAS_NUM";
              total ← series_sum s;
              Ok (kg.1, total)) groups.

(** Lines 57-94 *)
Definition dashboard (df : DataFrame F) : result (list (output F)) :=
  k ← kpis df;
  counts ← regional_counts df;
  totals ← recaudo_reg df;
  Ok [ st_metric "Total Afiliados" (IntValue (total_afiliados k)) None;
       st_metric "Activos" (IntValue (activos k)) None;
       st_metric "Retirados" (IntValue (retirados k)) None;
       st_metric "Recaudo Total" (TextValue (fmt_money (total_recaudo k))) None;
       st_plotly_chart (BarCounts counts);
       st_plotly_chart (PieTotals totals) ].

(** Lines 112-116 *)
Definition new_row (ui : Inputs F) : record F :=
  <["CEDULA" := Str (cedula ui)]>
  (<["APELLIDOS / NOMBRES" := Str (nombre ui)]>
  (<["REGIONAL" := Str (regional_text (reg ui))]>
  (<["ESTADO_AFILIADO" := Str (estado_text (estado ui))]>
  (<["SUMA_CUOTAS_NUM" := Num (cuota ui)]>
  (<["SUMA_CUOTAS" := Str (fmt_money (cuota ui))]> ∅))))).

Definition new_row_columns : list string :=
  [ "CEDULA"; "APELLIDOS / NOMBRES"; "REGIONAL"; "ESTADO_AFILIADO";
    "SUMA_CUOTAS_NUM"; "SUMA_CUOTAS" ].

(** Line 117: [pd.concat([df, pd.DataFrame([new_row])], ignore_index=True)] *)
Definition append_row (df : DataFrame F) (ui : Inputs F) : DataFrame F :=
  concat df (mkDataFrame new_row_columns [new_row ui]).

(** Lines 123-129 *)
Definition search_filter (df : DataFrame F) (search : string)
  : result (DataFrame F) :=
  if bool_decide (search = "") then Ok df
  else
    names ← getitem df "APELLIDOS / NOMBRES";
    by_name ← str_contains search false names;
    ids ← getitem df "CEDULA";
    by_id ← astype_str_contains search ids;
    Ok (select df (mask_or by_name by_id)).

(** Lines 97-131.  [st.rerun()] ends the run. *)
Definition gestion (df : DataFrame F) (ui : Inputs F)
  : result (DataFrame F * list (output F)) :=
  if submit ui then
    Ok (append_row df ui, [st_success "Afiliado registrado con éxito"; st_rerun])
  else
    df_display ← search_filter df (search ui);
    Ok (df, [st_dataframe df_display]).

(** Lines 151-159 *)
Definition export (df : DataFrame F) : output F :=
  let df_to_save := df in
  let csv_data := encode_utf8 (to_csv df_to_save) in
  st_download_button "📥 Exportar a CSV" csv_data
                     "DB_AFILIADOS_ACTUALIZADA.csv" "text/csv".

(** Lines 134-162.  The re-import calls [load_data] outside any [try]. *)
Definition importar_exportar (df : DataFrame F) (ui : Inputs F)
  : result (DataFrame F * list (output F)) :=
  match uploaded_file ui with
  | Some read =>
      if confirm ui then
        new_data ← load_data read;
        Ok (new_data,
            [st_success ("Base de datos actualizada con " +:+
                         nat_text (len new_data) +:+ " registros.");
             st_rerun])
      else
        Ok (df, [export df; st_warning replace_note])
  | None =>
      Ok (df, [export df; st_warning replace_note])
  end.

(** One run of the script: the table kept in the session after the run
    and the page, or the exception that ends the run.  [read] is the
    outcome of [pd.read_csv('DB_AFILIADOS.csv')]. *)
Definition script (session : option (DataFrame F))
    (read : result (DataFrame F)) (ui : Inputs F)
  : result (DataFrame F * list (output F)) :=
  let df := session_init session read in
  match menu ui with
  | Dashboard => page ← dashboard df; Ok (df, page)
  | Gestion => gestion df ui
  | ImportarExportar => importar_exportar df ui
  end.
End Script.
End Variant2.

(** * Vocabulary of the statements *)

Section Vocabulary.
Context {F : Type} `{Runtime F}.

(** An entry that is a number or NaN *)
Definition numeric (c : cell F) : bool :=
  match c with
  | Some (Str _) => false
  | _ => true
  end.

(** The sum of the numbers of a series, NaN and anything else left out *)
Definition total_from (acc : F) (s : list (cell F)) : F :=
  foldl (λ a (c : cell F),
           match c with Some (Num x) => fadd a x | _ => a end) acc s.
Definition total (s : list (cell F)) : F := total_from fzero s.

(** A dues entry that [float] accepts once stripped (as a number or as
    NaN), or that is not text *)
Definition parses (c : cell F) : bool :=
  match c with
  | Some (Str t) =>
      match py_float (strip_currency t) with Some _ => true | None => false end
  | _ => true
  end.

(** An entry that is text or NaN *)
Definition textual (c : cell F) : bool :=
  match c with
  | Some (Num _) => false
  | _ => true
  end.

(** The status variant 1 stores for an entry that is text or NaN *)
Definition normalised (c : cell F) : cell F :=
  match c with
  | Some (Str t) => Some (Str (upper t))
  | _ => Some (Str "DESCONOCIDO")
  end.

(** What an entry adds to a sum *)
Definition cell_value (c : cell F) : F :=
  match c with
  | Some (Num x) => x
  | _ => fzero
  end.

(** The sum of a list of numbers *)
Definition sum_values (xs : list F) : F :=
  total ((λ x, Some (Num x)) <$> xs).

(** The total of the numeric dues of some records *)
Definition dues_total (l : list (record F)) : F :=
  total ((λ r : record F, r !! "SUMA_CUOTAS_NUM") <$> l).

(** The entry of a key in a table of groups *)
Fixpoint lookup_key {A} (k : value F) (l : list (value F * A)) : option A :=
  match l with
  | [] => None
  | (k', a) :: l' => if decide (k' = k) then Some a else lookup_key k l'
  end.

(** The stored status is the text [v] *)
Definition status_is (v : string) (r : record F) : Prop :=
  r !! "ESTADO_AFILIADO" = Some (Str v).

#[global] Instance status_is_dec v r : Decision (status_is v r).
Proof. unfold status_is. apply _. Defined.

(** An entry is text that reads [v] once uppercased *)
Definition upper_is (v : string) (c : cell F) : Prop :=
  ∃ t, c = Some (Str t) ∧ upper t = v.

#[global] Instance upper_is_dec v c : Decision (upper_is v c).
Proof.
  unfold upper_is. destruct c as [[t|x]|].
  - destruct (decide (upper t = v)) as [Hv|Hv].
    + left. by exists t.
    + right. intros (t' & [= <-] & Ht). done.
  - right. by intros (t & [=] & _).
  - right. by intros (t & [=] & _).
Defined.

(** The status of a record, once uppercased, is the text [v] *)
Definition upper_status_is (v : string) (r : record F) : Prop :=
  upper_is v (r !! "ESTADO_AFILIADO").

#[global] Instance upper_status_is_dec v r : Decision (upper_status_is v r).
Proof. unfold upper_status_is. apply _. Defined.

(** The table of a session of variant 2 has the three columns the
    pages read, a regional in every record and no text among the dues. *)
Definition session_ok (df : DataFrame F) : bool :=
  has_column "ESTADO_AFILIADO" df && has_column "REGIONAL" df &&
  has_column "SUMA_CUOTAS_NUM" df &&
  forallb (λ r : record F,
             bool_decide (is_Some (r !! "REGIONAL")) &&
             numeric (r !! "SUMA_CUOTAS_NUM")) (rows df).

(** The record has a regional *)
Definition has_regional (r : record F) : Prop := is_Some (r !! "REGIONAL").

#[global] Instance has_regional_dec r : Decision (has_regional r).
Proof. unfold has_regional. apply _. Defined.

(** A column the [.str] accessor accepts: one with text in it, or one
    without any entry *)
Definition text_column (s : list (cell F)) : bool :=
  bool_decide (s = []) || existsb is_text s.

(** The status column of a source does not stop the load of variant 1:
    there is none, or it has no entry, or one of its entries is text or
    missing (a missing entry is filled with text before [.str] is used). *)
Definition status_loads (raw : DataFrame F) : bool :=
  negb (has_column "ESTADO_AFILIADO" raw) ||
  bool_decide (rows raw = []) ||
  existsb textual (column raw "ESTADO_AFILIADO").

(** The names that are text are ASCII text *)
Definition ascii_names (df : DataFrame F) : bool :=
  forallb (λ c : cell F,
             match c with Some (Str t) => is_ascii t | _ => true end)
          (column df "APELLIDOS / NOMBRES").

(** [q] occurs in [t] whatever the case: as ASCII text once both are in
    lower case, and as [re] finds it with IGNORECASE when one of them has a
    character outside ASCII. *)
Definition contains_nocase (q t : string) : Prop :=
  if is_ascii q && is_ascii t then occurs_in (lower q) (lower t)
  else icase_contains q t = true.

(** What the search box matches in a record: the query in the name,
    whatever the case, or the query as it is in the cedula as text. *)
Definition name_matches (q : string) (r : record F) : Prop :=
  ∃ t, r !! "APELLIDOS / NOMBRES" = Some (Str t) ∧ contains_nocase q t.
Definition cedula_matches (q : string) (r : record F) : Prop :=
  occurs_in q (astype_str (r !! "CEDULA")).
(** ... and what it would match if the cedula were compared whatever
    the case as well. *)
Definition cedula_matches_nocase (q : string) (r : record F) : Prop :=
  occurs_in (lower q) (lower (astype_str (r !! "CEDULA"))).

Definition matchb (q : string) (r : record F) : bool :=
  match r !! "APELLIDOS / NOMBRES" with
  | Some (Str t) =>
      if is_ascii q && is_ascii t then infix (lower q) (lower t)
      else icase_contains q t
  | _ => false
  end || infix q (astype_str (r !! "CEDULA")).
End Vocabulary.

(** ** Reading CSV text back

    The fields a reader of comma-separated text finds (RFC 4180: fields
    separated by commas, lines ended by a line feed, a field in double
    quotes holding any character, a double quote in it written twice).
    It is what the statements on the export are checked against. *)
Inductive read_mode : Type := Plain | Quoted | Closing.

Definition snoc_char (s : string) (c : ascii) : string :=
  s +:+ String c EmptyString.

Fixpoint csv_read_from (mode : read_mode) (cur : string)
    (fields : list string) (s : string) : list (list string) :=
  match s with
  | EmptyString =>
      if bool_decide (cur = "") && bool_decide (fields = []) then []
      else [fields ++ [cur]]
  | String c s' =>
      match mode with
      | Plain =>
          if Ascii.eqb c "," then csv_read_from Plain "" (fields ++ [cur]) s'
          else if Ascii.eqb c newline then
            (fields ++ [cur]) :: csv_read_from Plain "" [] s'
          else if Ascii.eqb c dquote && bool_decide (cur = "") then
            csv_read_from Quoted "" fields s'
          else csv_read_from Plain (snoc_char cur c) fields s'
      | Quoted =>
          if Ascii.eqb c dquote then csv_read_from Closing cur fields s'
          else csv_read_from Quoted (snoc_char cur c) fields s'
      | Closing =>
          if Ascii.eqb c dquote then
            csv_read_from Quoted (snoc_char cur dquote) fields s'
          else if Ascii.eqb c "," then
            csv_read_from Plain "" (fields ++ [cur]) s'
          else if Ascii.eqb c newline then
            (fields ++ [cur]) :: csv_read_from Plain "" [] s'
          else csv_read_from Plain (snoc_char cur c) fields s'
      end
  end.

Definition csv_read (s : string) : list (list string) :=
  csv_read_from Plain "" [] s.

(** * A session over several runs (src/app.py)

    What is assigned to [st.session_state] stays assigned: a run that ends
    with an exception leaves in the session the table its first lines put
    there. *)
Section Sessions.
Context {F : Type} `{Runtime F}.

Definition next_session (session : option (DataFrame F))
    (read : result (DataFrame F)) (ui : Variant2.Inputs F) : DataFrame F :=
  match Variant2.script session read ui with
  | Ok (df, _) => df
  | Raise _ => Variant2.session_init session read
  end.

(** The table in the session after the runs of a list, first run first;
    each run comes with what [pd.read_csv('DB_AFILIADOS.csv')] would give
    and with the state of the widgets. *)
Fixpoint session_after (session : option (DataFrame F))
    (runs : list (result (DataFrame F) * Variant2.Inputs F))
  : option (DataFrame F) :=
  match runs with
  | [] => session
  | (read, ui) :: runs' =>
      session_after (Some (next_session session read ui)) runs'
  end.
End Sessions.

(** * An exact interpretation of the interface

    Numbers are the rationals in lowest terms, all of them floats.
    [parse_decimal] is the decimal fragment of the grammar of [float]: an
    optional sign, digits, an optional fraction; [parse_float] adds the
    text "nan" in any case.  Outside this fragment (exponents, [inf],
    underscores, surrounding blanks) it answers [None]; the examples of
    this file stay inside the fragment or use text without any digit, which
    [float] rejects as well.  No engine is provided for patterns with
    metacharacters, and matching whatever the case folds the ASCII letters:
    the examples search for plain ASCII text. *)
Module Exact.

Definition digit (c : ascii) : option Z :=
  let n := nat_of_ascii c in
  if (48 <=? n)%nat && (n <=? 57)%nat then Some (Z.of_nat (n - 48)) else None.

Fixpoint digits_value (acc : Z) (s : string) : option Z :=
  match s with
  | EmptyString => Some acc
  | String c s' =>
      match digit c with
      | Some d => digits_value (10 * acc + d) s'
      | None => None
      end
  end.

(** The text before the first dot, and the text after it if there is one *)
Fixpoint split_dot (s : string) : string * option string :=
  match s with
  | EmptyString => (EmptyString, None)
  | String c s' =>
      if Ascii.eqb c "." then (EmptyString, Some s')
      else let '(a, b) := split_dot s' in (String c a, b)
  end.

Definition parse_decimal (s : string) : option Qc :=
  let '(negative, body) :=
    match s with
    | String "-" r => (true, r)
    | String "+" r => (false, r)
    | _ => (false, s)
    end in
  let '(ip, fp) := split_dot body in
  let fp := default "" fp in
  if (String.length ip + String.length fp =? 0)%nat then None
  else
    match digits_value 0 ip, digits_value 0 fp with
    | Some i, Some f =>
        let scale := (10 ^ Z.of_nat (String.length fp))%Z in
        let n := (i * scale + f)%Z in
        Some (Q2Qc ((if negative then - n else n)%Z # Z.to_pos scale))
    | _, _ => None
    end.

Definition parse_float (s : string) : option (option Qc) :=
  if bool_decide (lower s = "nan") then Some None
  else Some <$> parse_decimal s.

Definition Z_text (z : Z) : string :=
  NilZero.string_of_uint (N.to_uint (Z.to_N z)).

(** The digits of [r / d] after the point, [r < d], at most [fuel] of them *)
Fixpoint fraction_digits (fuel : nat) (r d : Z) : string :=
  match fuel with
  | O => ""
  | S fuel' =>
      if (r =? 0)%Z then ""
      else Z_text (10 * r / d) +:+ fraction_digits fuel' (10 * r mod d) d
  end.

(** [str(x)]: the decimal expansion, with at least one digit after the
    point *)
Definition decimal_text (x : Qc) : string :=
  let n := Qnum (this x) in
  let d := Zpos (Qden (this x)) in
  let a := Z.abs n in
  let frac := fraction_digits 17 (a mod d) d in
  (if (n <? 0)%Z then "-" else "") +:+ Z_text (a / d) +:+ "." +:+
  (if bool_decide (frac = "") then "0" else frac).

(** Commas between groups of three digits, from the right *)
Fixpoint group_thousands (fuel : nat) (z : Z) : string :=
  match fuel with
  | O => Z_text z
  | S fuel' =>
      if (z <? 1000)%Z then Z_text z
      else
        let low := (z mod 1000)%Z in
        group_thousands fuel' (z / 1000) +:+ "," +:+
        (if (low <? 10)%Z then "00" else if (low <? 100)%Z then "0" else "") +:+
        Z_text low
  end.

(** The nearest integer to [n / d], ties to even *)
Definition round_half_even (n d : Z) : Z :=
  let q := (n / d)%Z in
  let r := (n mod d)%Z in
  if (2 * r <? d)%Z then q
  else if (d <? 2 * r)%Z then (q + 1)%Z
  else if Z.even q then q else (q + 1)%Z.

(** [f"${x:,.2f}"] *)
Definition money_text (x : Qc) : string :=
  let cents := round_half_even (100 * Qnum (this x)) (Zpos (Qden (this x))) in
  let a := Z.abs cents in
  let low := (a mod 100)%Z in
  "$" +:+ (if (cents <? 0)%Z then "-" else "") +:+
  group_thousands 30 (a / 100) +:+ "." +:+
  (if (low <? 10)%Z then "0" else "") +:+ Z_text low.

#[global] Instance runtime : Runtime Qc := {|
  fzero := 0%Qc;
  fadd := Qcplus;
  fleb := λ x y, Qle_bool (this x) (this y);
  py_float := parse_float;
  is_int := λ _, false;
  float_of := λ x, x;
  py_str := decimal_text;
  fmt_money := money_text;
  re_compile := λ _ _, None;
  icase_contains := λ q t, infix (lower q) (lower t)
|}.

#[global] Instance exact_add : ExactAdd Qc.
Proof.
  split; simpl.
  - apply Qcplus_comm.
  - apply Qcplus_assoc.
  - apply Qcplus_0_l.
Qed.

End Exact.


(** * Sample registries *)
Module Examples.
Import Exact.

Definition headers : list string :=
  [ "CEDULA"; "APELLIDOS / NOMBRES"; "REGIONAL"; "CIUDAD AFILIACION";
    "ESTADO_AFILIADO"; "SUMA_CUOTAS" ].

(** [123,Juan Perez,SUR,,activo,"$1,000.00"] *)
Definition juan : record Qc :=
  <["CEDULA" := Num (Q2Qc (123 # 1))]>
  (<["APELLIDOS / NOMBRES" := Str "Juan Perez"]>
  (<["REGIONAL" := Str "SUR"]>
  (<["ESTADO_AFILIADO" := Str "activo"]>
  (<["SUMA_CUOTAS" := Str "$1,000.00"]> ∅)))).

(** [456,Ana Gomez,SUR,,ACTIVO,pendiente]: dues that are not a number *)
Definition ana : record Qc :=
  <["CEDULA" := Num (Q2Qc (456 # 1))]>
  (<["APELLIDOS / NOMBRES" := Str "Ana Gomez"]>
  (<["REGIONAL" := Str "SUR"]>
  (<["ESTADO_AFILIADO" := Str "ACTIVO"]>
  (<["SUMA_CUOTAS" := Str "pendiente"]> ∅)))).

(** [789,Luis Diaz,,,ACTIVO,$100.00]: no regional *)
Definition luis : record Qc :=
  <["CEDULA" := Num (Q2Qc (789 # 1))]>
  (<["APELLIDOS / NOMBRES" := Str "Luis Diaz"]>
  (<["ESTADO_AFILIADO" := Str "ACTIVO"]>
  (<["SUMA_CUOTAS" := Str "$100.00"]> ∅))).

(** [ab1,Eva Ruiz,SUR,,ACTIVO,$5.00]: a cedula with letters *)
Definition eva : record Qc :=
  <["CEDULA" := Str "ab1"]>
  (<["APELLIDOS / NOMBRES" := Str "Eva Ruiz"]>
  (<["REGIONAL" := Str "SUR"]>
  (<["ESTADO_AFILIADO" := Str "ACTIVO"]>
  (<["SUMA_CUOTAS" := Str "$5.00"]> ∅)))).

Definition registry : DataFrame Qc := mkDataFrame headers [juan].
Definition registry_pendiente : DataFrame Qc := mkDataFrame headers [juan; ana].
Definition registry_sin_regional : DataFrame Qc :=
  mkDataFrame headers [juan; luis].
Definition registry_letras : DataFrame Qc := mkDataFrame headers [eva].

(** A source with neither the status nor the regional column *)
Definition registry_sin_estado : DataFrame Qc :=
  mkDataFrame ["CEDULA"; "SUMA_CUOTAS"]
    [ <["CEDULA" := Num (Q2Qc (123 # 1))]>
      (<["SUMA_CUOTAS" := Str "$5.00"]> ∅) ].

(** [7,Ines Vega,SUR,,1,$5.00]: a status column of numbers *)
Definition ines : record Qc :=
  <["CEDULA" := Num (Q2Qc (7 # 1))]>
  (<["APELLIDOS / NOMBRES" := Str "Ines Vega"]>
  (<["REGIONAL" := Str "SUR"]>
  (<["ESTADO_AFILIADO" := Num (Q2Qc (1 # 1))]>
  (<["SUMA_CUOTAS" := Str "$5.00"]> ∅)))).
Definition registry_estado_numero : DataFrame Qc :=
  mkDataFrame headers [ines].

(** [8,9,SUR,,ACTIVO,$5.00]: a name column of numbers *)
Definition nueve : record Qc :=
  <["CEDULA" := Num (Q2Qc (8 # 1))]>
  (<["APELLIDOS / NOMBRES" := Num (Q2Qc (9 # 1))]>
  (<["REGIONAL" := Str "SUR"]>
  (<["ESTADO_AFILIADO" := Str "ACTIVO"]>
  (<["SUMA_CUOTAS" := Str "$5.00"]> ∅)))).
Definition registry_nombre_numero : DataFrame Qc :=
  mkDataFrame headers [nueve].

(** A source that is not CSV *)
Definition not_csv : result (DataFrame Qc) :=
  Raise (ReadError "Error tokenizing data").

(** The table of [registry] in a session of variant 2 *)
Definition session : DataFrame Qc :=
  match Variant2.load_data (Ok registry) with
  | Ok df => df
  | Raise _ => empty_frame
  end.

(** ... and its one record *)
Definition juan_session : record Qc := default ∅ (head (rows session)).

(** The tables variant 1 loads from the samples *)
Definition loaded (raw : DataFrame Qc) : DataFrame Qc :=
  (Variant1.load_data (Ok raw)).1.

(** The widgets: a new member Rosa Mora, SUR, ACTIVO, dues 500.0 *)
Definition ui1 (m : Variant1.Menu) (submit : bool) (search : string)
  : Variant1.Inputs Qc :=
  Variant1.mkInputs m "1001" "Rosa Mora" (Some (Str "SUR")) ACTIVO
                    (Q2Qc (500 # 1)) submit search.

Definition ui2 (m : Variant2.Menu) (submit : bool) (search : string)
    (uploaded_file : option (result (DataFrame Qc))) (confirm : bool)
  : Variant2.Inputs Qc :=
  Variant2.mkInputs m "1001" "Rosa Mora" Variant2.SUR ACTIVO
                    (Q2Qc (500 # 1)) submit search uploaded_file confirm.

(** What to read off a page of variant 1: the message and the number of
    records shown *)
Definition page_summary (page : list (output Qc)) : option (string * nat) :=
  match page with
  | [st_success msg; st_dataframe shown] => Some (msg, len shown)
  | _ => None
  end.

(** ... and off the lines of its summary *)
Definition summary_lines (lines : list (SummaryLine Qc))
  : list (value Qc * nat * Q) :=
  (λ l, (REGIONAL l, Afiliados l, this (Recaudo_Total l))) <$> lines.

End Examples.
(** * Properties *)

(** ** Text *)




(** The two passes of variant 2 remove what the character class of
    variant 1 removes. *)
Lemma remove_chars_strip s : remove_chars "$," s = strip_currency s.
Proof.
  unfold strip_currency.
  induction s as [|a s IH]; cbn [remove_chars remove_char has_char]; [done|].
  rewrite orb_false_r.
  destruct (Ascii.eqb_spec a "$") as [->|H1]; cbn [orb]; [exact IH|].
  destruct (Ascii.eqb_spec a ",") as [->|H2]; cbn [remove_char orb].
  - rewrite Ascii.eqb_refl. exact IH.
  - apply Ascii.eqb_neq in H2. rewrite H2. by rewrite IH.
Qed.

(** Characters other than the two are kept, in order. *)
Lemma strip_currency_keep a s :
  a ≠ "$"%char → a ≠ ","%char →
  strip_currency (String a s) = String a (strip_currency s).
Proof.
  intros H1 H2. unfold strip_currency. cbn [remove_char].
  apply Ascii.eqb_neq in H1, H2. rewrite H1. cbn [remove_char]. by rewrite H2.
Qed.

Lemma strip_currency_drop a s :
  a = "$"%char ∨ a = ","%char →
  strip_currency (String a s) = strip_currency s.
Proof. intros [-> | ->]; reflexivity. Qed.

Lemma append_cons a s t : String a s +:+ t = String a (s +:+ t).
Proof. reflexivity. Qed.

Lemma string_app_assoc (a b c : string) : (a +:+ b) +:+ c = a +:+ (b +:+ c).
Proof.
  induction a as [|x a IH]; [done|]. rewrite !append_cons. by rewrite IH.
Qed.

Lemma string_app_nil_r (a : string) : a +:+ "" = a.
Proof. induction a as [|x a IH]; [done|]. by rewrite append_cons, IH. Qed.

Lemma prefix_spec p s : String.prefix p s = true ↔ ∃ t, s = p +:+ t.
Proof.
  revert s. induction p as [|a p IH]; intros s; simpl.
  - split; [intros _; by exists s | by destruct s].
  - destruct s as [|b s]; simpl.
    + split; [done | intros [t Ht]; discriminate].
    + destruct (ascii_dec a b) as [->|Hne].
      * rewrite IH. split; intros [t Ht]; exists t;
          rewrite append_cons in *; congruence.
      * split; [done | intros [t Ht]; rewrite append_cons in Ht; congruence].
Qed.

Lemma infix_spec q t : infix q t = true ↔ occurs_in q t.
Proof.
  unfold occurs_in. induction t as [|b t IH]; cbn [infix].
  - rewrite orb_false_r, prefix_spec. split.
    + intros [u Hu]. by exists "", u.
    + intros (pre & post & Ht). destruct pre; [|discriminate].
      exists post. exact Ht.
  - rewrite orb_true_iff, prefix_spec, IH. split.
    + intros [[u Hu] | (pre & post & Ht)].
      * by exists "", u.
      * exists (String b pre), post. rewrite append_cons. by rewrite Ht.
    + intros (pre & post & Ht). destruct pre as [|c pre].
      * left. by exists post.
      * right. exists pre, post. rewrite append_cons in Ht. congruence.
Qed.

Lemma infix_empty t : infix "" t = true.
Proof. apply infix_spec. by exists "", t. Qed.

(** ** Lists and results *)

Lemma mask_filter_fmap {A} (f : A → bool) (l : list A) :
  mask_filter l (f <$> l) = filter (λ a, f a = true) l.
Proof.
  induction l as [|a l IH]; [done|].
  rewrite fmap_cons, filter_cons. cbn [mask_filter]. destruct (f a) eqn:E.
  - rewrite decide_True by done. by rewrite IH.
  - rewrite decide_False by congruence. exact IH.
Qed.

Lemma traverse_ok_fmap {A B} (f : A → result B) (g : A → B) (l : list A) :
  (∀ a, a ∈ l → f a = Ok (g a)) → traverse f l = Ok (g <$> l).
Proof.
  induction l as [|a l IH]; intros Hf; simpl; [done|].
  rewrite (Hf a) by apply list_elem_of_here. simpl.
  rewrite IH; [done|]. intros b Hb. apply Hf. by apply list_elem_of_further.
Qed.

(** ** Frames *)

Section FrameFacts.
Context {F : Type} `{Runtime F}.
Implicit Types (df : DataFrame F) (s : list (cell F)) (r : record F).

Lemma getitem_has df c :
  has_column c df = true → getitem df c = Ok (column df c).
Proof. unfold getitem. by intros ->. Qed.

Lemma getitem_missing df c :
  has_column c df = false → getitem df c = Raise (KeyError c).
Proof. unfold getitem. by intros ->. Qed.

Lemma getitem_ok_inv df c s :
  getitem df c = Ok s → has_column c df = true ∧ s = column df c.
Proof.
  unfold getitem. destruct (has_column c df); [|done]. by intros [= <-].
Qed.

Lemma length_column df c : length (column df c) = len df.
Proof. unfold column, len. by rewrite length_fmap. Qed.

Lemma lookup_set_cell c (v : cell F) r : set_cell c v r !! c = v.
Proof.
  destruct v as [x|]; simpl; [apply lookup_insert_eq | apply lookup_delete_eq].
Qed.

Lemma lookup_set_cell_ne c c' (v : cell F) r :
  c ≠ c' → set_cell c v r !! c' = r !! c'.
Proof.
  intros Hne. destruct v as [x|]; simpl;
    [by apply lookup_insert_ne | by apply lookup_delete_ne].
Qed.

Lemma len_setitem df c s : length s = len df → len (setitem df c s) = len df.
Proof.
  unfold len, setitem. simpl. intros Hl.
  rewrite length_zip_with. rewrite Hl. unfold len. lia.
Qed.

Lemma column_zip_set c s (l : list (record F)) :
  length s = length l →
  (λ r : record F, r !! c) <$> zip_with (set_cell c) s l = s.
Proof.
  revert l. induction s as [|v s IH]; intros [|r l] Hl; simpl in *; try done.
  rewrite lookup_set_cell. f_equal. apply IH. lia.
Qed.

Lemma column_zip_set_ne c c' s (l : list (record F)) :
  c ≠ c' → length s = length l →
  (λ r : record F, r !! c') <$> zip_with (set_cell c) s l =
  (λ r : record F, r !! c') <$> l.
Proof.
  intros Hne. revert l.
  induction s as [|v s IH]; intros [|r l] Hl; simpl in *; try done.
  rewrite lookup_set_cell_ne by done. f_equal. apply IH. lia.
Qed.

Lemma column_setitem df c s :
  length s = len df → column (setitem df c s) c = s.
Proof. intros Hl. unfold column, setitem. simpl. by apply column_zip_set. Qed.

Lemma column_setitem_ne df c c' s :
  c ≠ c' → length s = len df → column (setitem df c s) c' = column df c'.
Proof.
  intros Hne Hl. unfold column, setitem. simpl. by apply column_zip_set_ne.
Qed.

Lemma has_column_setitem df c c' s :
  has_column c' (setitem df c s) = has_column c' df || bool_decide (c' = c).
Proof.
  unfold setitem. simpl. unfold has_column. simpl.
  destruct (bool_decide (c ∈ columns df)) eqn:E; simpl.
  - apply bool_decide_eq_true in E.
    destruct (bool_decide (c' ∈ columns df)) eqn:E'; [done|].
    apply bool_decide_eq_false in E'. simpl. symmetry.
    apply bool_decide_eq_false. congruence.
  - apply eq_true_iff_eq. rewrite orb_true_iff, !bool_decide_eq_true.
    rewrite elem_of_app, list_elem_of_singleton. tauto.
Qed.

Lemma has_column_setitem_same df c s : has_column c (setitem df c s) = true.
Proof.
  rewrite has_column_setitem. rewrite (bool_decide_eq_true_2 (c = c)) by done.
  apply orb_true_r.
Qed.

Lemma getitem_setitem df c s :
  length s = len df → getitem (setitem df c s) c = Ok s.
Proof.
  intros Hl. rewrite getitem_has by apply has_column_setitem_same.
  by rewrite column_setitem.
Qed.

Lemma getitem_setitem_ne df c c' s :
  c ≠ c' → length s = len df → getitem (setitem df c s) c' = getitem df c'.
Proof.
  intros Hne Hl. unfold getitem. rewrite has_column_setitem.
  rewrite (bool_decide_eq_false_2 (c' = c)) by congruence.
  rewrite orb_false_r. by rewrite column_setitem_ne.
Qed.

Lemma length_fillna (x : value F) s : length (fillna x s) = length s.
Proof. unfold fillna. by rewrite length_fmap. Qed.

Lemma length_str_upper s : length (str_upper s) = length s.
Proof. unfold str_upper. by rewrite length_fmap. Qed.

Lemma len_select_eq df c (x : value F) :
  len (select df (eq_scalar (column df c) x)) =
  length (filter (λ r : record F, r !! c = Some x) (rows df)).
Proof.
  unfold len, select, eq_scalar, column. simpl.
  rewrite <- list_fmap_compose. rewrite mask_filter_fmap.
  f_equal. apply list_filter_iff. intros r. simpl.
  by rewrite bool_decide_eq_true.
Qed.

Lemma df_empty_false df : df_empty df = false → (1 ≤ len df)%nat.
Proof.
  unfold df_empty, len. intros [_ Hr]%orb_false_iff.
  apply bool_decide_eq_false in Hr. destruct (rows df); [done|simpl; lia].
Qed.

(** The [.str] accessor *)
Lemma str_accessor_ok s : text_column s = true → str_accessor s = Ok s.
Proof. unfold text_column, str_accessor, has_text. by intros ->. Qed.

Lemma str_accessor_raise s :
  text_column s = false → str_accessor s = Raise AttributeError.
Proof. unfold text_column, str_accessor, has_text. by intros ->. Qed.

Lemma str_accessor_inv s s' :
  str_accessor s = Ok s' → s' = s ∧ text_column s = true.
Proof.
  unfold str_accessor, text_column, has_text.
  destruct (_ || _); [|done]. by intros [= <-].
Qed.

Lemma text_column_nil : text_column (@nil (cell F)) = true.
Proof. done. Qed.

Lemma text_column_fillna x s :
  text_column (fillna (Str x) s) =
  bool_decide (s = []) || existsb textual s.
Proof.
  unfold text_column, fillna. destruct s as [|c s]; [done|].
  rewrite !bool_decide_eq_false_2 by done. cbn [orb].
  induction (c :: s) as [|a l IH]; [done|].
  rewrite fmap_cons. cbn [existsb]. rewrite IH. f_equal.
  by destruct a as [[t|y]|].
Qed.

End FrameFacts.

(** ** Loading *)

Section LoadFacts.
Context {F : Type} `{Runtime F}.
Implicit Types (df raw : DataFrame F) (s : list (cell F)).

Lemma to_float_strip_ok (c : cell F) :
  (∀ t, c = Some (Str t) → is_Some (py_float (strip_currency t))) →
  to_float (match c with
            | Some (Str t) => Some (Str (remove_chars "$," t))
            | _ => c
            end) = Ok (Variant2.clean_currency c).
Proof.
  intros Hc. destruct c as [[t|x]|]; simpl; try done.
  rewrite remove_chars_strip. fold (strip_currency t).
  destruct (Hc t eq_refl) as [x Hx]. unfold strip_currency in *.
  rewrite Hx. by destruct x.
Qed.

Lemma astype_float_ok s :
  (∀ t, Some (Str t) ∈ s → is_Some (py_float (strip_currency t))) →
  astype_float (replace_regex_class "$," s) =
  Ok (Variant2.clean_currency <$> s).
Proof.
  intros Hs. unfold astype_float, replace_regex_class.
  induction s as [|c s IH]; [done|].
  rewrite !fmap_cons. cbn [traverse].
  rewrite to_float_strip_ok.
  - rewrite IH; [done|]. intros t Ht. apply Hs. by apply list_elem_of_further.
  - intros t ->. apply Hs. apply list_elem_of_here.
Qed.

Lemma astype_float_raise s t :
  Some (Str t) ∈ s → py_float (strip_currency t) = None →
  ∃ e, astype_float (replace_regex_class "$," s) = Raise e.
Proof.
  intros Ht Hnone. unfold astype_float, replace_regex_class.
  induction s as [|c s IH]; [by apply elem_of_nil in Ht|].
  rewrite fmap_cons. cbn [traverse].
  apply elem_of_cons in Ht as [<-|Ht].
  - cbn [to_float]. rewrite remove_chars_strip, Hnone. simpl. eauto.
  - destruct (to_float _) as [y|e]; simpl; [|eauto].
    destruct (IH Ht) as [e ->]. simpl. eauto.
Qed.

(** What [load_data] of variant 1 returns when the dues column is there
    and every text entry of it is numeric once stripped. *)
Lemma status_loads_accessor raw :
  has_column "ESTADO_AFILIADO" raw = true →
  text_column (fillna (Str "DESCONOCIDO") (column raw "ESTADO_AFILIADO")) =
  status_loads raw.
Proof.
  intros Hst. rewrite text_column_fillna. unfold status_loads.
  rewrite Hst. cbn [negb orb]. f_equal. unfold column.
  apply bool_decide_ext. split.
  - by intros ?%fmap_nil_inv.
  - by intros ->.
Qed.


(** ... and when some text entry is not numeric. *)
Lemma v1_load_not_numeric raw t :
  has_column "SUMA_CUOTAS" raw = true →
  Some (Str t) ∈ column raw "SUMA_CUOTAS" →
  py_float (strip_currency t) = None →
  ∃ e, Variant1.load_data (Ok raw) =
       (empty_frame, [st_error "Error al cargar el archivo: " e]).
Proof.
  intros Hcol Ht Hnone. unfold Variant1.load_data, Variant1.load_data_try.
  cbn [mbind result_bind]. rewrite Hcol.
  rewrite (getitem_has _ _ Hcol). cbn [mbind result_bind].
  destruct (astype_float_raise _ _ Ht Hnone) as [e ->].
  cbn [mbind result_bind]. eauto.
Qed.

Lemma v2_load_missing_status raw :
  has_column "ESTADO_AFILIADO" raw = false →
  Variant2.load_data (Ok raw) = Raise (KeyError "ESTADO_AFILIADO").
Proof.
  intros Hst. unfold Variant2.load_data. cbn [mbind result_bind].
  destruct (has_column "SUMA_CUOTAS" raw) eqn:Hd.
  - rewrite (getitem_has _ _ Hd). cbn [mbind result_bind].
    rewrite getitem_missing; [done|].
    rewrite has_column_setitem, Hst. done.
  - cbn [mbind result_bind]. rewrite getitem_missing; [done|].
    unfold setitem_scalar. rewrite has_column_setitem, Hst. done.
Qed.

Lemma v2_load_missing_regional raw :
  has_column "ESTADO_AFILIADO" raw = true →
  has_column "REGIONAL" raw = false →
  Variant2.load_data (Ok raw) = Raise (KeyError "REGIONAL").
Proof.
  intros Hst Hreg. unfold Variant2.load_data. cbn [mbind result_bind].
  destruct (has_column "SUMA_CUOTAS" raw) eqn:Hd.
  - rewrite (getitem_has _ _ Hd). cbn [mbind result_bind].
    rewrite getitem_has by (rewrite has_column_setitem, Hst; done).
    cbn [mbind result_bind].
    rewrite getitem_missing; [done|].
    rewrite !has_column_setitem, Hreg. done.
  - cbn [mbind result_bind]. unfold setitem_scalar.
    rewrite getitem_has by (rewrite has_column_setitem, Hst; done).
    cbn [mbind result_bind].
    rewrite getitem_missing; [done|].
    rewrite !has_column_setitem, Hreg. done.
Qed.

(** The dues column variant 2 derives: cleaned entry by entry, or 0.0
    throughout when the source has no dues column. *)
Lemma v2_load_ok raw :
  has_column "ESTADO_AFILIADO" raw = true →
  has_column "REGIONAL" raw = true →
  ∃ df, Variant2.load_data (Ok raw) = Ok df ∧
    len df = len raw ∧
    (∀ c, has_column c df =
          has_column c raw || bool_decide (c = "SUMA_CUOTAS_NUM")) ∧
    column df "SUMA_CUOTAS_NUM" =
      (if has_column "SUMA_CUOTAS" raw
       then Variant2.clean_currency <$> column raw "SUMA_CUOTAS"
       else replicate (len raw) (Some (Num fzero))) ∧
    column df "ESTADO_AFILIADO" =
      fillna (Str "DESCONOCIDO") (column raw "ESTADO_AFILIADO") ∧
    column df "REGIONAL" =
      fillna (Str "SIN ASIGNAR") (column raw "REGIONAL") ∧
    (∀ c, c ≠ "SUMA_CUOTAS_NUM" → c ≠ "ESTADO_AFILIADO" → c ≠ "REGIONAL" →
          column df c = column raw c).
Proof.
  intros Hst Hreg. unfold Variant2.load_data. cbn [mbind result_bind].
  set (dues := if has_column "SUMA_CUOTAS" raw
               then Variant2.clean_currency <$> column raw "SUMA_CUOTAS"
               else replicate (len raw) (Some (Num fzero))).
  assert (Hdl : length dues = len raw).
  { subst dues. destruct (has_column "SUMA_CUOTAS" raw).
    - by rewrite length_fmap, length_column.
    - by rewrite length_replicate. }
  assert (Hstep : (if has_column "SUMA_CUOTAS" raw
                   then s ← getitem raw "SUMA_CUOTAS";
                        Ok (setitem raw "SUMA_CUOTAS_NUM"
                                    (Variant2.clean_currency <$> s))
                   else Ok (setitem_scalar raw "SUMA_CUOTAS_NUM" (Num fzero)))
                  = Ok (setitem raw "SUMA_CUOTAS_NUM" dues)).
  { subst dues. destruct (has_column "SUMA_CUOTAS" raw) eqn:Hd.
    - by rewrite (getitem_has _ _ Hd).
    - done. }
  rewrite Hstep. cbn [mbind result_bind]. clearbody dues. clear Hstep.
  set (df1 := setitem raw "SUMA_CUOTAS_NUM" dues).
  assert (H1 : len df1 = len raw) by by apply len_setitem.
  assert (Hst1 : has_column "ESTADO_AFILIADO" df1 = true).
  { subst df1. by rewrite has_column_setitem, Hst. }
  rewrite (getitem_has _ _ Hst1). cbn [mbind result_bind].
  set (est := fillna _ (column df1 "ESTADO_AFILIADO")).
  assert (Hel : length est = len df1).
  { subst est. by rewrite length_fillna, length_column. }
  set (df2 := setitem df1 "ESTADO_AFILIADO" est).
  assert (H2 : len df2 = len df1) by by apply len_setitem.
  assert (Hreg2 : has_column "REGIONAL" df2 = true).
  { subst df2 df1. by rewrite !has_column_setitem, Hreg. }
  rewrite (getitem_has _ _ Hreg2). cbn [mbind result_bind].
  set (rg := fillna _ (column df2 "REGIONAL")).
  assert (Hrl : length rg = len df2).
  { subst rg. by rewrite length_fillna, length_column. }
  eexists. split; [reflexivity|].
  split; [rewrite len_setitem by done; congruence|].
  split.
  { intros c. subst df2 df1. rewrite !has_column_setitem.
    destruct (has_column c raw) eqn:Hc; simpl; [done|].
    destruct (bool_decide (c = "SUMA_CUOTAS_NUM")) eqn:E1; simpl; [done|].
    destruct (bool_decide (c = "ESTADO_AFILIADO")) eqn:E2; simpl.
    { apply bool_decide_eq_true in E2. subst c. congruence. }
    destruct (bool_decide (c = "REGIONAL")) eqn:E3; simpl; [|done].
    apply bool_decide_eq_true in E3. subst c. congruence. }
  split.
  { rewrite column_setitem_ne by done. subst df2.
    rewrite column_setitem_ne by done. subst df1.
    by rewrite column_setitem. }
  split.
  { rewrite column_setitem_ne by done. subst df2.
    rewrite column_setitem by done. subst est df1.
    by rewrite column_setitem_ne. }
  split.
  { rewrite column_setitem by done. subst rg df2.
    rewrite column_setitem_ne by done. subst df1.
    by rewrite column_setitem_ne. }
  intros c Hc1 Hc2 Hc3.
  rewrite column_setitem_ne by done. subst df2.
  rewrite column_setitem_ne by done. subst df1.
  by rewrite column_setitem_ne.
Qed.

Lemma v2_load_ok_inv raw df :
  Variant2.load_data (Ok raw) = Ok df →
  has_column "ESTADO_AFILIADO" raw = true ∧
  has_column "REGIONAL" raw = true.
Proof.
  intros Hl.
  destruct (has_column "ESTADO_AFILIADO" raw) eqn:Hst.
  - destruct (has_column "REGIONAL" raw) eqn:Hreg; [done|].
    by rewrite v2_load_missing_regional in Hl.
  - by rewrite v2_load_missing_status in Hl.
Qed.
End LoadFacts.

(** ** Sums *)

Section SumFacts.
Context {F : Type} `{Runtime F}.
Implicit Types (s : list (cell F)) (acc x : F).

Lemma sum_from_numeric acc s :
  forallb numeric s = true → sum_from acc s = Ok (total_from acc s).
Proof.
  revert acc. induction s as [|c s IH]; intros acc Hs; [done|].
  cbn [forallb] in Hs. apply andb_true_iff in Hs as [Hc Hs].
  cbn [sum_from]. destruct c as [[t|y]|]; try done; simpl; by rewrite IH.
Qed.

Lemma series_sum_numeric s :
  forallb numeric s = true → series_sum s = Ok (total s).
Proof. apply sum_from_numeric. Qed.

Lemma sum_from_ok acc s x :
  sum_from acc s = Ok x → x = total_from acc s ∧ forallb numeric s = true.
Proof.
  revert acc. induction s as [|c s IH]; intros acc; cbn [sum_from].
  - by intros [= <-].
  - destruct c as [[t|y]|]; simpl; try done; intros Hs;
      by apply IH in Hs.
Qed.

Lemma series_sum_ok s x :
  series_sum s = Ok x → x = total s ∧ forallb numeric s = true.
Proof. apply sum_from_ok. Qed.

Lemma total_from_app acc s1 s2 :
  total_from acc (s1 ++ s2) = total_from (total_from acc s1) s2.
Proof. unfold total_from. apply foldl_app. Qed.

Lemma total_snoc s x : total (s ++ [Some (Num x)]) = fadd (total s) x.
Proof. unfold total. by rewrite total_from_app. Qed.

Context `{!ExactAdd F}.

Lemma total_from_acc acc s : total_from acc s = fadd acc (total s).
Proof.
  unfold total. revert acc. induction s as [|c s IH]; intros acc.
  - simpl. by rewrite fadd_comm, fadd_0_l.
  - cbn [total_from foldl]. fold (total_from acc (c :: s)).
    destruct c as [[t|y]|]; cbn [total_from foldl];
      try (fold (total_from acc s); fold (total_from fzero s); apply IH).
    fold (total_from (fadd acc y) s). fold (total_from (fadd fzero y) s).
    rewrite (IH (fadd acc y)), (IH (fadd fzero y)).
    by rewrite fadd_0_l, <- fadd_assoc.
Qed.

Lemma total_cons_num x s : total (Some (Num x) :: s) = fadd x (total s).
Proof.
  unfold total at 1. cbn [total_from foldl].
  fold (total_from (fadd fzero x) s).
  by rewrite total_from_acc, fadd_0_l.
Qed.

Lemma total_cons_skip (c : cell F) s :
  (∀ x, c ≠ Some (Num x)) → total (c :: s) = total s.
Proof. intros Hc. destruct c as [[t|y]|]; try done. by destruct (Hc y). Qed.

Lemma sum_values_cons x xs : sum_values (x :: xs) = fadd x (sum_values xs).
Proof. unfold sum_values. rewrite fmap_cons. apply total_cons_num. Qed.
End SumFacts.

(** ** Groups *)

Lemma filter_ext_in {A} (P Q : A → Prop) `{!∀ x, Decision (P x)}
    `{!∀ x, Decision (Q x)} (l : list A) :
  (∀ x, x ∈ l → P x ↔ Q x) → filter P l = filter Q l.
Proof.
  induction l as [|a l IH]; intros Hpq; [done|].
  rewrite !filter_cons.
  assert (Ha : P a ↔ Q a) by apply Hpq, list_elem_of_here.
  rewrite IH by (intros x Hx; apply Hpq; by apply list_elem_of_further).
  destruct (decide (P a)), (decide (Q a)); tauto || done.
Qed.

Section GroupFacts.
Context {F : Type} `{Runtime F}.
Implicit Types (df : DataFrame F) (s : list (cell F)) (k : value F).

Lemma elem_of_group_keys s k : k ∈ group_keys s ↔ Some k ∈ s.
Proof.
  unfold group_keys. rewrite merge_sort_Permutation, elem_of_remove_dups.
  rewrite list_elem_of_omap. split.
  - intros (c & Hc & Hk). simpl in Hk. by subst c.
  - intros Hk. by exists (Some k).
Qed.

Lemma NoDup_group_keys s : NoDup (group_keys s).
Proof.
  unfold group_keys. rewrite merge_sort_Permutation. apply NoDup_remove_dups.
Qed.

Lemma has_column_group df c d k :
  has_column d (group df c k) = has_column d df.
Proof. done. Qed.

Lemma traverse_ok_inv {A B} (f : A → result B) (l : list A) ys :
  traverse f l = Ok ys → Forall2 (λ a y, f a = Ok y) l ys.
Proof.
  revert ys. induction l as [|a l IH]; intros ys; cbn [traverse].
  - intros [= <-]. constructor.
  - destruct (f a) as [y|e] eqn:Ea; simpl; [|done].
    destruct (traverse f l) as [ys'|e] eqn:El; simpl; [|done].
    intros [= <-]. constructor; [done|]. by apply IH.
Qed.

Lemma traverse_ok_proj {A B C} (f : A → result B) (g : A → C) (h : B → C)
    (l : list A) ys :
  traverse f l = Ok ys →
  (∀ a y, a ∈ l → f a = Ok y → h y = g a) →
  h <$> ys = g <$> l.
Proof.
  intros Ht%traverse_ok_inv Hp.
  induction Ht as [|a y l ys Hay Hl IH]; [done|].
  rewrite !fmap_cons. f_equal.
  - apply Hp; [apply list_elem_of_here | done].
  - apply IH. intros a' y' Ha'. apply Hp. by apply list_elem_of_further.
Qed.

Lemma lookup_key_fmap {A} (g : value F → A) (ks : list (value F)) k :
  lookup_key k ((λ k', (k', g k')) <$> ks) =
  if decide (k ∈ ks) then Some (g k) else None.
Proof.
  induction ks as [|k' ks IH]; [done|].
  rewrite fmap_cons. cbn [lookup_key].
  destruct (decide (k' = k)) as [->|Hne].
  - rewrite decide_True; [done|]. apply list_elem_of_here.
  - rewrite IH. destruct (decide (k ∈ ks)) as [Hin|Hin].
    + rewrite decide_True; [done|]. by apply list_elem_of_further.
    + rewrite decide_False; [done|].
      intros [?|?]%elem_of_cons; congruence.
Qed.

Context `{!ExactAdd F}.

Lemma total_cons (c : cell F) s : total (c :: s) = fadd (cell_value c) (total s).
Proof.
  destruct c as [[t|x]|]; cbn [cell_value].
  - rewrite total_cons_skip by done. by rewrite fadd_0_l.
  - apply total_cons_num.
  - rewrite total_cons_skip by done. by rewrite fadd_0_l.
Qed.

(** Two disjoint selections add up to their union. *)
Lemma total_filter_or (g : record F → cell F) (P Q : record F → Prop)
    `{!∀ r, Decision (P r)} `{!∀ r, Decision (Q r)} (l : list (record F)) :
  (∀ r, P r → Q r → False) →
  total (g <$> filter (λ r, P r ∨ Q r) l) =
  fadd (total (g <$> filter P l)) (total (g <$> filter Q l)).
Proof.
  intros Hdis. induction l as [|r l IH].
  - simpl. change (total (@nil (cell F))) with (fzero : F).
    by rewrite fadd_0_l.
  - rewrite !filter_cons.
    destruct (decide (P r)) as [HP|HP]; destruct (decide (Q r)) as [HQ|HQ].
    + destruct (Hdis r HP HQ).
    + rewrite decide_True by (by left).
      rewrite !fmap_cons, !total_cons, IH. by rewrite fadd_assoc.
    + rewrite decide_True by (by right).
      rewrite !fmap_cons, !total_cons, IH.
      rewrite !fadd_assoc. f_equal. apply fadd_comm.
    + rewrite decide_False by tauto. exact IH.
Qed.

(** The totals of the groups of distinct keys add up to the total of the
    records whose key is one of them. *)
Lemma groups_total (c : string) (g : record F → cell F)
    (ks : list (value F)) (l : list (record F)) :
  NoDup ks →
  sum_values ((λ k, total (g <$> filter (λ r : record F, r !! c = Some k) l))
                <$> ks) =
  total (g <$> filter (λ r : record F, r !! c ∈ (Some <$> ks)) l).
Proof.
  induction 1 as [|k ks Hk Hnd IH].
  - simpl. replace (filter _ l) with (@nil (record F)); [done|].
    symmetry. induction l as [|r l IHl]; [done|].
    rewrite filter_cons_False; [done|]. apply not_elem_of_nil.
  - rewrite fmap_cons, sum_values_cons, IH.
    rewrite <- total_filter_or.
    + f_equal. f_equal. apply list_filter_iff. intros r.
      rewrite fmap_cons, elem_of_cons. done.
    + intros r Hr1 Hr2. rewrite Hr1 in Hr2.
      apply list_elem_of_fmap in Hr2 as (k' & [= <-] & Hin). done.
Qed.

(** With the keys of the column itself every record with a key is in
    some group. *)
Lemma groups_total_keys (c : string) (g : record F → cell F) df :
  sum_values ((λ k, total (g <$> rows (group df c k)))
                <$> group_keys (column df c)) =
  total (g <$> filter (λ r : record F, is_Some (r !! c)) (rows df)).
Proof.
  unfold group. cbn [rows].
  rewrite groups_total by apply NoDup_group_keys.
  f_equal. f_equal. apply filter_ext_in.
  intros r Hr. split.
  - intros (k & Hk & _)%list_elem_of_fmap. by rewrite Hk.
  - intros [k Hk]. rewrite Hk. apply list_elem_of_fmap. exists k.
    split; [done|]. apply elem_of_group_keys. unfold column.
    apply list_elem_of_fmap. by exists r.
Qed.
End GroupFacts.

(** ** Indicators *)

Lemma filter_fmap {A B} (f : A → B) (P : B → Prop) `{!∀ y, Decision (P y)}
    (l : list A) :
  filter P (f <$> l) = f <$> filter (λ a, P (f a)) l.
Proof.
  induction l as [|a l IH]; [done|].
  rewrite fmap_cons, !filter_cons. destruct (decide (P (f a))); by rewrite IH.
Qed.

Section KpiFacts.
Context {F : Type} `{Runtime F}.
Implicit Types (df raw : DataFrame F) (s : list (cell F)) (r : record F).

Lemma forallb_numeric_column df :
  forallb numeric (column df "SUMA_CUOTAS_NUM") = true ↔
  ∀ r, r ∈ rows df → numeric (r !! "SUMA_CUOTAS_NUM") = true.
Proof.
  unfold column. rewrite forallb_forall. split.
  - intros Hs r Hr. apply Hs. apply list_elem_of_In.
    apply list_elem_of_fmap. by exists r.
  - intros Hr c Hc%list_elem_of_In. apply list_elem_of_fmap in Hc as (r & -> & Hin).
    by apply Hr.
Qed.

(** The indicators of variant 1 on a frame with a status column. *)
Lemma v1_kpis_spec df :
  has_column "ESTADO_AFILIADO" df = true →
  Variant1.kpis df =
    (total ← (if has_column "SUMA_CUOTAS_NUM" df
              then series_sum (column df "SUMA_CUOTAS_NUM")
              else Ok fzero);
     Ok (Variant1.mkKpis
           (len df)
           (length (filter (status_is "ACTIVO") (rows df)))
           (length (filter (status_is "RETIRADO") (rows df)))
           total)).
Proof.
  intros Hst. unfold Variant1.kpis.
  rewrite (getitem_has _ _ Hst). cbn [mbind result_bind].
  rewrite !len_select_eq.
  destruct (has_column "SUMA_CUOTAS_NUM" df) eqn:Hd; [|done].
  by rewrite (getitem_has _ _ Hd).
Qed.

Lemma str_upper_eq_scalar s v :
  eq_scalar (str_upper s) (Str v) =
  (λ c : cell F, bool_decide (upper_is v c)) <$> s.
Proof.
  unfold eq_scalar, str_upper. rewrite <- list_fmap_compose.
  apply list_fmap_ext. intros i c _. simpl.
  apply bool_decide_ext. unfold upper_is. destruct c as [[t|x]|]; split.
  - intros [= <-]. by exists t.
  - intros (t' & [= <-] & <-). done.
  - done.
  - by intros (t & [=] & _).
  - done.
  - by intros (t & [=] & _).
Qed.

Lemma len_select_upper df v :
  len (select df (eq_scalar (str_upper (column df "ESTADO_AFILIADO")) (Str v)))
  = length (filter (upper_status_is v) (rows df)).
Proof.
  rewrite str_upper_eq_scalar. unfold len, select, column. cbn [rows].
  rewrite <- list_fmap_compose, mask_filter_fmap. f_equal.
  apply list_filter_iff. intros r. simpl. by rewrite bool_decide_eq_true.
Qed.

(** The indicators of variant 2 on a frame with the status and the dues
    columns. *)
Lemma v2_kpis_spec df :
  has_column "ESTADO_AFILIADO" df = true →
  has_column "SUMA_CUOTAS_NUM" df = true →
  text_column (column df "ESTADO_AFILIADO") = true →
  Variant2.kpis df =
    (total ← series_sum (column df "SUMA_CUOTAS_NUM");
     Ok (Variant2.mkKpis
           (len df)
           (length (filter (upper_status_is "ACTIVO") (rows df)))
           (length (filter (upper_status_is "RETIRADO") (rows df)))
           total)).
Proof.
  intros Hst Hd Htx. unfold Variant2.kpis.
  rewrite (getitem_has _ _ Hst), (getitem_has _ _ Hd).
  cbn [mbind result_bind]. rewrite (str_accessor_ok _ Htx).
  cbn [mbind result_bind]. by rewrite !len_select_upper.
Qed.

(** ... and on a frame whose status column is of a numeric dtype. *)
Lemma v2_kpis_raise df :
  has_column "ESTADO_AFILIADO" df = true →
  text_column (column df "ESTADO_AFILIADO") = false →
  Variant2.kpis df = Raise AttributeError.
Proof.
  intros Hst Htx. unfold Variant2.kpis.
  rewrite (getitem_has _ _ Hst). cbn [mbind result_bind].
  by rewrite (str_accessor_raise _ Htx).
Qed.

Lemma v2_kpis_inv df k :
  Variant2.kpis df = Ok k →
  has_column "ESTADO_AFILIADO" df = true ∧
  has_column "SUMA_CUOTAS_NUM" df = true ∧
  text_column (column df "ESTADO_AFILIADO") = true.
Proof.
  unfold Variant2.kpis.
  destruct (getitem df "ESTADO_AFILIADO") as [s|e] eqn:E; simpl; [|done].
  apply getitem_ok_inv in E as [Hst ->].
  destruct (str_accessor _) as [s|e] eqn:Ea; simpl; [|done].
  apply str_accessor_inv in Ea as [-> Htx].
  destruct (getitem df "SUMA_CUOTAS_NUM") as [s'|e] eqn:E'; simpl; [|done].
  intros _. by apply getitem_ok_inv in E' as [-> _].
Qed.


End KpiFacts.

(** ** The load of variant 1, inverted *)

Section Load1Facts.
Context {F : Type} `{Runtime F}.
Implicit Types (df raw : DataFrame F) (s : list (cell F)).

Lemma astype_float_inv s s' :
  astype_float s = Ok s' →
  length s' = length s ∧ forallb numeric s' = true.
Proof.
  unfold astype_float. revert s'.
  induction s as [|c s IH]; intros s'; cbn [traverse].
  - by intros [= <-].
  - destruct (to_float c) as [y|e] eqn:Ec; simpl; [|done].
    destruct (traverse to_float s) as [ys|e] eqn:Es; simpl; [|done].
    intros [= <-]. destruct (IH ys eq_refl) as [Hl Hn].
    split; [simpl; by rewrite Hl|]. cbn [forallb]. rewrite Hn, andb_true_r.
    destruct c as [[t|x]|]; simpl in Ec.
    + destruct (py_float t) as [[x|]|]; by inversion Ec.
    + by inversion Ec.
    + by inversion Ec.
Qed.

Lemma length_replace_regex_class cls s :
  length (replace_regex_class cls s) = length s.
Proof. unfold replace_regex_class. by rewrite length_fmap. Qed.

(** The first step of the load: the derived dues column. *)
Lemma v1_dues_step raw df1 :
  (if has_column "SUMA_CUOTAS" raw then
     s ← getitem raw "SUMA_CUOTAS";
     s ← astype_float (replace_regex_class "$," s);
     Ok (setitem raw "SUMA_CUOTAS_NUM" s)
   else Ok raw) = Ok df1 →
  len df1 = len raw ∧
  (∀ c, c ≠ "SUMA_CUOTAS_NUM" →
        has_column c df1 = has_column c raw ∧ column df1 c = column raw c) ∧
  (has_column "SUMA_CUOTAS" raw = true →
     has_column "SUMA_CUOTAS_NUM" df1 = true ∧
     forallb numeric (column df1 "SUMA_CUOTAS_NUM") = true) ∧
  (has_column "SUMA_CUOTAS" raw = false → df1 = raw).
Proof.
  destruct (has_column "SUMA_CUOTAS" raw) eqn:Hd.
  - rewrite (getitem_has _ _ Hd). cbn [mbind result_bind].
    destruct (astype_float _) as [s'|e] eqn:Es; simpl; [|done].
    intros [= <-]. apply astype_float_inv in Es as [Hl Hn].
    rewrite length_replace_regex_class, length_column in Hl.
    split; [by apply len_setitem|]. split; [|split; [|done]].
    + intros c Hc. split.
      * rewrite has_column_setitem.
        rewrite (bool_decide_eq_false_2 _ Hc). apply orb_false_r.
      * by apply column_setitem_ne.
    + intros _. split; [apply has_column_setitem_same|].
      by rewrite column_setitem.
  - intros [= <-]. repeat split; done.
Qed.

(** The second step: the status column, when there is one. *)
Lemma v1_status_step df1 df :
  (if has_column "ESTADO_AFILIADO" df1 then
     s ← getitem df1 "ESTADO_AFILIADO";
     s ← str_accessor (fillna (Str "DESCONOCIDO") s);
     Ok (setitem df1 "ESTADO_AFILIADO" (str_upper s))
   else Ok df1) = Ok df →
  len df = len df1 ∧
  (∀ c, has_column c df = has_column c df1) ∧
  (∀ c, c ≠ "ESTADO_AFILIADO" → column df c = column df1 c) ∧
  (has_column "ESTADO_AFILIADO" df1 = true →
     column df "ESTADO_AFILIADO" =
     str_upper (fillna (Str "DESCONOCIDO") (column df1 "ESTADO_AFILIADO"))) ∧
  status_loads df1 = true.
Proof.
  destruct (has_column "ESTADO_AFILIADO" df1) eqn:Hst.
  - rewrite (getitem_has _ _ Hst). cbn [mbind result_bind].
    destruct (str_accessor _) as [s|e] eqn:Ea; simpl; [|done].
    apply str_accessor_inv in Ea as [-> Htx].
    rewrite (status_loads_accessor _ Hst) in Htx.
    intros [= <-].
    assert (Hl : length (str_upper (fillna (Str "DESCONOCIDO")
                                           (column df1 "ESTADO_AFILIADO")))
                 = len df1).
    { by rewrite length_str_upper, length_fillna, length_column. }
    split; [by apply len_setitem|]. split; [|split; [|split]].
    + intros c. rewrite has_column_setitem.
      destruct (bool_decide (c = "ESTADO_AFILIADO")) eqn:E.
      * apply bool_decide_eq_true in E. subst c. rewrite Hst. done.
      * apply orb_false_r.
    + intros c Hc. by apply column_setitem_ne.
    + intros _. by apply column_setitem.
    + done.
  - intros [= <-]. repeat split; try done.
    unfold status_loads. by rewrite Hst.
Qed.

Lemma v1_load_try_inv raw df :
  Variant1.load_data_try (Ok raw) = Ok df →
  len df = len raw ∧
  (∀ c, c ≠ "SUMA_CUOTAS_NUM" → has_column c df = has_column c raw) ∧
  (∀ c, c ≠ "SUMA_CUOTAS_NUM" → c ≠ "ESTADO_AFILIADO" →
        column df c = column raw c) ∧
  (has_column "ESTADO_AFILIADO" raw = true →
     column df "ESTADO_AFILIADO" =
     str_upper (fillna (Str "DESCONOCIDO") (column raw "ESTADO_AFILIADO"))) ∧
  (has_column "SUMA_CUOTAS" raw = true →
     has_column "SUMA_CUOTAS_NUM" df = true ∧
     forallb numeric (column df "SUMA_CUOTAS_NUM") = true) ∧
  (has_column "SUMA_CUOTAS" raw = false →
     has_column "SUMA_CUOTAS_NUM" df = has_column "SUMA_CUOTAS_NUM" raw ∧
     column df "SUMA_CUOTAS_NUM" = column raw "SUMA_CUOTAS_NUM").
Proof.
  unfold Variant1.load_data_try. cbn [mbind result_bind].
  destruct (if has_column "SUMA_CUOTAS" raw then _ else _)
    as [df1|e] eqn:E1; [|done].
  cbn [mbind result_bind].
  match goal with
  | |- context [if has_column "ESTADO_AFILIADO" df1 then ?a else ?b] =>
      destruct (if has_column "ESTADO_AFILIADO" df1 then a else b)
        as [df2|e] eqn:E2; [|done]
  end.
  intros [= <-].
  apply v1_dues_step in E1 as (L1 & C1 & D1 & R1).
  apply v1_status_step in E2 as (L2 & H2 & C2 & S2 & _).
  split; [congruence|]. split; [|split; [|split; [|split]]].
  - intros c Hc. rewrite H2. by apply C1.
  - intros c Hc1 Hc2. rewrite C2 by done. by apply C1.
  - intros Hst. destruct (C1 "ESTADO_AFILIADO") as [Hh Hc]; [done|].
    rewrite S2 by congruence. by rewrite Hc.
  - intros Hd. destruct (D1 Hd) as [Hh Hn]. split; [by rewrite H2|].
    by rewrite C2.
  - intros Hd. rewrite (R1 Hd) in *. split; [apply H2 | by apply C2].
Qed.

(** The first step returns when the source has no dues column or every
    text of it is numeric once stripped. *)
Lemma v1_dues_step_ok raw :
  (has_column "SUMA_CUOTAS" raw = true →
   ∀ t, Some (Str t) ∈ column raw "SUMA_CUOTAS" →
        is_Some (py_float (strip_currency t))) →
  ∃ df1,
    (if has_column "SUMA_CUOTAS" raw then
       s ← getitem raw "SUMA_CUOTAS";
       s ← astype_float (replace_regex_class "$," s);
       Ok (setitem raw "SUMA_CUOTAS_NUM" s)
     else Ok raw) = Ok df1.
Proof.
  intros Hnum. destruct (has_column "SUMA_CUOTAS" raw) eqn:Hd; [|eauto].
  rewrite (getitem_has _ _ Hd). cbn [mbind result_bind].
  rewrite (astype_float_ok _ (Hnum eq_refl)). cbn [mbind result_bind]. eauto.
Qed.

Lemma status_loads_ext raw df1 :
  len df1 = len raw →
  has_column "ESTADO_AFILIADO" df1 = has_column "ESTADO_AFILIADO" raw →
  column df1 "ESTADO_AFILIADO" = column raw "ESTADO_AFILIADO" →
  status_loads df1 = status_loads raw.
Proof.
  intros Hl Hh Hc. unfold status_loads. rewrite Hh, Hc. do 2 f_equal.
  apply bool_decide_ext. unfold len in Hl.
  split; intros Hr; apply nil_length_inv; [rewrite <- Hl | rewrite Hl];
    by rewrite Hr.
Qed.

(** A load of variant 1 that returns has met a status column it can
    read. *)
(** What the load of variant 1 comes to once the dues are converted: it
    returns when the status column can be read, and ends with
    AttributeError when it cannot. *)
Lemma v1_load_try_ok raw :
  (has_column "SUMA_CUOTAS" raw = true →
   ∀ t, Some (Str t) ∈ column raw "SUMA_CUOTAS" →
        is_Some (py_float (strip_currency t))) →
  status_loads raw = true →
  ∃ df, Variant1.load_data_try (Ok raw) = Ok df.
Proof.
  intros Hnum Hsl. destruct (v1_dues_step_ok raw Hnum) as [df1 E1].
  unfold Variant1.load_data_try. cbn [mbind result_bind]. rewrite E1.
  cbn [mbind result_bind].
  apply v1_dues_step in E1 as (L1 & C1 & _).
  destruct (C1 "ESTADO_AFILIADO") as [Hh Hc]; [done|].
  destruct (has_column "ESTADO_AFILIADO" df1) eqn:Hst; [|eauto].
  rewrite (getitem_has _ _ Hst). cbn [mbind result_bind].
  rewrite str_accessor_ok; [cbn [mbind result_bind]; eauto|].
  rewrite Hc, status_loads_accessor; [done | congruence].
Qed.

Lemma v1_load_try_unreadable raw :
  (has_column "SUMA_CUOTAS" raw = true →
   ∀ t, Some (Str t) ∈ column raw "SUMA_CUOTAS" →
        is_Some (py_float (strip_currency t))) →
  status_loads raw = false →
  Variant1.load_data_try (Ok raw) = Raise AttributeError.
Proof.
  intros Hnum Hsl. destruct (v1_dues_step_ok raw Hnum) as [df1 E1].
  unfold Variant1.load_data_try. cbn [mbind result_bind]. rewrite E1.
  cbn [mbind result_bind].
  apply v1_dues_step in E1 as (L1 & C1 & _).
  destruct (C1 "ESTADO_AFILIADO") as [Hh Hc]; [done|].
  assert (Hst : has_column "ESTADO_AFILIADO" raw = true).
  { unfold status_loads in Hsl.
    destruct (has_column "ESTADO_AFILIADO" raw); [done|]. by simpl in Hsl. }
  rewrite Hh, Hst, (getitem_has df1) by congruence.
  cbn [mbind result_bind].
  rewrite str_accessor_raise; [done|].
  by rewrite Hc, status_loads_accessor.
Qed.

Lemma v1_load_try_status raw df :
  Variant1.load_data_try (Ok raw) = Ok df → status_loads raw = true.
Proof.
  unfold Variant1.load_data_try. cbn [mbind result_bind].
  destruct (if has_column "SUMA_CUOTAS" raw then _ else _)
    as [df1|e] eqn:E1; [|done].
  cbn [mbind result_bind].
  match goal with
  | |- context [if has_column "ESTADO_AFILIADO" df1 then ?a else ?b] =>
      destruct (if has_column "ESTADO_AFILIADO" df1 then a else b)
        as [df2|e] eqn:E2; [|done]
  end.
  intros _.
  apply v1_dues_step in E1 as (L1 & C1 & _).
  apply v1_status_step in E2 as (_ & _ & _ & _ & T2).
  destruct (C1 "ESTADO_AFILIADO") as [Hh Hc]; [done|].
  by rewrite <- (status_loads_ext raw df1).
Qed.

End Load1Facts.

(** ** The per-regional breakdowns *)

Section ReportFacts.
Context {F : Type} `{Runtime F}.
Implicit Types (df : DataFrame F) (k : value F).

Lemma numeric_group df c k :
  forallb numeric (column df "SUMA_CUOTAS_NUM") = true →
  forallb numeric (column (group df c k) "SUMA_CUOTAS_NUM") = true.
Proof.
  rewrite !forallb_numeric_column. intros Hn r Hr. apply Hn.
  unfold group in Hr. cbn [rows] in Hr.
  by apply list_elem_of_filter in Hr as [_ Hr].
Qed.

Lemma session_ok_inv df :
  session_ok df = true →
  has_column "ESTADO_AFILIADO" df = true ∧
  has_column "REGIONAL" df = true ∧
  has_column "SUMA_CUOTAS_NUM" df = true ∧
  (∀ r : record F, r ∈ rows df → is_Some (r !! "REGIONAL")) ∧
  forallb numeric (column df "SUMA_CUOTAS_NUM") = true.
Proof.
  unfold session_ok. rewrite !andb_true_iff.
  intros [[[H1 H2] H3] H4]. repeat split; try done.
  - intros r Hr. rewrite forallb_forall in H4.
    specialize (H4 r (proj1 (list_elem_of_In _ _) Hr)).
    apply andb_true_iff in H4 as [H4 _]. by apply bool_decide_eq_true in H4.
  - apply forallb_numeric_column. intros r Hr. rewrite forallb_forall in H4.
    specialize (H4 r (proj1 (list_elem_of_In _ _) Hr)).
    by apply andb_true_iff in H4 as [_ H4].
Qed.

Lemma session_ok_intro df :
  has_column "ESTADO_AFILIADO" df = true →
  has_column "REGIONAL" df = true →
  has_column "SUMA_CUOTAS_NUM" df = true →
  (∀ r : record F, r ∈ rows df → is_Some (r !! "REGIONAL")) →
  (∀ r : record F, r ∈ rows df → numeric (r !! "SUMA_CUOTAS_NUM") = true) →
  session_ok df = true.
Proof.
  intros H1 H2 H3 H4 H5. unfold session_ok. rewrite H1, H2, H3. simpl.
  apply forallb_forall. intros r Hr%list_elem_of_In.
  rewrite (H5 r Hr), andb_true_r. apply bool_decide_eq_true. by apply H4.
Qed.

(** Variant 1: the lines of the summary are the groups of the regional
    column, each with the total of its dues. *)
Lemma v1_summarise_inv kg line :
  Variant1.summarise kg = Ok line →
  REGIONAL line = kg.1 ∧
  Afiliados line = series_count (column kg.2 "CEDULA") ∧
  Activos line =
    count_true (eq_scalar (column kg.2 "ESTADO_AFILIADO") (Str "ACTIVO")) ∧
  Recaudo_Total line = total (column kg.2 "SUMA_CUOTAS_NUM").
Proof.
  unfold Variant1.summarise.
  destruct (getitem kg.2 "CEDULA") as [ids|e] eqn:E1; simpl; [|done].
  destruct (getitem kg.2 "ESTADO_AFILIADO") as [est|e] eqn:E2; simpl; [|done].
  destruct (getitem kg.2 "SUMA_CUOTAS_NUM") as [dues|e] eqn:E3; simpl; [|done].
  destruct (series_sum dues) as [x|e] eqn:E4; simpl; [|done].
  intros [= <-]. simpl.
  apply getitem_ok_inv in E1 as [_ ->]. apply getitem_ok_inv in E2 as [_ ->].
  apply getitem_ok_inv in E3 as [_ ->]. apply series_sum_ok in E4 as [-> _].
  done.
Qed.

Lemma v1_resumen_inv df lines :
  Variant1.resumen_regional df = Ok lines →
  REGIONAL <$> lines = group_keys (column df "REGIONAL") ∧
  Recaudo_Total <$> lines =
    (λ k, total ((λ r : record F, r !! "SUMA_CUOTAS_NUM")
                   <$> rows (group df "REGIONAL" k)))
      <$> group_keys (column df "REGIONAL").
Proof.
  unfold Variant1.resumen_regional, groupby.
  destruct (getitem df "REGIONAL") as [s|e] eqn:E0; simpl; [|done].
  apply getitem_ok_inv in E0 as [_ ->].
  destruct (getitem df "CEDULA"); simpl; [|done].
  destruct (getitem df "ESTADO_AFILIADO"); simpl; [|done].
  destruct (getitem df "SUMA_CUOTAS_NUM"); simpl; [|done].
  intros Ht. split.
  - rewrite (traverse_ok_proj _ fst _ _ _ Ht).
    + rewrite <- list_fmap_compose. apply list_fmap_id.
    + intros kg y _ Hy. by apply v1_summarise_inv in Hy as (-> & _).
  - rewrite (traverse_ok_proj _
               (λ kg, total (column kg.2 "SUMA_CUOTAS_NUM")) _ _ _ Ht).
    + by rewrite <- list_fmap_compose.
    + intros kg y _ Hy. by apply v1_summarise_inv in Hy as (_ & _ & _ & ->).
Qed.

Lemma v1_resumen_ok df :
  has_column "REGIONAL" df = true →
  has_column "CEDULA" df = true →
  has_column "ESTADO_AFILIADO" df = true →
  has_column "SUMA_CUOTAS_NUM" df = true →
  forallb numeric (column df "SUMA_CUOTAS_NUM") = true →
  ∃ lines, Variant1.resumen_regional df = Ok lines.
Proof.
  intros H1 H2 H3 H4 Hn. unfold Variant1.resumen_regional, groupby.
  rewrite (getitem_has _ _ H1), (getitem_has _ _ H2),
          (getitem_has _ _ H3), (getitem_has _ _ H4).
  cbn [mbind result_bind].
  eexists. apply traverse_ok_fmap with
    (g := λ kg : value F * DataFrame F,
            mkSummaryLine kg.1 (series_count (column kg.2 "CEDULA"))
              (count_true (eq_scalar (column kg.2 "ESTADO_AFILIADO")
                                     (Str "ACTIVO")))
              (total (column kg.2 "SUMA_CUOTAS_NUM"))).
  intros kg (k & -> & _)%list_elem_of_fmap. unfold Variant1.summarise. simpl.
  rewrite !getitem_has by (by rewrite has_column_group).
  cbn [mbind result_bind].
  rewrite series_sum_numeric by (by apply numeric_group). done.
Qed.

(** Variant 2: the totals by regional. *)
Lemma v2_recaudo_ok df :
  has_column "REGIONAL" df = true →
  has_column "SUMA_CUOTAS_NUM" df = true →
  forallb numeric (column df "SUMA_CUOTAS_NUM") = true →
  Variant2.recaudo_reg df =
  Ok ((λ k, (k, total (column (group df "REGIONAL" k) "SUMA_CUOTAS_NUM")))
        <$> group_keys (column df "REGIONAL")).
Proof.
  intros H1 H2 Hn. unfold Variant2.recaudo_reg, groupby.
  rewrite (getitem_has _ _ H1), (getitem_has _ _ H2).
  cbn [mbind result_bind].
  rewrite (traverse_ok_fmap _
    (λ kg : value F * DataFrame F,
       (kg.1, total (column kg.2 "SUMA_CUOTAS_NUM")))).
  - by rewrite <- list_fmap_compose.
  - intros kg (k & -> & _)%list_elem_of_fmap. simpl.
    rewrite getitem_has by (by rewrite has_column_group).
    cbn [mbind result_bind].
    rewrite series_sum_numeric by (by apply numeric_group). done.
Qed.

Lemma v2_recaudo_inv df totals :
  Variant2.recaudo_reg df = Ok totals →
  totals =
    (λ k, (k, total (column (group df "REGIONAL" k) "SUMA_CUOTAS_NUM")))
      <$> group_keys (column df "REGIONAL").
Proof.
  unfold Variant2.recaudo_reg, groupby.
  destruct (getitem df "REGIONAL") as [s|e] eqn:E0; simpl; [|done].
  apply getitem_ok_inv in E0 as [_ ->].
  destruct (getitem df "SUMA_CUOTAS_NUM"); simpl; [|done].
  intros Ht.
  rewrite <- (list_fmap_id totals).
  rewrite (traverse_ok_proj _
    (λ kg : value F * DataFrame F,
       (kg.1, total (column kg.2 "SUMA_CUOTAS_NUM"))) id _ _ Ht).
  - by rewrite <- list_fmap_compose.
  - intros kg y _. simpl.
    destruct (getitem kg.2 "SUMA_CUOTAS_NUM") as [s|e] eqn:E1; simpl; [|done].
    apply getitem_ok_inv in E1 as [_ ->].
    destruct (series_sum _) as [x|e] eqn:E2; simpl; [|done].
    apply series_sum_ok in E2 as [-> _]. by intros [= <-].
Qed.
End ReportFacts.

(** ** Appending a record (variant 2) *)

Section AppendFacts.
Context {F : Type} `{Runtime F}.
Implicit Types (df : DataFrame F) (k : value F) (s : list (cell F)).

Lemma lookup_key_None {A} k (l : list (value F * A)) :
  lookup_key k l = None ↔ k ∉ l.*1.
Proof.
  induction l as [|[k' a] l IH]; cbn [lookup_key].
  - split; [intros _; apply not_elem_of_nil | done].
  - rewrite fmap_cons, not_elem_of_cons. simpl.
    destruct (decide (k' = k)) as [->|Hne].
    + split; [done | intros [? _]; done].
    + rewrite IH. split; [intros ?; split; congruence | tauto].
Qed.

Lemma lookup_key_Some {A} k (a : A) (l : list (value F * A)) :
  NoDup l.*1 → lookup_key k l = Some a ↔ (k, a) ∈ l.
Proof.
  induction l as [|[k' a'] l IH]; intros Hnd; cbn [lookup_key].
  - split; [done | by intros ?%elem_of_nil].
  - rewrite fmap_cons in Hnd. apply NoDup_cons in Hnd as [Hk' Hnd].
    rewrite elem_of_cons. destruct (decide (k' = k)) as [->|Hne].
    + split.
      * intros [= ->]. by left.
      * intros [[= ->]|Hin]; [done|]. destruct Hk'.
        apply list_elem_of_fmap. by exists (k, a).
    + rewrite (IH Hnd). split; [tauto|]. intros [[= ? ?]|?]; congruence.
Qed.

Lemma lookup_key_Permutation {A} k (l1 l2 : list (value F * A)) :
  NoDup l1.*1 → l1 ≡ₚ l2 → lookup_key k l1 = lookup_key k l2.
Proof.
  intros Hnd Hp.
  assert (Hnd2 : NoDup l2.*1) by by rewrite <- Hp.
  destruct (lookup_key k l2) as [a|] eqn:E2.
  - apply lookup_key_Some; [done|]. rewrite Hp. by apply lookup_key_Some.
  - apply lookup_key_None. rewrite Hp. by apply lookup_key_None.
Qed.

(** The count of a key in [value_counts]. *)
Lemma value_counts_lookup s k :
  lookup_key k (value_counts s) =
  if decide (Some k ∈ s) then Some (occurrences k s) else None.
Proof.
  unfold value_counts.
  rewrite (lookup_key_Permutation k (merge_sort _ _)
             ((λ k, (k, occurrences k s)) <$> remove_dups (omap id s))).
  - rewrite lookup_key_fmap.
    destruct (decide (k ∈ remove_dups (omap id s))) as [Hin|Hin];
      rewrite elem_of_remove_dups, list_elem_of_omap in Hin.
    + rewrite decide_True; [done|].
      destruct Hin as (c & Hc & Hk). simpl in Hk. by subst c.
    + rewrite decide_False; [done|]. intros Hk. apply Hin. by exists (Some k).
  - rewrite merge_sort_Permutation, <- list_fmap_compose. simpl.
    rewrite list_fmap_id. apply NoDup_remove_dups.
  - apply merge_sort_Permutation.
Qed.

Lemma occurrences_snoc k k' s :
  occurrences k (s ++ [Some k']) =
  (occurrences k s + if decide (k' = k) then 1 else 0)%nat.
Proof.
  unfold occurrences. rewrite filter_app, length_app. f_equal.
  rewrite filter_cons, filter_nil.
  destruct (decide (k' = k)) as [->|Hne].
  - by rewrite decide_True.
  - rewrite decide_False; [done|]. congruence.
Qed.

Lemma occurrences_absent k s : Some k ∉ s → occurrences k s = 0%nat.
Proof.
  intros Hk. unfold occurrences.
  induction s as [|c s IH]; [done|].
  apply not_elem_of_cons in Hk as [Hc Hs].
  rewrite filter_cons_False by congruence. by apply IH.
Qed.

(** The frame after the append. *)
Lemma rows_append_row df ui :
  rows (Variant2.append_row df ui) = rows df ++ [Variant2.new_row ui].
Proof. done. Qed.

Lemma len_append_row df ui :
  len (Variant2.append_row df ui) = S (len df).
Proof. unfold len. rewrite rows_append_row, length_app. simpl. lia. Qed.

Lemma has_column_append_row df ui c :
  has_column c (Variant2.append_row df ui) =
  has_column c df || bool_decide (c ∈ Variant2.new_row_columns).
Proof.
  unfold has_column, Variant2.append_row, concat. cbn [columns].
  apply eq_true_iff_eq.
  rewrite orb_true_iff, !bool_decide_eq_true, elem_of_app.
  rewrite list_elem_of_difference.
  destruct (decide (c ∈ columns df)); tauto.
Qed.

Lemma column_append_row df ui c :
  column (Variant2.append_row df ui) c =
  column df c ++ [Variant2.new_row ui !! c].
Proof. unfold column. rewrite rows_append_row. by rewrite fmap_app. Qed.

Lemma new_row_fields ui :
  Variant2.new_row ui !! "CEDULA" = Some (Str (Variant2.cedula ui)) ∧
  Variant2.new_row ui !! "APELLIDOS / NOMBRES" =
    Some (Str (Variant2.nombre ui)) ∧
  Variant2.new_row ui !! "REGIONAL" =
    Some (Str (Variant2.regional_text (Variant2.reg ui))) ∧
  Variant2.new_row ui !! "ESTADO_AFILIADO" =
    Some (Str (estado_text (Variant2.estado ui))) ∧
  Variant2.new_row ui !! "SUMA_CUOTAS_NUM" = Some (Num (Variant2.cuota ui)) ∧
  Variant2.new_row ui !! "SUMA_CUOTAS" =
    Some (Str (fmt_money (Variant2.cuota ui))).
Proof. unfold Variant2.new_row. repeat split; by simplify_map_eq. Qed.

Lemma session_ok_append_row df ui :
  session_ok df = true → session_ok (Variant2.append_row df ui) = true.
Proof.
  intros (H1 & H2 & H3 & H4 & H5)%session_ok_inv.
  destruct (new_row_fields ui) as (_ & _ & Hr & _ & Hd & _).
  apply session_ok_intro.
  - by rewrite has_column_append_row, H1.
  - by rewrite has_column_append_row, H2.
  - by rewrite has_column_append_row, H3.
  - intros r. rewrite rows_append_row, elem_of_app, list_elem_of_singleton.
    intros [Hr'| ->]; [by apply H4 | by rewrite Hr].
  - intros r. rewrite rows_append_row, elem_of_app, list_elem_of_singleton.
    intros [Hr'| ->]; [|by rewrite Hd].
    by apply forallb_numeric_column with (df := df).
Qed.

(** The rows of a group after the append. *)
Lemma group_append_row df ui k :
  rows (group (Variant2.append_row df ui) "REGIONAL" k) =
  rows (group df "REGIONAL" k) ++
  (if decide (Str (Variant2.regional_text (Variant2.reg ui)) = k)
   then [Variant2.new_row ui] else []).
Proof.
  unfold group. cbn [rows]. rewrite rows_append_row, filter_app. f_equal.
  destruct (new_row_fields ui) as (_ & _ & Hr & _).
  rewrite filter_cons, filter_nil.
  destruct (decide (Str _ = k)) as [<-|Hne].
  - by rewrite decide_True.
  - rewrite decide_False; [done|]. rewrite Hr. congruence.
Qed.

Lemma group_total_append_row df ui k :
  total (column (group (Variant2.append_row df ui) "REGIONAL" k)
                "SUMA_CUOTAS_NUM") =
  if decide (Str (Variant2.regional_text (Variant2.reg ui)) = k)
  then fadd (total (column (group df "REGIONAL" k) "SUMA_CUOTAS_NUM"))
            (Variant2.cuota ui)
  else total (column (group df "REGIONAL" k) "SUMA_CUOTAS_NUM").
Proof.
  unfold column. rewrite group_append_row.
  destruct (new_row_fields ui) as (_ & _ & _ & _ & Hd & _).
  destruct (decide (Str _ = k)).
  - rewrite fmap_app. simpl. rewrite Hd. apply total_snoc.
  - by rewrite app_nil_r.
Qed.

Lemma group_total_absent df k :
  Some k ∉ column df "REGIONAL" →
  total (column (group df "REGIONAL" k) "SUMA_CUOTAS_NUM") = fzero.
Proof.
  intros Hk. unfold column, group. cbn [rows].
  replace (filter _ (rows df)) with (@nil (record F)); [done|].
  symmetry. unfold column in Hk.
  induction (rows df) as [|r l IH]; [done|].
  rewrite fmap_cons in Hk. apply not_elem_of_cons in Hk as [Hr Hl].
  rewrite filter_cons_False by congruence. by apply IH.
Qed.
End AppendFacts.

(** ** The search box *)

Lemma zip_with_fmap_same {A B C D} (f : B → C → D) (g : A → B) (h : A → C)
    (l : list A) :
  zip_with f (g <$> l) (h <$> l) = (λ a, f (g a) (h a)) <$> l.
Proof.
  induction l as [|a l IH]; [done|].
  rewrite !fmap_cons. cbn [zip_with]. by rewrite IH.
Qed.

Section SearchFacts.
Context {F : Type} `{Runtime F}.
Implicit Types (df : DataFrame F) (r : record F) (q : string).

Lemma contains_matcher_literal q case :
  literal q = true →
  contains_matcher q case =
  Ok (λ t, if case then infix q t
           else if is_ascii q && is_ascii t then infix (lower q) (lower t)
                else icase_contains q t).
Proof. unfold contains_matcher. by intros ->. Qed.

Lemma matchb_spec q r :
  matchb q r = true ↔ name_matches q r ∨ cedula_matches q r.
Proof.
  unfold matchb, name_matches, cedula_matches, contains_nocase.
  rewrite orb_true_iff, (infix_spec q). apply or_iff_compat_r.
  destruct (r !! "APELLIDOS / NOMBRES") as [[t|x]|].
  - split.
    + intros Ho. exists t. split; [done|].
      destruct (is_ascii q && is_ascii t); [by apply infix_spec | done].
    + intros (t' & [= <-] & Ho).
      destruct (is_ascii q && is_ascii t); [by apply infix_spec | done].
  - split; [done | by intros (t & [=] & _)].
  - split; [done | by intros (t & [=] & _)].
Qed.

Lemma matchb_empty r : matchb "" r = true.
Proof. unfold matchb. rewrite infix_empty. apply orb_true_r. Qed.

(** The mask both variants build for a plain-text query. *)
Lemma search_mask df q :
  mask_or
    ((λ c : cell F,
        match c with
        | Some (Str t) =>
            if is_ascii q && is_ascii t then infix (lower q) (lower t)
            else icase_contains q t
        | _ => false
        end) <$> column df "APELLIDOS / NOMBRES")
    ((λ c : cell F, infix q (astype_str c)) <$> column df "CEDULA") =
  matchb q <$> rows df.
Proof.
  unfold mask_or, column. rewrite <- !list_fmap_compose.
  rewrite zip_with_fmap_same. apply list_fmap_ext. intros i r _. simpl.
  unfold matchb. by destruct (r !! "APELLIDOS / NOMBRES") as [[t|x]|].
Qed.

Lemma v1_search_literal df q :
  literal q = true →
  has_column "APELLIDOS / NOMBRES" df = true →
  has_column "CEDULA" df = true →
  text_column (column df "APELLIDOS / NOMBRES") = true →
  Variant1.search_filter df q =
  Ok (mkDataFrame (columns df) (filter (λ r, matchb q r = true) (rows df))).
Proof.
  intros Hq Hn Hc Htx. unfold Variant1.search_filter.
  rewrite (getitem_has _ _ Hn), (getitem_has _ _ Hc).
  unfold str_contains, astype_str_contains.
  cbn [mbind result_bind]. rewrite (str_accessor_ok _ Htx).
  rewrite !contains_matcher_literal by done. cbn [mbind result_bind].
  unfold select. by rewrite search_mask, mask_filter_fmap.
Qed.

Lemma v2_search_literal df q :
  literal q = true → q ≠ "" →
  has_column "APELLIDOS / NOMBRES" df = true →
  has_column "CEDULA" df = true →
  text_column (column df "APELLIDOS / NOMBRES") = true →
  Variant2.search_filter df q =
  Ok (mkDataFrame (columns df) (filter (λ r, matchb q r = true) (rows df))).
Proof.
  intros Hq Hne Hn Hc Htx. unfold Variant2.search_filter.
  rewrite bool_decide_eq_false_2 by done.
  rewrite (getitem_has _ _ Hn), (getitem_has _ _ Hc).
  unfold str_contains, astype_str_contains.
  cbn [mbind result_bind]. rewrite (str_accessor_ok _ Htx).
  rewrite !contains_matcher_literal by done. cbn [mbind result_bind].
  unfold select. by rewrite search_mask, mask_filter_fmap.
Qed.

(** A name column of a numeric dtype stops the search before the query
    is looked at. *)
Lemma v1_search_unreadable df q :
  has_column "APELLIDOS / NOMBRES" df = true →
  text_column (column df "APELLIDOS / NOMBRES") = false →
  Variant1.search_filter df q = Raise AttributeError.
Proof.
  intros Hn Htx. unfold Variant1.search_filter, str_contains.
  rewrite (getitem_has _ _ Hn). cbn [mbind result_bind].
  by rewrite (str_accessor_raise _ Htx).
Qed.

Lemma v2_search_unreadable df q :
  q ≠ "" →
  has_column "APELLIDOS / NOMBRES" df = true →
  text_column (column df "APELLIDOS / NOMBRES") = false →
  Variant2.search_filter df q = Raise AttributeError.
Proof.
  intros Hq Hn Htx. unfold Variant2.search_filter, str_contains.
  rewrite bool_decide_eq_false_2 by done.
  rewrite (getitem_has _ _ Hn). cbn [mbind result_bind].
  by rewrite (str_accessor_raise _ Htx).
Qed.

Lemma v2_search_empty df : Variant2.search_filter df "" = Ok df.
Proof. done. Qed.

Lemma filter_all {A} (P : A → Prop) `{!∀ x, Decision (P x)} (l : list A) :
  (∀ x, x ∈ l → P x) → filter P l = l.
Proof.
  induction l as [|a l IH]; intros Hp; [done|].
  rewrite filter_cons_True by apply Hp, list_elem_of_here.
  rewrite IH; [done|]. intros x Hx. apply Hp. by apply list_elem_of_further.
Qed.

Lemma filter_none {A} (P : A → Prop) `{!∀ x, Decision (P x)} (l : list A) :
  (∀ x, x ∈ l → ¬ P x) → filter P l = [].
Proof.
  induction l as [|a l IH]; intros Hp; [done|].
  rewrite filter_cons_False by apply Hp, list_elem_of_here.
  apply IH. intros x Hx. apply Hp. by apply list_elem_of_further.
Qed.
End SearchFacts.

(** ** The export *)

Section ExportFacts.
Context {F : Type} `{Runtime F}.
Implicit Types (df : DataFrame F).

Lemma csv_records_shape df :
  head (csv_records df) = Some (columns df) ∧
  length (csv_records df) = S (len df) ∧
  Forall (λ fields, length fields = length (columns df)) (csv_records df).
Proof.
  unfold csv_records. split; [done|]. split.
  - simpl. by rewrite length_fmap.
  - constructor; [done|]. apply Forall_fmap, Forall_forall.
    intros r _. simpl. by rewrite length_fmap.
Qed.

Lemma to_csv_header df :
  ∃ body, to_csv df = csv_line (columns df) +:+ body.
Proof. unfold to_csv, csv_records. rewrite fmap_cons. simpl. eauto. Qed.
End ExportFacts.

(** ** Reading the export back *)

Lemma needs_quote_cons c t :
  needs_quote (String c t) = false →
  Ascii.eqb c "," = false ∧ Ascii.eqb c dquote = false ∧
  Ascii.eqb c newline = false ∧ needs_quote t = false.
Proof.
  unfold needs_quote. cbn [has_char].
  rewrite !orb_false_iff, !(Ascii.eqb_sym _ c). tauto.
Qed.

Lemma read_plain t cur fs rest :
  needs_quote t = false →
  csv_read_from Plain cur fs (t +:+ rest) =
  csv_read_from Plain (cur +:+ t) fs rest.
Proof.
  revert cur. induction t as [|c t IH]; intros cur Hq.
  - by rewrite string_app_nil_r.
  - apply needs_quote_cons in Hq as (H1 & H2 & H3 & Hq).
    rewrite append_cons. cbn [csv_read_from]. rewrite H1, H3, H2.
    cbn [andb]. rewrite (IH _ Hq). unfold snoc_char.
    by rewrite string_app_assoc.
Qed.

Lemma read_quoted t cur fs rest :
  csv_read_from Quoted cur fs (csv_escape t +:+ rest) =
  csv_read_from Quoted (cur +:+ t) fs rest.
Proof.
  revert cur. induction t as [|c t IH]; intros cur.
  - by rewrite string_app_nil_r.
  - cbn [csv_escape]. destruct (Ascii.eqb_spec c dquote) as [->|Hne].
    + rewrite !append_cons. cbn [csv_read_from]. rewrite Ascii.eqb_refl.
      rewrite IH. unfold snoc_char. by rewrite string_app_assoc.
    + rewrite append_cons. cbn [csv_read_from].
      apply Ascii.eqb_neq in Hne. rewrite Hne.
      rewrite IH. unfold snoc_char. by rewrite string_app_assoc.
Qed.

(** A written field, read up to the comma or the line feed after it *)
Lemma read_field_comma t fs rest :
  csv_read_from Plain "" fs (csv_field t +:+ String "," rest) =
  csv_read_from Plain "" (fs ++ [t]) rest.
Proof.
  unfold csv_field. destruct (needs_quote t) eqn:Hq.
  - rewrite append_cons, string_app_assoc. cbn [csv_read_from].
    change (Ascii.eqb dquote ",") with false.
    change (Ascii.eqb dquote newline) with false.
    rewrite Ascii.eqb_refl. cbn [andb]. rewrite bool_decide_eq_true_2 by done.
    rewrite read_quoted, append_cons. cbn [csv_read_from].
    rewrite Ascii.eqb_refl.
    change ("" +:+ String ?a rest) with (String a rest).
    cbn [csv_read_from].
    change (Ascii.eqb "," dquote) with false.
    by rewrite Ascii.eqb_refl.
  - rewrite (read_plain _ _ _ _ Hq). cbn [csv_read_from].
    by rewrite Ascii.eqb_refl.
Qed.

Lemma read_field_newline t fs rest :
  csv_read_from Plain "" fs (csv_field t +:+ String newline rest) =
  (fs ++ [t]) :: csv_read_from Plain "" [] rest.
Proof.
  unfold csv_field. destruct (needs_quote t) eqn:Hq.
  - rewrite append_cons, string_app_assoc. cbn [csv_read_from].
    change (Ascii.eqb dquote ",") with false.
    change (Ascii.eqb dquote newline) with false.
    rewrite Ascii.eqb_refl. cbn [andb]. rewrite bool_decide_eq_true_2 by done.
    rewrite read_quoted, append_cons. cbn [csv_read_from].
    rewrite Ascii.eqb_refl.
    change ("" +:+ String ?a rest) with (String a rest).
    cbn [csv_read_from].
    change (Ascii.eqb newline dquote) with false.
    change (Ascii.eqb newline ",") with false.
    by rewrite Ascii.eqb_refl.
  - rewrite (read_plain _ _ _ _ Hq). cbn [csv_read_from].
    change (Ascii.eqb newline ",") with false.
    by rewrite Ascii.eqb_refl.
Qed.

Lemma read_fields fields fs rest :
  fields ≠ [] →
  csv_read_from Plain "" fs
    (String.concat "," (csv_field <$> fields) +:+ String newline rest) =
  (fs ++ fields) :: csv_read_from Plain "" [] rest.
Proof.
  revert fs. induction fields as [|f fields IH]; intros fs Hne; [done|].
  destruct fields as [|g fields].
  - cbn [fmap list_fmap String.concat]. apply read_field_newline.
  - rewrite fmap_cons.
    change (String.concat "," (csv_field f :: (csv_field <$> g :: fields)))
      with (csv_field f +:+ "," +:+
            String.concat "," (csv_field <$> g :: fields)).
    rewrite !string_app_assoc, append_cons.
    change ("" +:+ ?x) with x.
    rewrite read_field_comma, IH by done.
    by rewrite <- app_assoc.
Qed.

Lemma read_csv_line fields rest :
  fields ≠ [] →
  csv_read_from Plain "" [] (csv_line fields +:+ rest) =
  fields :: csv_read_from Plain "" [] rest.
Proof.
  intros Hne.
  assert (Hgen : csv_read_from Plain "" []
            ((String.concat "," (csv_field <$> fields) +:+
              String newline EmptyString) +:+ rest) =
            fields :: csv_read_from Plain "" [] rest).
  { rewrite string_app_assoc, append_cons. by rewrite read_fields. }
  destruct fields as [|[|a f] [|g fields]]; [done| |exact Hgen ..].
  reflexivity.
Qed.

Lemma read_csv_lines (lines : list (list string)) :
  Forall (λ l, l ≠ []) lines →
  csv_read (foldr String.append "" (csv_line <$> lines)) = lines.
Proof.
  unfold csv_read. induction 1 as [|l lines Hl _ IH]; [done|].
  rewrite fmap_cons. cbn [foldr]. by rewrite read_csv_line, IH.
Qed.

Section ReadBack.
Context {F : Type} `{Runtime F}.

(** What [to_csv] writes reads back as the header and the fields of the
    records. *)
Lemma csv_read_to_csv (df : DataFrame F) :
  columns df ≠ [] → csv_read (to_csv df) = csv_records df.
Proof.
  intros Hc. unfold to_csv. apply read_csv_lines.
  destruct (csv_records_shape df) as (_ & _ & Hlen).
  eapply Forall_impl; [exact Hlen|]. intros l Hl ->.
  destruct (columns df); [done | discriminate].
Qed.

End ReadBack.

(** ** Which exceptions a run of variant 1 can end with *)

(** [m] does not raise ZeroDivisionError *)
Lemma no_zde_bind {A B} (m : result A) (f : A → result B) :
  m ≠ Raise ZeroDivisionError →
  (∀ a, m = Ok a → f a ≠ Raise ZeroDivisionError) →
  m ≫= f ≠ Raise ZeroDivisionError.
Proof.
  intros Hm Hf. destruct m as [a|e]; simpl; [by apply Hf|].
  intros [= ->]. by apply Hm.
Qed.

Lemma no_zde_traverse {A B} (f : A → result B) (l : list A) :
  (∀ a, f a ≠ Raise ZeroDivisionError) →
  traverse f l ≠ Raise ZeroDivisionError.
Proof.
  intros Hf. induction l as [|a l IH]; cbn [traverse]; [done|].
  apply no_zde_bind; [apply Hf|]. intros b _.
  apply no_zde_bind; [apply IH|]. done.
Qed.

Section RunFacts.
Context {F : Type} `{Runtime F}.
Implicit Types (df : DataFrame F).

Lemma no_zde_getitem df c : getitem df c ≠ Raise ZeroDivisionError.
Proof. unfold getitem. by destruct (has_column c df). Qed.

Lemma no_zde_sum_from acc (s : list (cell F)) :
  sum_from acc s ≠ Raise ZeroDivisionError.
Proof.
  revert acc. induction s as [|c s IH]; intros acc; cbn [sum_from]; [done|].
  apply no_zde_bind; [by destruct c as [[t|x]|] | intros a _; apply IH].
Qed.

Lemma no_zde_matcher q case :
  contains_matcher q case ≠ Raise ZeroDivisionError.
Proof.
  unfold contains_matcher. destruct (literal q); [done|].
  by destruct (re_compile q case).
Qed.

Lemma no_zde_accessor (s : list (cell F)) :
  str_accessor s ≠ Raise ZeroDivisionError.
Proof. unfold str_accessor. by destruct (_ || _). Qed.

Lemma no_zde_kpis df : Variant1.kpis df ≠ Raise ZeroDivisionError.
Proof.
  unfold Variant1.kpis.
  apply no_zde_bind; [apply no_zde_getitem | intros s1 _].
  apply no_zde_bind; [apply no_zde_getitem | intros s2 _].
  apply no_zde_bind; [|done].
  destruct (has_column "SUMA_CUOTAS_NUM" df); [|done].
  apply no_zde_bind; [apply no_zde_getitem | intros s3 _].
  apply no_zde_sum_from.
Qed.

Lemma v1_kpis_total df k :
  Variant1.kpis df = Ok k → Variant1.total_afiliados k = len df.
Proof.
  unfold Variant1.kpis.
  destruct (getitem df "ESTADO_AFILIADO"); simpl; [|done].
  destruct (if has_column "SUMA_CUOTAS_NUM" df then _ else _); simpl; [|done].
  by intros [= <-].
Qed.

(** On a frame that is not empty the percentage is computed. *)
Lemma v1_percentage_ok df k :
  df_empty df = false → Variant1.kpis df = Ok k →
  (1 ≤ Variant1.total_afiliados k)%nat ∧
  ∃ p, py_truediv (Variant1.activos k) (Variant1.total_afiliados k) = Ok p.
Proof.
  intros He Hk. rewrite (v1_kpis_total _ _ Hk).
  apply df_empty_false in He. split; [done|].
  destruct (len df) as [|n]; [lia|]. simpl. eauto.
Qed.

Lemma no_zde_dashboard df :
  df_empty df = false → Variant1.dashboard df ≠ Raise ZeroDivisionError.
Proof.
  intros He. unfold Variant1.dashboard.
  apply no_zde_bind; [apply no_zde_kpis | intros k Hk].
  destruct (v1_percentage_ok _ _ He Hk) as [_ [p ->]]. cbn [mbind result_bind].
  apply no_zde_bind; [apply no_zde_getitem | intros s1 _].
  apply no_zde_bind; [apply no_zde_getitem | done].
Qed.

Lemma no_zde_search df q :
  Variant1.search_filter df q ≠ Raise ZeroDivisionError.
Proof.
  unfold Variant1.search_filter, str_contains, astype_str_contains.
  apply no_zde_bind; [apply no_zde_getitem | intros s1 _].
  apply no_zde_bind.
  { apply no_zde_bind; [apply no_zde_accessor | intros texts _].
    apply no_zde_bind; [apply no_zde_matcher | done]. }
  intros m1 _.
  apply no_zde_bind; [apply no_zde_getitem | intros s2 _].
  apply no_zde_bind; [|done].
  apply no_zde_bind; [apply no_zde_matcher | done].
Qed.

Lemma no_zde_gestion df ui :
  Variant1.gestion df ui ≠ Raise ZeroDivisionError.
Proof.
  unfold Variant1.gestion.
  apply no_zde_bind; [apply no_zde_getitem | intros s1 _].
  apply no_zde_bind; [apply no_zde_search | done].
Qed.

Lemma no_zde_reportes df : Variant1.reportes df ≠ Raise ZeroDivisionError.
Proof.
  unfold Variant1.reportes, Variant1.resumen_regional, groupby.
  apply no_zde_bind; [|done].
  apply no_zde_bind.
  { apply no_zde_bind; [apply no_zde_getitem | done]. }
  intros groups _.
  apply no_zde_bind; [apply no_zde_getitem | intros s1 _].
  apply no_zde_bind; [apply no_zde_getitem | intros s2 _].
  apply no_zde_bind; [apply no_zde_getitem | intros s3 _].
  apply no_zde_traverse. intros kg. unfold Variant1.summarise.
  apply no_zde_bind; [apply no_zde_getitem | intros t1 _].
  apply no_zde_bind; [apply no_zde_getitem | intros t2 _].
  apply no_zde_bind; [apply no_zde_getitem | intros t3 _].
  apply no_zde_bind; [apply no_zde_sum_from | done].
Qed.

(** A run on a frame that came out empty shows the warning and nothing
    of the pages. *)
Lemma v1_script_empty read ui :
  df_empty (Variant1.load_data read).1 = true →
  Variant1.script read ui =
  Ok ((Variant1.load_data read).2 ++ [st_warning Variant1.missing_file_warning]).
Proof.
  unfold Variant1.script. destruct (Variant1.load_data read) as [df shown].
  simpl. by intros ->.
Qed.
End RunFacts.

(** ** Parsing the dues *)

Section ParseFacts.
Context {F : Type} `{Runtime F}.

Lemma parses_all (s : list (cell F)) :
  forallb parses s = true →
  ∀ t, Some (Str t) ∈ s → is_Some (py_float (strip_currency t)).
Proof.
  rewrite forallb_forall. intros Hs t Ht%list_elem_of_In.
  specialize (Hs _ Ht). simpl in Hs.
  by destruct (py_float (strip_currency t)).
Qed.

Lemma parses_some_not (s : list (cell F)) :
  forallb parses s = false →
  ∃ t, Some (Str t) ∈ s ∧ py_float (strip_currency t) = None.
Proof.
  induction s as [|c s IH]; [done|]. cbn [forallb].
  intros [Hc|Hs]%andb_false_iff.
  - destruct c as [[t|x]|]; simpl in Hc; try done.
    exists t. split; [apply list_elem_of_here|].
    by destruct (py_float (strip_currency t)).
  - destruct (IH Hs) as (t & Ht & Hn). exists t.
    split; [by apply list_elem_of_further | done].
Qed.
End ParseFacts.

(** ** The status column *)

Section StatusFacts.
Context {F : Type} `{Runtime F}.

Lemma normalised_textual (s : list (cell F)) :
  forallb textual s = true →
  str_upper (fillna (Str "DESCONOCIDO") s) = normalised <$> s.
Proof.
  intros Hs. unfold str_upper, fillna. rewrite <- list_fmap_compose.
  apply Forall_fmap_ext, Forall_forall. intros c Hc.
  rewrite forallb_forall in Hs.
  specialize (Hs c (proj1 (list_elem_of_In _ _) Hc)).
  by destruct c as [[t|x]|].
Qed.
End StatusFacts.

(** ** Totals *)

Section TotalsFacts.
Context {F : Type} `{Runtime F}.
Implicit Types (df : DataFrame F).

Lemma v1_resumen_cols df lines :
  Variant1.resumen_regional df = Ok lines →
  has_column "ESTADO_AFILIADO" df = true ∧
  has_column "SUMA_CUOTAS_NUM" df = true.
Proof.
  unfold Variant1.resumen_regional.
  destruct (groupby df "REGIONAL"); simpl; [|done].
  destruct (getitem df "CEDULA"); simpl; [|done].
  destruct (getitem df "ESTADO_AFILIADO") as [s1|e] eqn:E1; simpl; [|done].
  destruct (getitem df "SUMA_CUOTAS_NUM") as [s2|e] eqn:E2; simpl; [|done].
  intros _. apply getitem_ok_inv in E1 as [-> _].
  by apply getitem_ok_inv in E2 as [-> _].
Qed.

Lemma v1_kpis_recaudo df k :
  has_column "ESTADO_AFILIADO" df = true →
  has_column "SUMA_CUOTAS_NUM" df = true →
  Variant1.kpis df = Ok k →
  Variant1.total_recaudo k = dues_total (rows df).
Proof.
  intros Hst Hd. rewrite (v1_kpis_spec _ Hst), Hd.
  destruct (series_sum _) as [x|e] eqn:Es; simpl; [|done].
  intros [= <-]. simpl. by apply series_sum_ok in Es as [-> _].
Qed.

Lemma v2_kpis_ok df :
  session_ok df = true →
  text_column (column df "ESTADO_AFILIADO") = true →
  Variant2.kpis df =
  Ok (Variant2.mkKpis
        (len df)
        (length (filter (upper_status_is "ACTIVO") (rows df)))
        (length (filter (upper_status_is "RETIRADO") (rows df)))
        (dues_total (rows df))).
Proof.
  intros (Hst & _ & Hd & _ & Hn)%session_ok_inv Htx.
  rewrite (v2_kpis_spec _ Hst Hd Htx). by rewrite (series_sum_numeric _ Hn).
Qed.
End TotalsFacts.

(** ** The form for a new member *)

Lemma mask_filter_subset {A} (l : list A) (m : list bool) (a : A) :
  a ∈ mask_filter l m → a ∈ l.
Proof.
  revert m. induction l as [|b l IH]; intros [|[] m]; cbn [mask_filter];
    try (by intros ?%elem_of_nil).
  - intros [->|Ha]%elem_of_cons; [apply list_elem_of_here|].
    apply list_elem_of_further. by apply (IH m).
  - intros Ha. apply list_elem_of_further. by apply (IH m).
Qed.

Section FormFacts.
Context {F : Type} `{Runtime F}.
Implicit Types (df : DataFrame F).

Lemma v1_search_subset df q out :
  Variant1.search_filter df q = Ok out →
  ∀ r, r ∈ rows out → r ∈ rows df.
Proof.
  unfold Variant1.search_filter.
  destruct (getitem df "APELLIDOS / NOMBRES"); simpl; [|done].
  destruct (str_contains q false _); simpl; [|done].
  destruct (getitem df "CEDULA"); simpl; [|done].
  destruct (astype_str_contains q _); simpl; [|done].
  intros [= <-] r. apply mask_filter_subset.
Qed.

(** The counts and the totals by regional, before and after the append. *)
Lemma append_row_counts df ui k :
  lookup_key k (value_counts (column (Variant2.append_row df ui) "REGIONAL")) =
  if decide (Str (Variant2.regional_text (Variant2.reg ui)) = k)
  then Some (S (default 0%nat
                  (lookup_key k (value_counts (column df "REGIONAL")))))
  else lookup_key k (value_counts (column df "REGIONAL")).
Proof.
  destruct (new_row_fields ui) as (_ & _ & Hr & _).
  rewrite !value_counts_lookup, column_append_row, Hr, occurrences_snoc.
  destruct (decide (Str _ = k)) as [<-|Hne].
  - rewrite decide_True by (apply elem_of_app; right; apply list_elem_of_here).
    f_equal. destruct (decide (_ ∈ column df "REGIONAL")) as [Hin|Hin]; simpl.
    + lia.
    + rewrite (occurrences_absent _ _ Hin). lia.
  - rewrite Nat.add_0_r.
    destruct (decide (Some k ∈ column df "REGIONAL")) as [Hin|Hin].
    + rewrite decide_True; [done|]. apply elem_of_app. by left.
    + rewrite decide_False; [done|].
      intros [?|Hk%list_elem_of_singleton]%elem_of_app; congruence.
Qed.

Lemma append_row_totals df ui k :
  let totals d :=
    (λ k, (k, total (column (group d "REGIONAL" k) "SUMA_CUOTAS_NUM")))
      <$> group_keys (column d "REGIONAL") in
  lookup_key k (totals (Variant2.append_row df ui)) =
  if decide (Str (Variant2.regional_text (Variant2.reg ui)) = k)
  then Some (fadd (default fzero (lookup_key k (totals df))) (Variant2.cuota ui))
  else lookup_key k (totals df).
Proof.
  intros totals. subst totals. cbv beta.
  destruct (new_row_fields ui) as (_ & _ & Hr & _).
  rewrite !lookup_key_fmap, group_total_append_row.
  destruct (decide (Str _ = k)) as [<-|Hne].
  - rewrite decide_True.
    2:{ apply elem_of_group_keys. rewrite column_append_row, Hr.
        apply elem_of_app. right. apply list_elem_of_here. }
    f_equal. destruct (decide (_ ∈ group_keys _)) as [Hin|Hin]; simpl; [done|].
    rewrite group_total_absent; [done|]. by rewrite <- elem_of_group_keys.
  - destruct (decide (k ∈ group_keys (column df "REGIONAL"))) as [Hin|Hin].
    + rewrite decide_True; [done|]. apply elem_of_group_keys.
      rewrite column_append_row. apply elem_of_app. left.
      by apply elem_of_group_keys.
    + rewrite decide_False; [done|]. rewrite elem_of_group_keys.
      rewrite column_append_row, Hr.
      intros [Hk|Hk%list_elem_of_singleton]%elem_of_app; [|congruence].
      by apply Hin, elem_of_group_keys.
Qed.
End FormFacts.

(** ** The tables of a session of variant 2 *)

Section SessionFacts.
Context {F : Type} `{Runtime F}.
Implicit Types (df raw : DataFrame F).

Lemma elem_of_column df c (r : record F) : r ∈ rows df → r !! c ∈ column df c.
Proof. intros Hr. unfold column. apply list_elem_of_fmap. by exists r. Qed.

Lemma numeric_clean_currency (c : cell F) :
  numeric (Variant2.clean_currency c) = true.
Proof.
  destruct c as [[t|x]|]; simpl; try done.
  by destruct (py_float _) as [[y|]|].
Qed.

(** A table [load_data] returns is a table a session can hold. *)
Lemma v2_load_session_ok raw df :
  Variant2.load_data (Ok raw) = Ok df → session_ok df = true.
Proof.
  intros Hdf. destruct (v2_load_ok_inv _ _ Hdf) as [Hst Hreg].
  destruct (v2_load_ok raw Hst Hreg)
    as (df' & Hdf' & _ & Hcols & Hd & _ & Hr & _).
  rewrite Hdf in Hdf'. injection Hdf' as <-.
  apply session_ok_intro.
  - by rewrite Hcols, Hst.
  - by rewrite Hcols, Hreg.
  - rewrite Hcols. apply orb_true_r.
  - intros r Hin. apply (elem_of_column _ "REGIONAL") in Hin.
    rewrite Hr in Hin. unfold fillna in Hin.
    apply list_elem_of_fmap in Hin as (c & -> & _). by destruct c.
  - intros r Hin. apply (elem_of_column _ "SUMA_CUOTAS_NUM") in Hin.
    rewrite Hd in Hin. destruct (has_column "SUMA_CUOTAS" raw).
    + apply list_elem_of_fmap in Hin as (c & -> & _).
      apply numeric_clean_currency.
    + apply elem_of_replicate in Hin as [-> _]. done.
Qed.

Lemma session_init_ok (session : option (DataFrame F)) read :
  (∀ df, session = Some df → session_ok df = true) →
  session_ok (Variant2.session_init session read) = true.
Proof.
  intros Hs. unfold Variant2.session_init.
  destruct session as [df|]; [by apply Hs|].
  destruct read as [raw|e]; [|done].
  destruct (Variant2.load_data (Ok raw)) as [df|e] eqn:E; [|done].
  by apply v2_load_session_ok with (raw := raw).
Qed.

(** Every run leaves in the session a table a session can hold. *)
Lemma v2_script_session_ok (session : option (DataFrame F)) read ui df' page :
  (∀ df, session = Some df → session_ok df = true) →
  Variant2.script session read ui = Ok (df', page) →
  session_ok df' = true.
Proof.
  intros Hs. pose proof (session_init_ok session read Hs) as Hok.
  unfold Variant2.script. set (df := Variant2.session_init session read) in *.
  destruct (Variant2.menu ui).
  - destruct (Variant2.dashboard df); simpl; [|done]. by intros [= <- _].
  - unfold Variant2.gestion. destruct (Variant2.submit ui).
    + intros [= <- _]. by apply session_ok_append_row.
    + destruct (Variant2.search_filter df _); simpl; [|done]. by intros [= <- _].
  - unfold Variant2.importar_exportar.
    destruct (Variant2.uploaded_file ui) as [up|]; [|by intros [= <- _]].
    destruct (Variant2.confirm ui); [|by intros [= <- _]].
    destruct up as [raw|e]; [|done].
    destruct (Variant2.load_data (Ok raw)) as [new|e] eqn:E; simpl; [|done].
    intros [= <- _]. by apply v2_load_session_ok with (raw := raw).
Qed.


End SessionFacts.

(** * The claims *)




(** C2 (amended).  Submitting the form of variant 2 (any cedula and name,
    one of the five listed regionals, ACTIVO or RETIRADO, any dues amount
    [d]) appends exactly one record with those values to the table of the
    session and signals success; after it the count of the chosen regional
    is one more, its dues sum is [d] more, and the other groups are as they
    were.  Submitting the form of variant 1 signals success and stores
    nothing: the page shows records of the table as it was loaded. *)
Theorem new_member_form {F : Type} `{Runtime F} :
  (∀ (df : DataFrame F) (read : result (DataFrame F)) (ui : Variant2.Inputs F),
     session_ok df = true →
     Variant2.menu ui = Variant2.Gestion →
     Variant2.submit ui = true →
     Variant2.script (Some df) read ui =
       Ok (Variant2.append_row df ui,
           [st_success "Afiliado registrado con éxito"; st_rerun]) ∧
     rows (Variant2.append_row df ui) = rows df ++ [Variant2.new_row ui] ∧
     Variant2.new_row ui !! "CEDULA" = Some (Str (Variant2.cedula ui)) ∧
     Variant2.new_row ui !! "APELLIDOS / NOMBRES" =
       Some (Str (Variant2.nombre ui)) ∧
     Variant2.new_row ui !! "REGIONAL" =
       Some (Str (Variant2.regional_text (Variant2.reg ui))) ∧
     Variant2.new_row ui !! "ESTADO_AFILIADO" =
       Some (Str (estado_text (Variant2.estado ui))) ∧
     Variant2.new_row ui !! "SUMA_CUOTAS_NUM" = Some (Num (Variant2.cuota ui)) ∧
     ∃ counts counts' totals totals',
       Variant2.regional_counts df = Ok counts ∧
       Variant2.regional_counts (Variant2.append_row df ui) = Ok counts' ∧
       Variant2.recaudo_reg df = Ok totals ∧
       Variant2.recaudo_reg (Variant2.append_row df ui) = Ok totals' ∧
       lookup_key (Str (Variant2.regional_text (Variant2.reg ui))) counts' =
         Some (S (default 0%nat
                    (lookup_key (Str (Variant2.regional_text (Variant2.reg ui)))
                                counts))) ∧
       lookup_key (Str (Variant2.regional_text (Variant2.reg ui))) totals' =
         Some (fadd (default fzero
                       (lookup_key (Str (Variant2.regional_text (Variant2.reg ui)))
                                   totals))
                    (Variant2.cuota ui)) ∧
       ∀ k, k ≠ Str (Variant2.regional_text (Variant2.reg ui)) →
            lookup_key k counts' = lookup_key k counts ∧
            lookup_key k totals' = lookup_key k totals) ∧
  (∀ (read : result (DataFrame F)) (ui : Variant1.Inputs F) df shown filtered,
     Variant1.menu ui = Variant1.Gestion →
     Variant1.submit ui = true →
     Variant1.load_data read = (df, shown) →
     df_empty df = false →
     has_column "REGIONAL" df = true →
     Variant1.search_filter df (Variant1.search ui) = Ok filtered →
     Variant1.script read ui =
       Ok (shown ++
           [st_success ("Afiliado " +:+ Variant1.nombre ui +:+
                        " registrado correctamente (Simulado).");
            st_dataframe filtered]) ∧
     ∀ r, r ∈ rows filtered → r ∈ rows df).
Proof.
  split.
  - intros df read ui Hok Hmenu Hsubmit.
    pose proof (session_ok_inv _ Hok) as (_ & Hr & Hd & _ & Hn).
    pose proof (session_ok_inv _ (session_ok_append_row df ui Hok))
      as (_ & Hr' & Hd' & _ & Hn').
    destruct (new_row_fields ui) as (F1 & F2 & F3 & F4 & F5 & _).
    split.
    { unfold Variant2.script, Variant2.gestion. simpl.
      by rewrite Hmenu, Hsubmit. }
    do 6 (split; [done|]).
    eexists _, _, _, _.
    split; [unfold Variant2.regional_counts; by rewrite (getitem_has _ _ Hr)|].
    split; [unfold Variant2.regional_counts; by rewrite (getitem_has _ _ Hr')|].
    split; [by apply v2_recaudo_ok|].
    split; [by apply v2_recaudo_ok|].
    split; [|split].
    + rewrite append_row_counts. by rewrite decide_True.
    + rewrite (append_row_totals df ui). by rewrite decide_True.
    + intros k Hk. split.
      * rewrite append_row_counts. by rewrite decide_False.
      * rewrite (append_row_totals df ui). by rewrite decide_False.
  - intros read ui df shown filtered Hmenu Hsubmit Hload He Hreg Hf.
    split; [|by apply v1_search_subset with (q := Variant1.search ui)].
    unfold Variant1.script. rewrite Hload, He, Hmenu. simpl.
    unfold Variant1.gestion.
    rewrite (getitem_has _ _ Hreg), Hsubmit, Hf. done.
Qed.

(** Rosa Mora, SUR, dues 500, added to the session of Juan Perez. *)
Lemma new_member_form_witness :
  session_ok Examples.session = true ∧
  rows (Variant2.append_row Examples.session
          (Examples.ui2 Variant2.Gestion true "" None false)) =
    rows Examples.session ++
    [Variant2.new_row (Examples.ui2 Variant2.Gestion true "" None false)] ∧
  Variant2.script (Some Examples.session) Examples.not_csv
      (Examples.ui2 Variant2.Gestion true "" None false) =
    Ok (Variant2.append_row Examples.session
          (Examples.ui2 Variant2.Gestion true "" None false),
        [st_success "Afiliado registrado con éxito"; st_rerun]).
Proof.
  assert (Hok : session_ok Examples.session = true) by (vm_compute; reflexivity).
  destruct (proj1 (new_member_form (H := Exact.runtime))
              Examples.session Examples.not_csv
              (Examples.ui2 Variant2.Gestion true "" None false)
              Hok eq_refl eq_refl) as (Hs & Hrows & _).
  split; [exact Hok|]. split; [exact Hrows | exact Hs].
Defined.

(** C2, as stated, fails for variant 1: after Rosa Mora is submitted the
    page shows the one record of the source, and the next run's summary
    still counts one member in SUR with 1000 of dues. *)
Lemma new_member_form_counterexample :
  Examples.page_summary
    <$> Variant1.script (Ok Examples.registry)
                        (Examples.ui1 Variant1.Gestion true "") =
    Ok (Some ("Afiliado Rosa Mora registrado correctamente (Simulado).",
              1%nat)) ∧
  Examples.summary_lines
    <$> Variant1.resumen_regional (Examples.loaded Examples.registry) =
    Ok [(Str "SUR", 1%nat, (1000 # 1)%Q)].
Proof. split; vm_compute; reflexivity. Qed.

(** C3 (amended).  When the source of the initial load cannot be parsed as
    CSV the run does not crash.  In variant 1 [load_data] shows an error
    message and returns the empty table, which has no columns at all; the
    script then shows a warning and none of the pages.  In variant 2 the
    initial load falls back, without any message, to an empty table that
    carries the six expected column headers, and the dashboard is drawn
    from it. *)
Theorem unparsable_source {F : Type} `{Runtime F} (e : exn) :
  (Variant1.load_data (Raise e) =
     ((mkDataFrame [] [] : DataFrame F),
      [st_error "Error al cargar el archivo: " e]) ∧
   ∀ ui : Variant1.Inputs F,
     Variant1.script (Raise e) ui =
     Ok [st_error "Error al cargar el archivo: " e;
         st_warning Variant1.missing_file_warning]) ∧
  (Variant2.session_init None (Raise e) =
     (mkDataFrame [ "CEDULA"; "APELLIDOS / NOMBRES"; "REGIONAL";
                    "CIUDAD AFILIACION"; "ESTADO_AFILIADO"; "SUMA_CUOTAS_NUM" ]
                  [] : DataFrame F) ∧
   ∀ ui : Variant2.Inputs F,
     Variant2.menu ui = Variant2.Dashboard →
     Variant2.script None (Raise e) ui =
     Ok (Variant2.session_init None (Raise e),
         [ st_metric "Total Afiliados" (IntValue 0) None;
           st_metric "Activos" (IntValue 0) None;
           st_metric "Retirados" (IntValue 0) None;
           st_metric "Recaudo Total" (TextValue (fmt_money fzero)) None;
           st_plotly_chart (BarCounts []);
           st_plotly_chart (PieTotals []) ])).
Proof.
  split; split; try done.
  intros ui Hmenu. unfold Variant2.script. rewrite Hmenu. reflexivity.
Qed.

(** A source that is not CSV, on the dashboard of variant 2. *)
Lemma unparsable_source_witness :
  ∃ page,
    Variant2.script None Examples.not_csv
      (Examples.ui2 Variant2.Dashboard false "" None false) =
    Ok (frame_of_columns Variant2.expected_headers, page) ∧
    existsb is_message page = false.
Proof.
  destruct (unparsable_source (H := Exact.runtime)
              (ReadError "Error tokenizing data")) as [_ [_ H2]].
  eexists. split.
  - apply (H2 (Examples.ui2 Variant2.Dashboard false "" None false)).
    reflexivity.
  - reflexivity.
Defined.

(** C3, as stated, fails: the empty table of variant 1 carries no column
    header, and variant 2 shows no message. *)
Lemma unparsable_source_counterexample :
  columns (Variant1.load_data Examples.not_csv).1 = [] ∧
  (λ out : DataFrame Qc * list (output Qc), existsb is_message out.2)
    <$> Variant2.script None Examples.not_csv
          (Examples.ui2 Variant2.Dashboard false "" None false) = Ok false.
Proof. split; vm_compute; reflexivity. Qed.

(** The re-import of variant 2 is not guarded: the exception of the load
    ends the run. *)
Lemma reimport_unparsable_raises {F : Type} `{Runtime F}
    (df : DataFrame F) (read : result (DataFrame F)) (ui : Variant2.Inputs F)
    (e : exn) :
  Variant2.menu ui = Variant2.ImportarExportar →
  Variant2.uploaded_file ui = Some (Raise e) →
  Variant2.confirm ui = true →
  Variant2.script (Some df) read ui = Raise e.
Proof.
  intros Hm Hu Hc. unfold Variant2.script, Variant2.importar_exportar.
  by rewrite Hm, Hu, Hc.
Qed.

(** C4 (amended).  The status column after the load, for a source whose
    status entries are text or missing.  In variant 1 every stored status
    is text: the uppercased text of the source, or the sentinel
    "DESCONOCIDO" for a missing entry.  In variant 2 every stored status is
    present as well, a missing entry being filled with the sentinel, but
    text is stored with the case it has in the source: variant 2
    uppercases only when it counts. *)
Theorem status_after_load {F : Type} `{Runtime F} (raw : DataFrame F) :
  has_column "ESTADO_AFILIADO" raw = true →
  forallb textual (column raw "ESTADO_AFILIADO") = true →
  (∀ df, Variant1.load_data_try (Ok raw) = Ok df →
     column df "ESTADO_AFILIADO" = normalised <$> column raw "ESTADO_AFILIADO" ∧
     ∀ c, c ∈ column df "ESTADO_AFILIADO" →
          ∃ u, c = Some (Str u) ∧
               (u = "DESCONOCIDO" ∨
                ∃ t, Some (Str t) ∈ column raw "ESTADO_AFILIADO" ∧ u = upper t)) ∧
  (∀ df, Variant2.load_data (Ok raw) = Ok df →
     column df "ESTADO_AFILIADO" =
       fillna (Str "DESCONOCIDO") (column raw "ESTADO_AFILIADO") ∧
     ∀ c, c ∈ column df "ESTADO_AFILIADO" →
          ∃ u, c = Some (Str u) ∧
               (u = "DESCONOCIDO" ∨ Some (Str u) ∈ column raw "ESTADO_AFILIADO")).
Proof.
  intros Hst Htx. split.
  - intros df Hdf. apply v1_load_try_inv in Hdf as (_ & _ & _ & Hs & _).
    rewrite (Hs Hst), (normalised_textual _ Htx). split; [done|].
    intros c (c0 & -> & Hc0)%list_elem_of_fmap.
    destruct c0 as [[t|x]|]; simpl.
    + exists (upper t). split; [done|]. right. by exists t.
    + exists "DESCONOCIDO". by split; [|left].
    + exists "DESCONOCIDO". by split; [|left].
  - intros df Hdf. destruct (v2_load_ok_inv _ _ Hdf) as [_ Hreg].
    destruct (v2_load_ok raw Hst Hreg) as (df' & Hdf' & _ & _ & _ & Hs & _).
    rewrite Hdf in Hdf'. injection Hdf' as <-. rewrite Hs. split; [done|].
    unfold fillna. intros c (c0 & -> & Hc0)%list_elem_of_fmap.
    rewrite forallb_forall in Htx.
    specialize (Htx c0 (proj1 (list_elem_of_In _ _) Hc0)).
    destruct c0 as [[t|x]|]; simpl in *; try done.
    + exists t. by split; [|right].
    + exists "DESCONOCIDO". by split; [|left].
Qed.

(** The registry of Juan Perez, whose status reads "activo". *)
Lemma status_after_load_witness :
  (∀ df, Variant1.load_data_try (Ok Examples.registry) = Ok df →
         column df "ESTADO_AFILIADO" = [Some (Str "ACTIVO")]) ∧
  (∀ df, Variant2.load_data (Ok Examples.registry) = Ok df →
         column df "ESTADO_AFILIADO" = [Some (Str "activo")]).
Proof.
  destruct (status_after_load Examples.registry) as [H1 H2];
    [vm_compute; reflexivity | vm_compute; reflexivity |].
  split; intros df Hdf.
  - destruct (H1 df Hdf) as [-> _]. vm_compute. reflexivity.
  - destruct (H2 df Hdf) as [-> _]. vm_compute. reflexivity.
Defined.

(** C4, as stated, fails for variant 2: the status "activo" of the source
    is stored as it is, not uppercased. *)
Lemma status_after_load_counterexample :
  ∃ df, Variant2.load_data (Ok Examples.registry) = Ok df ∧
        column df "ESTADO_AFILIADO" = [Some (Str "activo")] ∧
        upper "activo" ≠ "activo".
Proof.
  destruct (Variant2.load_data (Ok Examples.registry)) as [df|e] eqn:E;
    [|by vm_compute in E].
  exists df. split; [done|]. split; [|by vm_compute].
  assert (Hc : (df' ← Variant2.load_data (Ok Examples.registry);
                Ok (column df' "ESTADO_AFILIADO")) =
               Ok [Some (Str "activo")]) by (vm_compute; reflexivity).
  rewrite E in Hc. simpl in Hc. by injection Hc.
Qed.

(** C5 (amended).  For a table with the name and the cedula columns and a
    query [q] that is plain text (no metacharacter of regular expressions).
    When the name column holds text (or the table has no record), the
    search of either variant returns exactly the records, in their order,
    whose name is text in which [q] occurs whatever the case, or whose
    cedula, as text, contains [q] as it is written; the match on the cedula
    is case-sensitive.  A query matching neither field of any record
    returns no rows, and the empty query returns all rows.  When the name
    column holds numbers or missing entries alone, [.str] raises
    AttributeError: in variant 1 for every query, in variant 2 for every
    query but the empty one, for which it does not search.  For ASCII text
    "whatever the case" is: once both are in lower case. *)
Theorem search_returns_matches {F : Type} `{Runtime F}
    (df : DataFrame F) (q : string) :
  literal q = true →
  has_column "APELLIDOS / NOMBRES" df = true →
  has_column "CEDULA" df = true →
  (text_column (column df "APELLIDOS / NOMBRES") = true →
   ∃ out1 out2,
     Variant1.search_filter df q = Ok out1 ∧
     Variant2.search_filter df q = Ok out2 ∧
     columns out1 = columns df ∧ columns out2 = columns df ∧
     rows out1 = filter (λ r, matchb q r = true) (rows df) ∧
     rows out2 = rows out1 ∧
     (∀ r, r ∈ rows out1 ↔
           r ∈ rows df ∧ (name_matches q r ∨ cedula_matches q r)) ∧
     ((∀ r, r ∈ rows df → ¬ name_matches q r ∧ ¬ cedula_matches q r) →
      rows out1 = []) ∧
     (q = "" → rows out1 = rows df)) ∧
  (text_column (column df "APELLIDOS / NOMBRES") = false →
   Variant1.search_filter df q = Raise AttributeError ∧
   (q ≠ "" → Variant2.search_filter df q = Raise AttributeError) ∧
   (q = "" → Variant2.search_filter df q = Ok df)) ∧
  (∀ (r : record F) (t : string),
     r !! "APELLIDOS / NOMBRES" = Some (Str t) →
     is_ascii q = true → is_ascii t = true →
     (name_matches q r ↔ occurs_in (lower q) (lower t))).
Proof.
  intros Hq Hn Hc. split; [|split].
  - intros Htx.
    assert (Hall : filter (λ r : record F, matchb "" r = true) (rows df)
                   = rows df).
    { apply filter_all. intros r _. apply matchb_empty. }
    exists (mkDataFrame (columns df)
                        (filter (λ r, matchb q r = true) (rows df))).
    exists (if decide (q = "") then df
            else mkDataFrame (columns df)
                             (filter (λ r, matchb q r = true) (rows df))).
    split; [by apply v1_search_literal|]. split.
    { destruct (decide (q = "")) as [->|Hne];
        [apply v2_search_empty | by apply v2_search_literal]. }
    split; [done|]. split; [by destruct (decide (q = ""))|].
    split; [done|]. split.
    { destruct (decide (q = "")) as [->|Hne]; [|done]. simpl.
      by rewrite Hall. }
    simpl. split; [|split].
    + intros r. rewrite list_elem_of_filter, matchb_spec. tauto.
    + intros Hno. apply filter_none. intros r Hr.
      rewrite matchb_spec. specialize (Hno r Hr). tauto.
    + intros ->. exact Hall.
  - intros Htx. split; [by apply v1_search_unreadable|]. split.
    + intros Hne. by apply v2_search_unreadable.
    + intros ->. apply v2_search_empty.
  - intros r t Hr Hq1 Ht1. unfold name_matches, contains_nocase. split.
    + intros (t' & Ht' & Ho). rewrite Hr in Ht'. injection Ht' as <-.
      by rewrite Hq1, Ht1 in Ho.
    + intros Ho. exists t. split; [done|]. by rewrite Hq1, Ht1.
Qed.

(** Searching "ab" (plain text) in the registry of Eva Ruiz, cedula "ab1". *)
Lemma search_returns_matches_witness :
  ∃ out1 out2,
    Variant1.search_filter Examples.registry_letras "ab" = Ok out1 ∧
    Variant2.search_filter Examples.registry_letras "ab" = Ok out2 ∧
    rows out2 = rows out1 ∧
    (Examples.eva ∈ rows out1 ↔
     Examples.eva ∈ rows Examples.registry_letras ∧
     (name_matches "ab" Examples.eva ∨ cedula_matches "ab" Examples.eva)).
Proof.
  destruct (search_returns_matches Examples.registry_letras "ab")
    as (Hfound & _);
    [vm_compute; reflexivity | vm_compute; reflexivity
    | vm_compute; reflexivity |].
  destruct Hfound as (out1 & out2 & H1 & H2 & _ & _ & _ & H3 & H4 & _);
    [vm_compute; reflexivity|].
  exists out1, out2.
  split; [exact H1|]. split; [exact H2|]. split; [exact H3|]. apply H4.
Defined.

(** C5, as stated, fails: the cedula "ab1" contains the query "AB" when the
    case is ignored, and neither variant returns the record. *)
Lemma search_returns_matches_counterexample :
  cedula_matches_nocase "AB" Examples.eva ∧
  rows <$> Variant1.search_filter Examples.registry_letras "AB" = Ok [] ∧
  rows <$> Variant2.search_filter Examples.registry_letras "AB" = Ok [].
Proof.
  split; [|split; vm_compute; reflexivity].
  unfold cedula_matches_nocase. apply infix_spec. vm_compute. reflexivity.
Qed.

(** C6 (amended).  With exact addition (floating-point addition up to
    rounding), the per-regional dues sums add up to the total of the dues
    of the records that have a regional.  In variant 2 every record of the
    session has a regional, so the sums add up to the sum of the numeric
    dues over all records, which is the total the dashboard shows whenever
    it shows one.  In variant 1 the records without a regional belong to
    no group: the sums add up to the total collected when no record lacks
    its regional. *)
Theorem regional_totals_add_up {F : Type} `{Runtime F} `{!ExactAdd F}
    (df : DataFrame F) :
  (∀ lines, Variant1.resumen_regional df = Ok lines →
     sum_values (Recaudo_Total <$> lines) =
     dues_total (filter has_regional (rows df))) ∧
  (∀ lines k,
     (∀ r, r ∈ rows df → has_regional r) →
     Variant1.resumen_regional df = Ok lines →
     Variant1.kpis df = Ok k →
     sum_values (Recaudo_Total <$> lines) = Variant1.total_recaudo k) ∧
  (has_column "REGIONAL" df = true → has_column "CEDULA" df = true →
   has_column "ESTADO_AFILIADO" df = true →
   has_column "SUMA_CUOTAS_NUM" df = true →
   forallb numeric (column df "SUMA_CUOTAS_NUM") = true →
   ∃ lines, Variant1.resumen_regional df = Ok lines) ∧
  (session_ok df = true →
   (∃ totals,
      Variant2.recaudo_reg df = Ok totals ∧
      sum_values totals.*2 = dues_total (rows df)) ∧
   (∀ k, Variant2.kpis df = Ok k →
         Variant2.total_recaudo k = dues_total (rows df)) ∧
   (text_column (column df "ESTADO_AFILIADO") = true →
    ∃ k, Variant2.kpis df = Ok k)) ∧
  (∀ raw, Variant2.load_data (Ok raw) = Ok df → session_ok df = true).
Proof.
  assert (Hv1 : ∀ lines, Variant1.resumen_regional df = Ok lines →
            sum_values (Recaudo_Total <$> lines) =
            dues_total (filter has_regional (rows df))).
  { intros lines Hl. apply v1_resumen_inv in Hl as [_ ->].
    apply (groups_total_keys "REGIONAL"
             (λ r : record F, r !! "SUMA_CUOTAS_NUM")). }
  split; [exact Hv1|]. split; [|split; [|split]].
  4:{ intros raw. apply v2_load_session_ok. }
  - intros lines k Hall Hl Hk. rewrite (Hv1 _ Hl).
    destruct (v1_resumen_cols _ _ Hl) as [Hst Hd].
    rewrite (v1_kpis_recaudo _ _ Hst Hd Hk).
    by rewrite (filter_all _ _ Hall).
  - apply v1_resumen_ok.
  - intros Hok. pose proof (session_ok_inv _ Hok) as (_ & Hr & Hd & Hall & Hn).
    split; [|split].
    + eexists. split; [by apply v2_recaudo_ok|]. simpl.
      transitivity (dues_total (filter has_regional (rows df))).
      * rewrite <- list_fmap_compose.
        apply (groups_total_keys "REGIONAL"
                 (λ r : record F, r !! "SUMA_CUOTAS_NUM")).
      * by rewrite (filter_all _ _ Hall).
    + intros k Hk. pose proof (v2_kpis_inv _ _ Hk) as (_ & _ & Htx).
      rewrite (v2_kpis_ok _ Hok Htx) in Hk. by injection Hk as <-.
    + intros Htx. eexists. by apply v2_kpis_ok.
Qed.

(** The session of the registry of Juan Perez: one group, SUR. *)
Lemma regional_totals_add_up_witness :
  session_ok Examples.session = true ∧
  ∃ totals k,
    Variant2.recaudo_reg Examples.session = Ok totals ∧
    Variant2.kpis Examples.session = Ok k ∧
    sum_values totals.*2 = Variant2.total_recaudo k.
Proof.
  assert (Hok : session_ok Examples.session = true) by (vm_compute; reflexivity).
  split; [exact Hok|].
  destruct (regional_totals_add_up (H := Exact.runtime) Examples.session)
    as (_ & _ & _ & Hv2 & _).
  destruct (Hv2 Hok) as ((totals & Ht & Hsum) & Hall & Hk).
  destruct Hk as [k Hk]; [vm_compute; reflexivity|].
  exists totals, k. split; [exact Ht|]. split; [exact Hk|].
  by rewrite Hsum, (Hall k Hk).
Defined.

(** C6, as stated, fails for variant 1: Juan Perez (SUR) has dues of 1000
    and Luis Diaz, who has no regional, dues of 100; the summary has the
    one line of SUR, so the per-regional sums add up to 1000 while the
    total collected is 1100. *)
Lemma regional_totals_add_up_counterexample :
  Variant1.load_data (Ok Examples.registry_sin_regional) =
    (Examples.loaded Examples.registry_sin_regional, []) ∧
  Examples.summary_lines
    <$> Variant1.resumen_regional (Examples.loaded Examples.registry_sin_regional)
    = Ok [(Str "SUR", 1%nat, (1000 # 1)%Q)] ∧
  (λ k : Variant1.Kpis Qc, this (Variant1.total_recaudo k))
    <$> Variant1.kpis (Examples.loaded Examples.registry_sin_regional)
    = Ok (1100 # 1)%Q ∧
  (1000 # 1)%Q ≠ (1100 # 1)%Q.
Proof. repeat split; try (vm_compute; reflexivity). discriminate. Qed.

(** C7 (the code does not do what is claimed).  A parsable source without
    the status column: [load_data] of variant 2 raises KeyError, where the
    claim has it succeed.  The missing dues column, in contrast, is
    defaulted, and variant 1 loads the same source. *)
Theorem load_without_status_column :
  Variant2.load_data (Ok Examples.registry_sin_estado) =
    Raise (KeyError "ESTADO_AFILIADO") ∧
  is_ok (Variant1.load_data_try (Ok Examples.registry_sin_estado)) = true.
Proof. split; vm_compute; reflexivity. Qed.




(** C9.  On the import/export page, unless an upload is being confirmed,
    the run offers for download, under the name
    DB_AFILIADOS_ACTUALIZADA.csv, the CSV text of the table of the session
    (UTF-8 bytes), and the table of the session after the run is the table
    before it.  The text, read back as comma-separated values, is the
    header line, made of the column names, then one line per record, in
    order, each with one field per column and no index field; the field of
    a missing entry is empty, the field of a text entry is the text, and
    the field of a number is the number as Python writes it: as it is in a
    column that holds text or integers alone, as a float in any other
    column. *)
Theorem export_is_a_pure_read {F : Type} `{Runtime F}
    (session : option (DataFrame F)) (read : result (DataFrame F))
    (ui : Variant2.Inputs F) :
  Variant2.menu ui = Variant2.ImportarExportar →
  Variant2.uploaded_file ui = None ∨ Variant2.confirm ui = false →
  Variant2.script session read ui =
    Ok (Variant2.session_init session read,
        [st_download_button "📥 Exportar a CSV"
                            (to_csv (Variant2.session_init session read))
                            "DB_AFILIADOS_ACTUALIZADA.csv" "text/csv";
         st_warning Variant2.replace_note]) ∧
  (∀ df, session = Some df → Variant2.session_init session read = df) ∧
  ∀ df : DataFrame F,
    columns df ≠ [] →
    ∃ lines : list (list string),
      csv_read (to_csv df) = columns df :: lines ∧
      length lines = length (rows df) ∧
      ∀ (i : nat) (r : record F),
        rows df !! i = Some r →
        ∃ line,
          lines !! i = Some line ∧
          length line = length (columns df) ∧
          ∀ (j : nat) (c : string),
            columns df !! j = Some c →
            line !! j =
            Some match r !! c with
                 | None => ""
                 | Some (Str t) => t
                 | Some (Num x) =>
                     if has_text (column df c) || int_column (column df c)
                     then py_str x
                     else py_str (float_of x)
                 end.
Proof.
  intros Hm Hu. split; [|split].
  - unfold Variant2.script, Variant2.importar_exportar. rewrite Hm. simpl.
    destruct Hu as [-> | Hc]; [done|].
    rewrite Hc. by destruct (Variant2.uploaded_file ui).
  - by intros df ->.
  - intros df Hcols. rewrite (csv_read_to_csv df Hcols).
    exists ((λ r : record F,
               (λ c, csv_cell (column df c) (r !! c)) <$> columns df)
              <$> rows df).
    split; [done|]. split; [by rewrite length_fmap|].
    intros i r Hr.
    exists ((λ c, csv_cell (column df c) (r !! c)) <$> columns df).
    split; [by rewrite list_lookup_fmap, Hr|].
    split; [by rewrite length_fmap|].
    intros j c Hc. rewrite list_lookup_fmap, Hc. simpl. f_equal.
Qed.

(** The session of the registry of Juan Perez, exported: the text reads
    back as the header and one line, whose third field is SUR. *)
Lemma export_is_a_pure_read_witness :
  ∃ data,
    Variant2.script (Some Examples.session) Examples.not_csv
      (Examples.ui2 Variant2.ImportarExportar false "" None false) =
    Ok (Examples.session,
        [st_download_button "📥 Exportar a CSV" data
                            "DB_AFILIADOS_ACTUALIZADA.csv" "text/csv";
         st_warning Variant2.replace_note]) ∧
    data = to_csv Examples.session ∧
    ∃ line, csv_read data = [columns Examples.session; line] ∧
            line !! 2%nat = Some "SUR".
Proof.
  destruct (export_is_a_pure_read (H := Exact.runtime)
              (Some Examples.session) Examples.not_csv
              (Examples.ui2 Variant2.ImportarExportar false "" None false)
              eq_refl (or_introl eq_refl)) as (Hs & _ & Hcsv).
  exists (to_csv Examples.session).
  split; [exact Hs|]. split; [reflexivity|].
  destruct (Hcsv Examples.session) as (lines & Hread & Hlen & Hfields);
    [by vm_compute|].
  destruct (Hfields 0%nat Examples.juan_session) as (line & Hl & _ & Hf);
    [vm_compute; reflexivity|].
  exists line. split.
  - rewrite Hread. f_equal.
    destruct lines as [|l [|l' lines]]; [done| |done].
    simpl in Hl. by injection Hl as ->.
  - by rewrite (Hf 2%nat "REGIONAL" eq_refl).
Defined.

(** C10.  In variant 1 the percentage of active members divides the active
    count by the total count, and that division is never by zero: no run of
    the script ends with ZeroDivisionError; the pages are computed only for
    a frame that is not empty, for which the total count is at least 1 and
    the division yields a value; for an empty frame the run shows the
    warning alone. *)
Theorem active_percentage_never_divides_by_zero {F : Type} `{Runtime F} :
  (∀ (read : result (DataFrame F)) (ui : Variant1.Inputs F),
     Variant1.script read ui ≠ Raise ZeroDivisionError) ∧
  (∀ (df : DataFrame F) (k : Variant1.Kpis F),
     df_empty df = false → Variant1.kpis df = Ok k →
     (1 ≤ Variant1.total_afiliados k)%nat ∧
     py_truediv (Variant1.activos k) (Variant1.total_afiliados k) =
       Ok (Z.of_nat (Variant1.activos k)
             # Pos.of_nat (Variant1.total_afiliados k))) ∧
  (∀ (read : result (DataFrame F)) (ui : Variant1.Inputs F),
     df_empty (Variant1.load_data read).1 = true →
     Variant1.script read ui =
     Ok ((Variant1.load_data read).2 ++
         [st_warning Variant1.missing_file_warning])).
Proof.
  split; [|split].
  - intros read ui. unfold Variant1.script.
    destruct (Variant1.load_data read) as [df shown].
    destruct (df_empty df) eqn:He; simpl; [done|].
    apply no_zde_bind; [|done].
    destruct (Variant1.menu ui).
    + by apply no_zde_dashboard.
    + apply no_zde_gestion.
    + apply no_zde_reportes.
  - intros df k He Hk.
    destruct (v1_percentage_ok _ _ He Hk) as [Hpos _]. split; [done|].
    destruct (Variant1.total_afiliados k); [lia|done].
  - apply v1_script_empty.
Qed.

(** The registry of Juan Perez on the dashboard: one record, so the
    division is by 1. *)
Lemma active_percentage_never_divides_by_zero_witness :
  df_empty (Examples.loaded Examples.registry) = false ∧
  Variant1.script (Ok Examples.registry)
                  (Examples.ui1 Variant1.Dashboard false "")
    ≠ Raise ZeroDivisionError ∧
  ∀ k, Variant1.kpis (Examples.loaded Examples.registry) = Ok k →
       (1 ≤ Variant1.total_afiliados k)%nat ∧
       py_truediv (Variant1.activos k) (Variant1.total_afiliados k) =
         Ok (Z.of_nat (Variant1.activos k)
               # Pos.of_nat (Variant1.total_afiliados k)).
Proof.
  destruct (active_percentage_never_divides_by_zero (H := Exact.runtime))
    as (H1 & H2 & _).
  split; [vm_compute; reflexivity|]. split; [apply H1|].
  intros k Hk. apply (H2 (Examples.loaded Examples.registry) k);
    [vm_compute; reflexivity | exact Hk].
Defined.

(** * Further properties of the scripts *)

(** ** Loading, both variants *)

Lemma upper_char_idemp (c : ascii) : upper_char (upper_char c) = upper_char c.
Proof.
  destruct c as [b0 b1 b2 b3 b4 b5 b6 b7].
  destruct b0, b1, b2, b3, b4, b5, b6, b7; reflexivity.
Qed.

Lemma upper_idemp (s : string) : upper (upper s) = upper s.
Proof.
  induction s as [|c s IH]; [done|]. cbn [upper].
  by rewrite upper_char_idemp, IH.
Qed.

Section ReloadFacts.
Context {F : Type} `{Runtime F}.
Implicit Types (df raw : DataFrame F) (s : list (cell F)).

Lemma set_cell_same c (r : record F) : set_cell c (r !! c) r = r.
Proof.
  unfold set_cell. destruct (r !! c) as [x|] eqn:E.
  - by apply insert_id.
  - by apply delete_id.
Qed.

(** Writing a column back over itself changes nothing. *)
Lemma setitem_same df c :
  has_column c df = true → setitem df c (column df c) = df.
Proof.
  intros Hc. unfold setitem, column. rewrite Hc. destruct df as [cols rs].
  simpl. f_equal. induction rs as [|r rs IH]; [done|].
  rewrite fmap_cons. cbn [zip_with]. by rewrite set_cell_same, IH.
Qed.

Lemma columns_setitem df c s :
  columns (setitem df c s) =
  if has_column c df then columns df else columns df ++ [c].
Proof. done. Qed.

Lemma fillna_filled (x : value F) s :
  Forall (λ c : cell F, is_Some c) s → fillna x s = s.
Proof.
  intros Hs. unfold fillna. induction Hs as [|c s [y ->] _ IH]; [done|].
  rewrite fmap_cons. by rewrite IH.
Qed.

Lemma fillna_is_filled (x : value F) s :
  Forall (λ c : cell F, is_Some c) (fillna x s).
Proof.
  unfold fillna. apply Forall_fmap, Forall_forall. intros c _.
  destruct c; simpl; eauto.
Qed.

(** When [load_data] of variant 2 leaves a table as it is. *)
Lemma v2_load_fixed df :
  has_column "ESTADO_AFILIADO" df = true →
  has_column "REGIONAL" df = true →
  has_column "SUMA_CUOTAS_NUM" df = true →
  column df "SUMA_CUOTAS_NUM" =
    (if has_column "SUMA_CUOTAS" df
     then Variant2.clean_currency <$> column df "SUMA_CUOTAS"
     else replicate (len df) (Some (Num fzero))) →
  Forall (λ c : cell F, is_Some c) (column df "ESTADO_AFILIADO") →
  Forall (λ c : cell F, is_Some c) (column df "REGIONAL") →
  Variant2.load_data (Ok df) = Ok df.
Proof.
  intros Hst Hreg Hnum Hd Hs Hr. unfold Variant2.load_data.
  cbn [mbind result_bind].
  assert (Hstep : (if has_column "SUMA_CUOTAS" df
                   then s ← getitem df "SUMA_CUOTAS";
                        Ok (setitem df "SUMA_CUOTAS_NUM"
                                    (Variant2.clean_currency <$> s))
                   else Ok (setitem_scalar df "SUMA_CUOTAS_NUM" (Num fzero)))
                  = Ok df).
  { unfold setitem_scalar. destruct (has_column "SUMA_CUOTAS" df) eqn:E.
    - rewrite (getitem_has _ _ E). cbn [mbind result_bind].
      by rewrite <- Hd, setitem_same.
    - by rewrite <- Hd, setitem_same. }
  rewrite Hstep. cbn [mbind result_bind].
  rewrite (getitem_has _ _ Hst). cbn [mbind result_bind].
  rewrite (fillna_filled _ _ Hs), (setitem_same _ _ Hst).
  rewrite (getitem_has _ _ Hreg). cbn [mbind result_bind].
  by rewrite (fillna_filled _ _ Hr), (setitem_same _ _ Hreg).
Qed.
End ReloadFacts.

(** X1.  [load_data] of variant 2 (src/app.py) succeeds on a parsed table
    exactly when the table has both the ESTADO_AFILIADO and the REGIONAL
    column, whatever its dues hold; without the first it raises KeyError on
    it, with the first and without the second KeyError on the second; an
    exception of [pd.read_csv] is passed on.  A table it returns has the
    records of the source in number and the columns of the source, followed
    by SUMA_CUOTAS_NUM when that one is new. *)
Theorem v2_load_data_outcome {F : Type} `{Runtime F} (raw : DataFrame F) :
  ((∃ df, Variant2.load_data (Ok raw) = Ok df) ↔
   has_column "ESTADO_AFILIADO" raw = true ∧ has_column "REGIONAL" raw = true) ∧
  (has_column "ESTADO_AFILIADO" raw = false →
   Variant2.load_data (Ok raw) = Raise (KeyError "ESTADO_AFILIADO")) ∧
  (has_column "ESTADO_AFILIADO" raw = true →
   has_column "REGIONAL" raw = false →
   Variant2.load_data (Ok raw) = Raise (KeyError "REGIONAL")) ∧
  (∀ e, Variant2.load_data (Raise e : result (DataFrame F)) = Raise e) ∧
  (∀ df, Variant2.load_data (Ok raw) = Ok df →
     length (rows df) = length (rows raw) ∧
     columns df =
       if has_column "SUMA_CUOTAS_NUM" raw then columns raw
       else columns raw ++ ["SUMA_CUOTAS_NUM"]).
Proof.
  split; [|split; [|split; [|split]]].
  - split.
    + intros [df Hdf]. by apply v2_load_ok_inv in Hdf.
    + intros [Hst Hreg].
      destruct (v2_load_ok raw Hst Hreg) as (df & Hdf & _). eauto.
  - apply v2_load_missing_status.
  - apply v2_load_missing_regional.
  - done.
  - intros df Hdf. destruct (v2_load_ok_inv _ _ Hdf) as [Hst Hreg].
    destruct (v2_load_ok raw Hst Hreg) as (df' & Hdf' & Hlen & _).
    pose proof Hdf' as Hcols.
    rewrite Hdf in Hdf'. injection Hdf' as <-. split; [exact Hlen|].
    clear Hlen. revert Hcols. unfold Variant2.load_data.
    cbn [mbind result_bind].
    assert (Hstep : ∃ s1,
              (if has_column "SUMA_CUOTAS" raw
               then s ← getitem raw "SUMA_CUOTAS";
                    Ok (setitem raw "SUMA_CUOTAS_NUM"
                                (Variant2.clean_currency <$> s))
               else Ok (setitem_scalar raw "SUMA_CUOTAS_NUM" (Num fzero)))
              = Ok (setitem raw "SUMA_CUOTAS_NUM" s1)).
    { destruct (has_column "SUMA_CUOTAS" raw) eqn:E.
      - rewrite (getitem_has _ _ E). simpl. eauto.
      - unfold setitem_scalar. eauto. }
    destruct Hstep as [s1 ->]. cbn [mbind result_bind].
    set (df1 := setitem raw "SUMA_CUOTAS_NUM" s1).
    assert (Hst1 : has_column "ESTADO_AFILIADO" df1 = true)
      by (subst df1; by rewrite has_column_setitem, Hst).
    rewrite (getitem_has _ _ Hst1). cbn [mbind result_bind].
    set (df2 := setitem df1 "ESTADO_AFILIADO" _).
    assert (Hreg2 : has_column "REGIONAL" df2 = true)
      by (subst df2 df1; by rewrite !has_column_setitem, Hreg).
    rewrite (getitem_has _ _ Hreg2). cbn [mbind result_bind].
    intros [= <-]. rewrite columns_setitem, Hreg2. subst df2.
    rewrite columns_setitem, Hst1. subst df1. by rewrite columns_setitem.
Qed.

(** A registry with the two columns, and one without the regional. *)
Lemma v2_load_data_outcome_witness :
  (∃ df, Variant2.load_data (Ok Examples.registry) = Ok df) ∧
  Variant2.load_data (Ok Examples.registry_sin_estado) =
    Raise (KeyError "ESTADO_AFILIADO").
Proof.
  split.
  - apply (proj1 (v2_load_data_outcome (H := Exact.runtime) Examples.registry)).
    split; vm_compute; reflexivity.
  - destruct (v2_load_data_outcome (H := Exact.runtime)
                Examples.registry_sin_estado) as (_ & Hmiss & _).
    apply Hmiss. vm_compute. reflexivity.
Defined.

(** X2.  [load_data] of variant 2 is idempotent: a table it returned, given
    to it again, comes back as it is. *)
Theorem v2_load_data_idempotent {F : Type} `{Runtime F} (raw df : DataFrame F) :
  Variant2.load_data (Ok raw) = Ok df →
  Variant2.load_data (Ok df) = Ok df.
Proof.
  intros Hdf. destruct (v2_load_ok_inv _ _ Hdf) as [Hst Hreg].
  destruct (v2_load_ok raw Hst Hreg)
    as (df' & Hdf' & Hlen & Hcols & Hd & Hs & Hr & Hother).
  rewrite Hdf in Hdf'. injection Hdf' as <-.
  apply v2_load_fixed.
  - by rewrite Hcols, Hst.
  - by rewrite Hcols, Hreg.
  - rewrite Hcols. apply orb_true_r.
  - rewrite Hd, Hcols, orb_false_r, Hlen.
    by rewrite (Hother "SUMA_CUOTAS").
  - rewrite Hs. apply fillna_is_filled.
  - rewrite Hr. apply fillna_is_filled.
Qed.

(** The registry of Juan Perez, loaded twice. *)
Lemma v2_load_data_idempotent_witness :
  Variant2.load_data (Ok Examples.session) = Ok Examples.session.
Proof.
  apply (v2_load_data_idempotent (H := Exact.runtime) Examples.registry).
  vm_compute. reflexivity.
Defined.

Section Reload1Facts.
Context {F : Type} `{Runtime F}.
Implicit Types (df raw : DataFrame F) (s : list (cell F)).

(** The two steps of the load of variant 1, as they were taken. *)
Lemma v1_load_try_shape raw df :
  Variant1.load_data_try (Ok raw) = Ok df →
  ∃ df1,
    ((has_column "SUMA_CUOTAS" raw = true ∧
      ∃ s', astype_float (replace_regex_class "$," (column raw "SUMA_CUOTAS"))
              = Ok s' ∧
            length s' = len raw ∧
            df1 = setitem raw "SUMA_CUOTAS_NUM" s') ∨
     (has_column "SUMA_CUOTAS" raw = false ∧ df1 = raw)) ∧
    ((has_column "ESTADO_AFILIADO" df1 = true ∧
      df = setitem df1 "ESTADO_AFILIADO"
             (str_upper (fillna (Str "DESCONOCIDO")
                                (column df1 "ESTADO_AFILIADO")))) ∨
     (has_column "ESTADO_AFILIADO" df1 = false ∧ df = df1)).
Proof.
  unfold Variant1.load_data_try. cbn [mbind result_bind].
  destruct (has_column "SUMA_CUOTAS" raw) eqn:Hd.
  - rewrite (getitem_has _ _ Hd). cbn [mbind result_bind].
    destruct (astype_float _) as [s'|e] eqn:Es; cbn [mbind result_bind]; [|done].
    pose proof (astype_float_inv _ _ Es) as [Hl _].
    rewrite length_replace_regex_class, length_column in Hl.
    destruct (has_column "ESTADO_AFILIADO" (setitem raw "SUMA_CUOTAS_NUM" s'))
      eqn:Hst.
    + rewrite (getitem_has _ _ Hst). cbn [mbind result_bind].
      destruct (str_accessor _) as [u|e] eqn:Ea; cbn [mbind result_bind];
        [|done].
      apply str_accessor_inv in Ea as [-> _]. intros [= <-].
      eexists. split; [left; split; [done|]; by exists s' | left; by split].
    + cbn [mbind result_bind]. intros [= <-].
      eexists. split; [left; split; [done|]; by exists s' | right; by split].
  - cbn [mbind result_bind].
    destruct (has_column "ESTADO_AFILIADO" raw) eqn:Hst.
    + rewrite (getitem_has _ _ Hst). cbn [mbind result_bind].
      destruct (str_accessor _) as [u|e] eqn:Ea; cbn [mbind result_bind];
        [|done].
      apply str_accessor_inv in Ea as [-> _]. intros [= <-].
      exists raw. split; [right; by split | left; by split].
    + cbn [mbind result_bind]. intros [= <-].
      exists raw. split; [right; by split | right; by split].
Qed.

Lemma v1_load_ok_iff raw df :
  Variant1.load_data (Ok raw) = (df, []) ↔
  Variant1.load_data_try (Ok raw) = Ok df.
Proof.
  unfold Variant1.load_data.
  destruct (Variant1.load_data_try (Ok raw)) as [df'|e]; split; congruence.
Qed.

Lemma text_column_normalised s :
  text_column (fillna (Str "DESCONOCIDO") (normalised <$> s)) = true.
Proof. destruct s as [|[[t|x]|] s]; done. Qed.

Lemma normalised_fixed s :
  str_upper (fillna (Str "DESCONOCIDO") (normalised <$> s)) = normalised <$> s.
Proof.
  unfold str_upper, fillna. rewrite <- !list_fmap_compose.
  apply list_fmap_ext. intros i c _. simpl.
  destruct c as [[t|x]|]; simpl; try done. by rewrite upper_idemp.
Qed.
End Reload1Facts.

(** X3.  [load_data] of variant 1 (src/App.py) on a parsed table fails in
    two cases only: the table has a SUMA_CUOTAS column in which some text
    is not numeric once stripped, or it has records and a status column
    of numbers alone, on which [.str] raises AttributeError.  A missing
    column never makes it fail.  The table it returns when it does not
    fail has the records of the source in number and the columns of the
    source, followed by SUMA_CUOTAS_NUM when that one is derived and new;
    with neither the dues nor the status column the source is returned as
    it is. *)
Theorem v1_load_data_outcome {F : Type} `{Runtime F} (raw : DataFrame F) :
  ((∃ df, Variant1.load_data (Ok raw) = (df, [])) ↔
   (has_column "SUMA_CUOTAS" raw = false ∨
    forallb parses (column raw "SUMA_CUOTAS") = true) ∧
   status_loads raw = true) ∧
  (has_column "SUMA_CUOTAS" raw = false ∨
   forallb parses (column raw "SUMA_CUOTAS") = true →
   status_loads raw = false →
   Variant1.load_data (Ok raw) =
   (empty_frame, [st_error "Error al cargar el archivo: " AttributeError])) ∧
  (∀ df, Variant1.load_data (Ok raw) = (df, []) →
     length (rows df) = length (rows raw) ∧
     columns df =
       (if has_column "SUMA_CUOTAS" raw && negb (has_column "SUMA_CUOTAS_NUM" raw)
        then columns raw ++ ["SUMA_CUOTAS_NUM"] else columns raw) ∧
     (has_column "SUMA_CUOTAS" raw = false →
      has_column "ESTADO_AFILIADO" raw = false → df = raw)).
Proof.
  assert (Hdues : has_column "SUMA_CUOTAS" raw = false ∨
                  forallb parses (column raw "SUMA_CUOTAS") = true →
                  has_column "SUMA_CUOTAS" raw = true →
                  ∀ t, Some (Str t) ∈ column raw "SUMA_CUOTAS" →
                       is_Some (py_float (strip_currency t))).
  { intros [Hd|Hp] Hd'; [congruence | by apply parses_all]. }
  split; [|split].
  - split.
    + intros [df Hdf]. split.
      * destruct (has_column "SUMA_CUOTAS" raw) eqn:Hd; [|by left]. right.
        destruct (forallb parses (column raw "SUMA_CUOTAS")) eqn:Hp; [done|].
        destruct (parses_some_not _ Hp) as (t & Ht & Hn).
        destruct (v1_load_not_numeric raw t Hd Ht Hn) as [e He].
        rewrite He in Hdf. discriminate.
      * apply v1_load_ok_iff in Hdf. by apply v1_load_try_status in Hdf.
    + intros [Hd Hsl].
      destruct (v1_load_try_ok raw (Hdues Hd) Hsl) as [df Hdf].
      exists df. by apply v1_load_ok_iff.
  - intros Hd Hsl. unfold Variant1.load_data.
    by rewrite (v1_load_try_unreadable raw (Hdues Hd) Hsl).
  - intros df Hdf%v1_load_ok_iff.
    pose proof (v1_load_try_inv _ _ Hdf) as (Hlen & _).
    split; [exact Hlen|].
    destruct (v1_load_try_shape _ _ Hdf) as (df1 & H1 & H2).
    assert (Hc2 : columns df = columns df1).
    { destruct H2 as [[Hst ->]|[_ ->]]; [|done].
      by rewrite columns_setitem, Hst. }
    rewrite Hc2. destruct H1 as [(Hd & s' & _ & _ & ->)|[Hd ->]].
    + rewrite Hd, columns_setitem. simpl.
      split; [by destruct (has_column "SUMA_CUOTAS_NUM" raw)|]. congruence.
    + rewrite Hd. simpl. split; [done|]. intros _ Hst.
      destruct H2 as [[Hst' _]|[_ ->]]; [congruence | done].
Qed.

(** The registry of Juan Perez loads; the one with "pendiente" does not,
    and neither does the one whose status column is the number 1. *)
Lemma v1_load_data_outcome_witness :
  (∃ df, Variant1.load_data (Ok Examples.registry) = (df, [])) ∧
  ¬ (∃ df, Variant1.load_data (Ok Examples.registry_pendiente) = (df, [])) ∧
  Variant1.load_data (Ok Examples.registry_estado_numero) =
    (empty_frame, [st_error "Error al cargar el archivo: " AttributeError]).
Proof.
  split; [|split].
  - apply (proj1 (v1_load_data_outcome (H := Exact.runtime) Examples.registry)).
    split; [right|]; vm_compute; reflexivity.
  - intros Hex.
    apply (proj1 (v1_load_data_outcome (H := Exact.runtime)
                    Examples.registry_pendiente)) in Hex.
    destruct Hex as [[Hex|Hex] _]; vm_compute in Hex; discriminate.
  - apply (v1_load_data_outcome (H := Exact.runtime)
             Examples.registry_estado_numero);
      [right|]; vm_compute; reflexivity.
Defined.

(** X4.  [load_data] of variant 1 is idempotent on sources whose status
    entries are text or missing: a table it returned, given to it again,
    comes back as it is. *)
Theorem v1_load_data_idempotent {F : Type} `{Runtime F} (raw df : DataFrame F) :
  forallb textual (column raw "ESTADO_AFILIADO") = true →
  Variant1.load_data (Ok raw) = (df, []) →
  Variant1.load_data (Ok df) = (df, []).
Proof.
  intros Htx Hdf%v1_load_ok_iff. apply v1_load_ok_iff.
  destruct (v1_load_try_shape _ _ Hdf) as (df1 & H1 & H2).
  (* the table after the first step, and its status column *)
  assert (Hst1 : has_column "ESTADO_AFILIADO" df1 =
                 has_column "ESTADO_AFILIADO" raw ∧
                 column df1 "ESTADO_AFILIADO" = column raw "ESTADO_AFILIADO" ∧
                 len df1 = len raw).
  { destruct H1 as [(Hd & s' & _ & Hl & ->)|[_ ->]]; [|done].
    rewrite has_column_setitem, column_setitem_ne by done.
    rewrite len_setitem by done. by rewrite orb_false_r. }
  destruct Hst1 as (Hh1 & Hc1 & Hl1).
  assert (Hul : length (str_upper (fillna (Str "DESCONOCIDO")
                                          (column df1 "ESTADO_AFILIADO")))
                = len df1)
    by (by rewrite length_str_upper, length_fillna, length_column).
  assert (Hdues_step :
            (if has_column "SUMA_CUOTAS" df then
               s ← getitem df "SUMA_CUOTAS";
               s ← astype_float (replace_regex_class "$," s);
               Ok (setitem df "SUMA_CUOTAS_NUM" s)
             else Ok df) = Ok df).
  { assert (Hsame : has_column "SUMA_CUOTAS" df = has_column "SUMA_CUOTAS" raw ∧
                    column df "SUMA_CUOTAS" = column raw "SUMA_CUOTAS").
    { destruct H2 as [[_ ->]|[_ ->]].
      - rewrite has_column_setitem, column_setitem_ne by done.
        rewrite orb_false_r.
        destruct H1 as [(_ & s' & _ & Hl & ->)|[_ ->]]; [|done].
        rewrite has_column_setitem, column_setitem_ne by done.
        by rewrite orb_false_r.
      - destruct H1 as [(_ & s' & _ & Hl & ->)|[_ ->]]; [|done].
        rewrite has_column_setitem, column_setitem_ne by done.
        by rewrite orb_false_r. }
    destruct Hsame as [Hh Hc]. rewrite Hh.
    destruct H1 as [(Hd & s' & Hs' & Hl & ->)|[Hd ->]]; rewrite Hd; [|done].
    rewrite getitem_has by (by rewrite Hh). cbn [mbind result_bind].
    rewrite Hc, Hs'. cbn [mbind result_bind]. f_equal.
    assert (Hnum : has_column "SUMA_CUOTAS_NUM" df = true ∧
                   column df "SUMA_CUOTAS_NUM" = s').
    { destruct H2 as [[_ ->]|[_ ->]].
      - rewrite has_column_setitem, column_setitem_ne by done.
        rewrite has_column_setitem_same. split; [done|].
        by apply column_setitem.
      - split; [apply has_column_setitem_same | by apply column_setitem]. }
    destruct Hnum as [Hn <-]. by apply setitem_same. }
  unfold Variant1.load_data_try. cbn [mbind result_bind].
  rewrite Hdues_step. cbn [mbind result_bind].
  destruct H2 as [[Hst ->]|[Hst ->]].
  - rewrite has_column_setitem_same.
    rewrite getitem_has by apply has_column_setitem_same.
    cbn [mbind result_bind]. rewrite column_setitem by done.
    rewrite Hc1, (normalised_textual _ Htx).
    rewrite str_accessor_ok by apply text_column_normalised.
    cbn [mbind result_bind]. rewrite normalised_fixed.
    f_equal. rewrite <- (normalised_textual _ Htx), <- Hc1.
    set (u := str_upper _) in *.
    rewrite <- (column_setitem df1 "ESTADO_AFILIADO" u Hul) at 2.
    apply setitem_same, has_column_setitem_same.
  - by rewrite Hst.
Qed.

(** The registry of Juan Perez, loaded twice by variant 1. *)
Lemma v1_load_data_idempotent_witness :
  Variant1.load_data (Ok (Examples.loaded Examples.registry)) =
    (Examples.loaded Examples.registry, []).
Proof.
  apply (v1_load_data_idempotent (H := Exact.runtime) Examples.registry);
    vm_compute; reflexivity.
Defined.

(** ** Indicators and pages *)

Lemma length_filter_disjoint {A} (P Q : A → Prop) `{!∀ x, Decision (P x)}
    `{!∀ x, Decision (Q x)} (l : list A) :
  (∀ x, P x → Q x → False) →
  (length (filter P l) + length (filter Q l) ≤ length l)%nat ∧
  ((∀ x, x ∈ l → P x ∨ Q x) →
   (length (filter P l) + length (filter Q l))%nat = length l).
Proof.
  intros Hdis. induction l as [|a l [IH1 IH2]]; [done|].
  rewrite !filter_cons.
  destruct (decide (P a)) as [HP|HP]; destruct (decide (Q a)) as [HQ|HQ];
    simpl.
  - destruct (Hdis a HP HQ).
  - split; [lia|]. intros Hall. rewrite <- IH2; [lia|].
    intros x Hx. apply Hall. by apply list_elem_of_further.
  - split; [lia|]. intros Hall. rewrite <- IH2; [lia|].
    intros x Hx. apply Hall. by apply list_elem_of_further.
  - split; [lia|]. intros Hall.
    destruct (Hall a (list_elem_of_here _ _)); done.
Qed.

Section PageFacts.
Context {F : Type} `{Runtime F}.
Implicit Types (df : DataFrame F).

Lemma v1_kpis_has_status df k :
  Variant1.kpis df = Ok k → has_column "ESTADO_AFILIADO" df = true.
Proof.
  unfold Variant1.kpis.
  destruct (getitem df "ESTADO_AFILIADO") as [s|e] eqn:E; simpl; [|done].
  intros _. by apply getitem_ok_inv in E as [-> _].
Qed.

Lemma v1_kpis_counts df k :
  Variant1.kpis df = Ok k →
  Variant1.total_afiliados k = length (rows df) ∧
  Variant1.activos k = length (filter (status_is "ACTIVO") (rows df)) ∧
  Variant1.retirados k = length (filter (status_is "RETIRADO") (rows df)).
Proof.
  intros Hk. pose proof (v1_kpis_has_status _ _ Hk) as Hst.
  rewrite (v1_kpis_spec _ Hst) in Hk.
  destruct (if has_column "SUMA_CUOTAS_NUM" df then _ else _); simpl in Hk;
    [|done].
  by injection Hk as <-.
Qed.

Lemma v2_kpis_counts df k :
  Variant2.kpis df = Ok k →
  Variant2.total_afiliados k = length (rows df) ∧
  Variant2.activos k = length (filter (upper_status_is "ACTIVO") (rows df)) ∧
  Variant2.retirados k =
    length (filter (upper_status_is "RETIRADO") (rows df)).
Proof.
  intros Hk. pose proof (v2_kpis_inv _ _ Hk) as (Hst & Hd & Htx).
  rewrite (v2_kpis_spec _ Hst Hd Htx) in Hk.
  destruct (series_sum _); simpl in Hk; [|done]. by injection Hk as <-.
Qed.

Lemma v1_counts_le df k :
  Variant1.kpis df = Ok k →
  (Variant1.activos k + Variant1.retirados k ≤ Variant1.total_afiliados k)%nat.
Proof.
  intros Hk. destruct (v1_kpis_counts _ _ Hk) as (-> & -> & ->).
  apply length_filter_disjoint. unfold status_is. intros r H1 H2.
  rewrite H1 in H2. discriminate.
Qed.
End PageFacts.

(** X5.  In both variants the active and the retired counts never exceed,
    together, the total count; they add up to it when every record is
    either active or retired (for variant 2: once its status is
    uppercased). *)
Theorem active_and_retired_within_total {F : Type} `{Runtime F}
    (df : DataFrame F) :
  (∀ k, Variant1.kpis df = Ok k →
     (Variant1.activos k + Variant1.retirados k ≤ Variant1.total_afiliados k)%nat ∧
     ((∀ r, r ∈ rows df → status_is "ACTIVO" r ∨ status_is "RETIRADO" r) →
      (Variant1.activos k + Variant1.retirados k)%nat =
      Variant1.total_afiliados k)) ∧
  (∀ k, Variant2.kpis df = Ok k →
     (Variant2.activos k + Variant2.retirados k ≤ Variant2.total_afiliados k)%nat ∧
     ((∀ r, r ∈ rows df →
            upper_status_is "ACTIVO" r ∨ upper_status_is "RETIRADO" r) →
      (Variant2.activos k + Variant2.retirados k)%nat =
      Variant2.total_afiliados k)).
Proof.
  split; intros k Hk.
  - destruct (v1_kpis_counts _ _ Hk) as (-> & -> & ->).
    apply length_filter_disjoint. unfold status_is. intros r H1 H2.
    rewrite H1 in H2. discriminate.
  - destruct (v2_kpis_counts _ _ Hk) as (-> & -> & ->).
    apply length_filter_disjoint. unfold upper_status_is, upper_is.
    intros r (t & Ht & Hu) (t' & Ht' & Hu'). rewrite Ht in Ht'.
    injection Ht' as <-. rewrite Hu in Hu'. discriminate.
Qed.

(** The session of Juan Perez: one active member out of one. *)
Lemma active_and_retired_within_total_witness :
  ∃ k, Variant2.kpis Examples.session = Ok k ∧
       (Variant2.activos k + Variant2.retirados k ≤
        Variant2.total_afiliados k)%nat.
Proof.
  destruct (Variant2.kpis Examples.session) as [k|e] eqn:Hk;
    [|by vm_compute in Hk].
  exists k. split; [done|].
  apply (proj2 (active_and_retired_within_total (H := Exact.runtime)
                  Examples.session) k Hk).
Defined.

(** X6.  The percentage of active members that the dashboard of variant 1
    shows beside the active count lies between 0 and 100. *)
Theorem active_percentage_in_range {F : Type} `{Runtime F}
    (df : DataFrame F) (k : Variant1.Kpis F) :
  df_empty df = false →
  Variant1.kpis df = Ok k →
  ∃ p, py_truediv (Variant1.activos k) (Variant1.total_afiliados k) = Ok p ∧
       (0 <= p * 100)%Q ∧ (p * 100 <= 100)%Q.
Proof.
  intros He Hk.
  pose proof (v1_counts_le _ _ Hk) as Hle.
  destruct (v1_percentage_ok _ _ He Hk) as [Hpos _].
  destruct (Variant1.total_afiliados k) as [|n] eqn:En; [lia|].
  eexists. split; [reflexivity|].
  assert (Hden : Zpos (Pos.of_nat (S n)) = Z.of_nat (S n)).
  { rewrite <- positive_nat_Z, Nat2Pos.id by done. done. }
  unfold Qle, Qmult. simpl Qnum. simpl Qden.
  rewrite Pos2Z.inj_mul, Hden. split; nia.
Qed.

(** The registry of Juan Perez: 100 percent. *)
Lemma active_percentage_in_range_witness :
  ∃ k p, Variant1.kpis (Examples.loaded Examples.registry) = Ok k ∧
         py_truediv (Variant1.activos k) (Variant1.total_afiliados k) = Ok p ∧
         (0 <= p * 100)%Q ∧ (p * 100 <= 100)%Q.
Proof.
  destruct (Variant1.kpis (Examples.loaded Examples.registry)) as [k|e] eqn:Hk;
    [|by vm_compute in Hk].
  destruct (active_percentage_in_range (H := Exact.runtime)
              (Examples.loaded Examples.registry) k) as (p & Hp);
    [vm_compute; reflexivity | exact Hk |].
  by exists k, p.
Defined.

(** ** The session of variant 2 *)

Section SessionRuns.
Context {F : Type} `{Runtime F}.
Implicit Types (df : DataFrame F).

Lemma v2_dashboard_ok df :
  session_ok df = true →
  text_column (column df "ESTADO_AFILIADO") = true →
  ∃ page, Variant2.dashboard df = Ok page ∧ length page = 6%nat.
Proof.
  intros Hok Htx.
  pose proof (session_ok_inv _ Hok) as (_ & Hr & Hd & _ & Hn).
  unfold Variant2.dashboard. rewrite (v2_kpis_ok _ Hok Htx).
  cbn [mbind result_bind]. unfold Variant2.regional_counts.
  rewrite (getitem_has _ _ Hr). cbn [mbind result_bind].
  rewrite (v2_recaudo_ok _ Hr Hd Hn). cbn [mbind result_bind]. eauto.
Qed.

Lemma next_session_ok (session : option (DataFrame F)) read ui :
  (∀ df, session = Some df → session_ok df = true) →
  session_ok (next_session session read ui) = true.
Proof.
  intros Hs. unfold next_session.
  destruct (Variant2.script session read ui) as [[df' page]|e] eqn:E.
  - by apply (v2_script_session_ok session read ui df' page).
  - by apply session_init_ok.
Qed.

Lemma session_after_ok runs (session : option (DataFrame F)) df :
  (∀ d, session = Some d → session_ok d = true) →
  session_after session runs = Some df → session_ok df = true.
Proof.
  revert session df.
  induction runs as [|[read ui] runs IH]; intros session df Hs;
    cbn [session_after].
  - apply Hs.
  - apply IH. intros d [= <-]. by apply next_session_ok.
Qed.
End SessionRuns.

(** X7.  Whatever the file holds or fails to hold, and whatever the user
    does, run after run, the table in the session of variant 2 always has
    the ESTADO_AFILIADO, REGIONAL and SUMA_CUOTAS_NUM columns, a regional
    in every record and no text among the numeric dues. *)
Theorem session_table_invariant {F : Type} `{Runtime F}
    (runs : list (result (DataFrame F) * Variant2.Inputs F)) (df : DataFrame F) :
  session_after None runs = Some df →
  has_column "ESTADO_AFILIADO" df = true ∧
  has_column "REGIONAL" df = true ∧
  has_column "SUMA_CUOTAS_NUM" df = true ∧
  (∀ r : record F, r ∈ rows df → is_Some (r !! "REGIONAL")) ∧
  (∀ r : record F, r ∈ rows df → numeric (r !! "SUMA_CUOTAS_NUM") = true).
Proof.
  intros Hdf. apply (session_after_ok runs None df) in Hdf; [|done].
  pose proof (session_ok_inv _ Hdf) as (H1 & H2 & H3 & H4 & H5).
  repeat split; try done. by apply forallb_numeric_column.
Qed.

(** Two runs on a file that is not CSV: the dashboard, then the form. *)
Lemma session_table_invariant_witness :
  ∃ df,
    session_after None
      [ (Examples.not_csv, Examples.ui2 Variant2.Dashboard false "" None false);
        (Examples.not_csv, Examples.ui2 Variant2.Gestion true "" None false) ]
      = Some df ∧
    has_column "REGIONAL" df = true ∧
    (∀ r : record Qc, r ∈ rows df → is_Some (r !! "REGIONAL")).
Proof.
  destruct (session_after None
      [ (Examples.not_csv, Examples.ui2 Variant2.Dashboard false "" None false);
        (Examples.not_csv, Examples.ui2 Variant2.Gestion true "" None false) ])
    as [df|] eqn:E; [|by vm_compute in E].
  exists df. split; [done|].
  destruct (session_table_invariant (H := Exact.runtime) _ df E)
    as (_ & H2 & _ & H4 & _).
  by split.
Defined.

(** X8.  A run of variant 2 on the dashboard, in the first run and in
    every later one, whatever the file and the earlier runs were.  When
    the status column of the table holds text, or the table has no record,
    the dashboard is drawn: four metrics and two charts, the table of the
    session left as it is.  Otherwise the status column holds numbers
    alone, as a file can bring it, and the run ends with the
    AttributeError of [.str].  No other exception ends such a run. *)
Theorem dashboard_run_outcome {F : Type} `{Runtime F}
    (runs : list (result (DataFrame F) * Variant2.Inputs F))
    (read : result (DataFrame F)) (ui : Variant2.Inputs F) :
  Variant2.menu ui = Variant2.Dashboard →
  (text_column
     (column (Variant2.session_init (session_after None runs) read)
             "ESTADO_AFILIADO") = true →
   ∃ page,
     Variant2.script (session_after None runs) read ui =
       Ok (Variant2.session_init (session_after None runs) read, page) ∧
     length page = 6%nat) ∧
  (text_column
     (column (Variant2.session_init (session_after None runs) read)
             "ESTADO_AFILIADO") = false →
   Variant2.script (session_after None runs) read ui = Raise AttributeError).
Proof.
  intros Hm.
  assert (Hok : session_ok (Variant2.session_init (session_after None runs) read)
                = true).
  { apply session_init_ok. intros df Hdf.
    by apply (session_after_ok runs None df). }
  split; intros Htx.
  - destruct (v2_dashboard_ok _ Hok Htx) as (page & Hp & Hl).
    exists page. split; [|done].
    unfold Variant2.script. rewrite Hm, Hp. done.
  - unfold Variant2.script, Variant2.dashboard. rewrite Hm.
    apply session_ok_inv in Hok as (Hst & _).
    by rewrite (v2_kpis_raise _ Hst Htx).
Qed.

(** The dashboard after a form was submitted on a file that is not CSV,
    and the dashboard of the first run on a file whose status column is
    the number 1. *)
Lemma dashboard_run_outcome_witness :
  is_ok (Variant2.script
           (session_after None
              [(Examples.not_csv,
                Examples.ui2 Variant2.Gestion true "" None false)])
           Examples.not_csv
           (Examples.ui2 Variant2.Dashboard false "" None false)) = true ∧
  Variant2.script None (Ok Examples.registry_estado_numero)
    (Examples.ui2 Variant2.Dashboard false "" None false) =
  Raise AttributeError.
Proof.
  split.
  - destruct (dashboard_run_outcome (H := Exact.runtime)
                [(Examples.not_csv,
                  Examples.ui2 Variant2.Gestion true "" None false)]
                Examples.not_csv
                (Examples.ui2 Variant2.Dashboard false "" None false) eq_refl)
      as [Hdrawn _].
    destruct Hdrawn as (page & -> & _); [vm_compute|]; reflexivity.
  - apply (dashboard_run_outcome (H := Exact.runtime) []
             (Ok Examples.registry_estado_numero)
             (Examples.ui2 Variant2.Dashboard false "" None false) eq_refl).
    vm_compute. reflexivity.
Defined.

(** X9.  What changes the table of the session of variant 2.  A run that
    is neither a submitted form nor a confirmed import leaves the table as
    it is; a submitted form makes it one record longer; a confirmed import
    of a table that loads replaces it by that table, whatever it was
    before.  Once the session has a table, the file DB_AFILIADOS.csv has no
    part in a run. *)
Theorem session_table_changes {F : Type} `{Runtime F}
    (session : option (DataFrame F)) (read : result (DataFrame F))
    (ui : Variant2.Inputs F) :
  (Variant2.menu ui = Variant2.Dashboard ∨
   (Variant2.menu ui = Variant2.Gestion ∧ Variant2.submit ui = false) ∨
   (Variant2.menu ui = Variant2.ImportarExportar ∧
    (Variant2.uploaded_file ui = None ∨ Variant2.confirm ui = false)) →
   next_session session read ui = Variant2.session_init session read) ∧
  (Variant2.menu ui = Variant2.Gestion → Variant2.submit ui = true →
   length (rows (next_session session read ui)) =
   S (length (rows (Variant2.session_init session read)))) ∧
  (∀ up new,
     Variant2.menu ui = Variant2.ImportarExportar →
     Variant2.uploaded_file ui = Some up → Variant2.confirm ui = true →
     Variant2.load_data up = Ok new →
     next_session session read ui = new) ∧
  (∀ df read', session = Some df →
     Variant2.script session read ui = Variant2.script session read' ui).
Proof.
  split; [|split; [|split]].
  - unfold next_session, Variant2.script.
    intros [Hm|[[Hm Hs]|[Hm Hu]]]; rewrite Hm.
    + by destruct (Variant2.dashboard _).
    + unfold Variant2.gestion. rewrite Hs.
      by destruct (Variant2.search_filter _ _).
    + unfold Variant2.importar_exportar.
      destruct Hu as [-> | Hc]; [done|]. rewrite Hc.
      by destruct (Variant2.uploaded_file ui).
  - intros Hm Hs. unfold next_session, Variant2.script, Variant2.gestion.
    rewrite Hm, Hs. apply len_append_row.
  - intros up new Hm Hu Hc Hnew.
    unfold next_session, Variant2.script, Variant2.importar_exportar.
    by rewrite Hm, Hu, Hc, Hnew.
  - by intros df read' ->.
Qed.

(** A search in the session of Juan Perez changes nothing in it. *)
Lemma session_table_changes_witness :
  next_session (Some Examples.session) Examples.not_csv
    (Examples.ui2 Variant2.Gestion false "Juan" None false) = Examples.session.
Proof.
  apply (proj1 (session_table_changes (H := Exact.runtime)
                  (Some Examples.session) Examples.not_csv
                  (Examples.ui2 Variant2.Gestion false "Juan" None false))).
  right. left. split; reflexivity.
Defined.

(** ** Pages and searches on tables that lack a column *)

(** X10.  Variant 1 guards the load against missing columns and not the
    pages: on a loaded table that is not empty, the dashboard ends with
    KeyError when the status column is missing, the management page and the
    report when the regional column is missing, and the management page,
    with a regional column, when the name column is missing. *)
Theorem v1_pages_need_their_columns {F : Type} `{Runtime F}
    (read : result (DataFrame F)) (ui : Variant1.Inputs F)
    (df : DataFrame F) (shown : list (output F)) :
  Variant1.load_data read = (df, shown) →
  df_empty df = false →
  (Variant1.menu ui = Variant1.Dashboard →
   has_column "ESTADO_AFILIADO" df = false →
   Variant1.script read ui = Raise (KeyError "ESTADO_AFILIADO")) ∧
  (Variant1.menu ui = Variant1.Gestion →
   has_column "REGIONAL" df = false →
   Variant1.script read ui = Raise (KeyError "REGIONAL")) ∧
  (Variant1.menu ui = Variant1.Reportes →
   has_column "REGIONAL" df = false →
   Variant1.script read ui = Raise (KeyError "REGIONAL")) ∧
  (Variant1.menu ui = Variant1.Gestion →
   has_column "REGIONAL" df = true →
   has_column "APELLIDOS / NOMBRES" df = false →
   Variant1.script read ui = Raise (KeyError "APELLIDOS / NOMBRES")).
Proof.
  intros Hload He. unfold Variant1.script. rewrite Hload, He. simpl.
  repeat split; intros ->.
  - intros Hst. unfold Variant1.dashboard, Variant1.kpis.
    by rewrite (getitem_missing _ _ Hst).
  - intros Hr. unfold Variant1.gestion. by rewrite (getitem_missing _ _ Hr).
  - intros Hr. unfold Variant1.reportes, Variant1.resumen_regional, groupby.
    by rewrite (getitem_missing _ _ Hr).
  - intros Hr Hn. unfold Variant1.gestion, Variant1.search_filter.
    rewrite (getitem_has _ _ Hr). cbn [mbind result_bind].
    by rewrite (getitem_missing _ _ Hn).
Qed.

(** The source without a status column loads in variant 1, and its
    dashboard ends with KeyError. *)
Lemma v1_pages_need_their_columns_witness :
  Variant1.script (Ok Examples.registry_sin_estado)
                  (Examples.ui1 Variant1.Dashboard false "") =
  Raise (KeyError "ESTADO_AFILIADO").
Proof.
  destruct (v1_pages_need_their_columns (H := Exact.runtime)
              (Ok Examples.registry_sin_estado)
              (Examples.ui1 Variant1.Dashboard false "")
              (Examples.loaded Examples.registry_sin_estado) [])
    as (Hd & _); [vm_compute; reflexivity ..|].
  apply Hd; [reflexivity | vm_compute; reflexivity].
Defined.

(** X11.  How a search fails.  Variant 2 skips the search for the empty
    query and returns the table whatever its columns; variant 1 searches
    always.  Without the name column the search raises KeyError: in
    variant 1 for every query, the empty one included, in variant 2 for
    every other query.  With a name column of numbers or missing entries
    alone, in a table with records, [.str] raises AttributeError, in the
    same cases and whatever the query is, a regular expression or not.
    With a name column that holds text, a query that [re.compile] rejects
    ends the search of either variant with that error. *)
Theorem search_failures {F : Type} `{Runtime F} (df : DataFrame F) :
  Variant2.search_filter df "" = Ok df ∧
  (has_column "APELLIDOS / NOMBRES" df = false →
   ∀ q, Variant1.search_filter df q = Raise (KeyError "APELLIDOS / NOMBRES") ∧
        (q ≠ "" → Variant2.search_filter df q =
                  Raise (KeyError "APELLIDOS / NOMBRES"))) ∧
  (has_column "APELLIDOS / NOMBRES" df = true →
   text_column (column df "APELLIDOS / NOMBRES") = false →
   ∀ q, Variant1.search_filter df q = Raise AttributeError ∧
        (q ≠ "" → Variant2.search_filter df q = Raise AttributeError)) ∧
  (has_column "APELLIDOS / NOMBRES" df = true →
   text_column (column df "APELLIDOS / NOMBRES") = true →
   ∀ q, literal q = false → re_compile q false = None →
        Variant1.search_filter df q = Raise (ReError q) ∧
        Variant2.search_filter df q = Raise (ReError q)).
Proof.
  split; [done|]. split; [|split].
  - intros Hn q. split.
    + unfold Variant1.search_filter. by rewrite (getitem_missing _ _ Hn).
    + intros Hq. unfold Variant2.search_filter.
      rewrite bool_decide_eq_false_2 by done.
      by rewrite (getitem_missing _ _ Hn).
  - intros Hn Htx q. split.
    + by apply v1_search_unreadable.
    + intros Hq. by apply v2_search_unreadable.
  - intros Hn Htx q Hl Hre.
    assert (Hq : q ≠ "") by (intros ->; discriminate).
    unfold Variant1.search_filter, Variant2.search_filter.
    rewrite bool_decide_eq_false_2 by done.
    rewrite (getitem_has _ _ Hn). cbn [mbind result_bind].
    unfold str_contains. rewrite (str_accessor_ok _ Htx).
    cbn [mbind result_bind]. unfold contains_matcher. rewrite Hl, Hre. done.
Qed.

(** The source without a name column, searched for "Juan"; the registry
    of Juan Perez searched for an open parenthesis; the registry whose
    names are the number 9, searched for "9". *)
Lemma search_failures_witness :
  Variant2.search_filter Examples.registry_sin_estado "Juan" =
    Raise (KeyError "APELLIDOS / NOMBRES") ∧
  Variant1.search_filter Examples.registry "(" = Raise (ReError "(") ∧
  Variant1.search_filter Examples.registry_nombre_numero "9" =
    Raise AttributeError.
Proof.
  destruct (search_failures (H := Exact.runtime) Examples.registry_sin_estado)
    as (_ & Hmiss & _).
  destruct (search_failures (H := Exact.runtime) Examples.registry)
    as (_ & _ & _ & Hbad).
  destruct (search_failures (H := Exact.runtime)
              Examples.registry_nombre_numero) as (_ & _ & Hnum & _).
  split; [|split].
  - apply (Hmiss ltac:(vm_compute; reflexivity) "Juan"). discriminate.
  - destruct (Hbad ltac:(vm_compute; reflexivity)
                ltac:(vm_compute; reflexivity) "(") as [H1 _];
      [vm_compute; reflexivity ..|].
    exact H1.
  - destruct (Hnum ltac:(vm_compute; reflexivity)
                ltac:(vm_compute; reflexivity) "9") as [H1 _].
    exact H1.
Defined.

(** ** What a search returns *)

Lemma mask_filter_sublist {A} (l : list A) (m : list bool) :
  sublist (mask_filter l m) l.
Proof.
  revert m. induction l as [|a l IH]; intros [|[] m]; cbn [mask_filter];
    try apply sublist_nil_l.
  - apply sublist_skip, IH.
  - apply sublist_cons, IH.
Qed.

Lemma lower_app (a b : string) : lower (a +:+ b) = lower a +:+ lower b.
Proof.
  induction a as [|c a IH]; [done|].
  rewrite append_cons. cbn [lower]. by rewrite IH, append_cons.
Qed.

Lemma occurs_in_trans (q q' t : string) :
  occurs_in q q' → occurs_in q' t → occurs_in q t.
Proof.
  intros (a & b & ->) (c & d & ->).
  exists (c +:+ a), (b +:+ d). by rewrite !string_app_assoc.
Qed.

Lemma occurs_in_lower (q t : string) :
  occurs_in q t → occurs_in (lower q) (lower t).
Proof.
  intros (a & b & ->). exists (lower a), (lower b). by rewrite !lower_app.
Qed.

Lemma literal_app (a b : string) :
  literal (a +:+ b) = literal a && literal b.
Proof.
  induction a as [|c a IH]; [done|].
  rewrite append_cons. cbn [literal]. by rewrite IH, andb_assoc.
Qed.

Lemma is_ascii_app (a b : string) :
  is_ascii (a +:+ b) = is_ascii a && is_ascii b.
Proof.
  induction a as [|c a IH]; [done|].
  rewrite append_cons. cbn [is_ascii]. by rewrite IH, andb_assoc.
Qed.

Lemma is_ascii_occurs_in (q q' : string) :
  occurs_in q q' → is_ascii q' = true → is_ascii q = true.
Proof.
  intros (a & b & ->). rewrite !is_ascii_app, !andb_true_iff. tauto.
Qed.

Lemma literal_occurs_in (q q' : string) :
  occurs_in q q' → literal q' = true → literal q = true.
Proof.
  intros (a & b & ->). rewrite !literal_app, !andb_true_iff. tauto.
Qed.

Section SearchOrder.
Context {F : Type} `{Runtime F}.
Implicit Types (df : DataFrame F).

Lemma v2_search_shape df q out :
  Variant2.search_filter df q = Ok out →
  columns out = columns df ∧ sublist (rows out) (rows df).
Proof.
  unfold Variant2.search_filter. destruct (bool_decide (q = "")).
  { by intros [= <-]. }
  destruct (getitem df "APELLIDOS / NOMBRES"); simpl; [|done].
  destruct (str_contains q false _); simpl; [|done].
  destruct (getitem df "CEDULA"); simpl; [|done].
  destruct (astype_str_contains q _); simpl; [|done].
  intros [= <-]. split; [done|]. apply mask_filter_sublist.
Qed.

Lemma v1_search_shape df q out :
  Variant1.search_filter df q = Ok out →
  columns out = columns df ∧ sublist (rows out) (rows df).
Proof.
  unfold Variant1.search_filter.
  destruct (getitem df "APELLIDOS / NOMBRES"); simpl; [|done].
  destruct (str_contains q false _); simpl; [|done].
  destruct (getitem df "CEDULA"); simpl; [|done].
  destruct (astype_str_contains q _); simpl; [|done].
  intros [= <-]. split; [done|]. apply mask_filter_sublist.
Qed.

Lemma matchb_narrow (q q' : string) (r : record F) :
  occurs_in q q' → is_ascii q' = true →
  (∀ t, r !! "APELLIDOS / NOMBRES" = Some (Str t) → is_ascii t = true) →
  matchb q' r = true → matchb q r = true.
Proof.
  intros Hq Ha' Hr. pose proof (is_ascii_occurs_in _ _ Hq Ha') as Ha.
  rewrite !matchb_spec. unfold name_matches, cedula_matches, contains_nocase.
  intros [(t & Ht & Ho)|Ho]; [left|right].
  - exists t. split; [done|]. rewrite (Hr t Ht), ?Ha, ?Ha' in *.
    by apply occurs_in_trans with (lower q'); [apply occurs_in_lower|].
  - by apply occurs_in_trans with q'.
Qed.

Lemma filter_narrow (q q' : string) (l : list (record F)) :
  occurs_in q q' → is_ascii q' = true →
  (∀ r t, r ∈ l → r !! "APELLIDOS / NOMBRES" = Some (Str t) →
          is_ascii t = true) →
  sublist (filter (λ r, matchb q' r = true) l)
          (filter (λ r, matchb q r = true) l).
Proof.
  intros Hq Ha'. induction l as [|r l IH]; intros Hl; [done|].
  assert (IH' := IH (λ r' t Hr', Hl r' t (list_elem_of_further _ _ _ Hr'))).
  rewrite !filter_cons.
  destruct (decide (matchb q' r = true)) as [Hm'|Hm'].
  - rewrite decide_True.
    + by apply sublist_skip.
    + apply matchb_narrow with q'; try done.
      intros t. apply Hl, list_elem_of_here.
  - destruct (decide (matchb q r = true)); [by apply sublist_cons | done].
Qed.

Lemma ascii_names_spec df :
  ascii_names df = true →
  ∀ r t, r ∈ rows df → r !! "APELLIDOS / NOMBRES" = Some (Str t) →
         is_ascii t = true.
Proof.
  unfold ascii_names, column. rewrite forallb_forall.
  intros Hall r t Hr Ht.
  specialize (Hall (r !! "APELLIDOS / NOMBRES")). rewrite Ht in Hall.
  apply Hall, list_elem_of_In, list_elem_of_fmap. exists r. by rewrite Ht.
Qed.

Lemma v2_search_rows df q :
  literal q = true →
  has_column "APELLIDOS / NOMBRES" df = true →
  has_column "CEDULA" df = true →
  text_column (column df "APELLIDOS / NOMBRES") = true →
  ∃ out, Variant2.search_filter df q = Ok out ∧
         rows out = filter (λ r, matchb q r = true) (rows df).
Proof.
  intros Hl Hn Hc Htx. destruct (decide (q = "")) as [->|Hq].
  - exists df. split; [done|]. symmetry. apply filter_all.
    intros r _. apply matchb_empty.
  - eexists. split; [by apply v2_search_literal|done].
Qed.
End SearchOrder.

(** X12.  Whatever the query, a regular expression or not, a search that
    returns in either variant returns records of the table, in the order
    they have in it and none more often than it is there, under the same
    columns. *)
Theorem search_returns_a_sublist {F : Type} `{Runtime F}
    (df : DataFrame F) (q : string) :
  (∀ out, Variant1.search_filter df q = Ok out →
          columns out = columns df ∧ sublist (rows out) (rows df)) ∧
  (∀ out, Variant2.search_filter df q = Ok out →
          columns out = columns df ∧ sublist (rows out) (rows df)).
Proof. split; intros out; [apply v1_search_shape | apply v2_search_shape]. Qed.

(** The registry of Eva Ruiz: every answer is within it. *)
Lemma search_returns_a_sublist_witness :
  ∃ out, Variant1.search_filter Examples.registry_letras "ab" = Ok out ∧
         sublist (rows out) (rows Examples.registry_letras).
Proof.
  destruct (Variant1.search_filter Examples.registry_letras "ab")
    as [out|e] eqn:Hout; [|by vm_compute in Hout].
  exists out. split; [done|].
  apply (proj1 (search_returns_a_sublist (H := Exact.runtime)
                  Examples.registry_letras "ab") out Hout).
Defined.

(** X13.  Typing more narrows the search.  On a table whose name column
    holds text, all of it ASCII, and for plain ASCII queries: when [q]
    occurs in [q'], both variants answer both queries, and every record the
    search for [q'] returns is returned by the search for [q], in the same
    order. *)
Theorem longer_query_narrows {F : Type} `{Runtime F}
    (df : DataFrame F) (q q' : string) :
  literal q' = true →
  is_ascii q' = true →
  occurs_in q q' →
  has_column "APELLIDOS / NOMBRES" df = true →
  has_column "CEDULA" df = true →
  text_column (column df "APELLIDOS / NOMBRES") = true →
  ascii_names df = true →
  ∃ out1 out1' out2 out2',
    Variant1.search_filter df q = Ok out1 ∧
    Variant1.search_filter df q' = Ok out1' ∧
    Variant2.search_filter df q = Ok out2 ∧
    Variant2.search_filter df q' = Ok out2' ∧
    sublist (rows out1') (rows out1) ∧
    sublist (rows out2') (rows out2).
Proof.
  intros Hl' Ha' Hq Hn Hc Htx Han.
  pose proof (literal_occurs_in _ _ Hq Hl') as Hl.
  pose proof (ascii_names_spec _ Han) as Hnames.
  destruct (v2_search_rows df q Hl Hn Hc Htx) as (o2 & H2 & Hr2).
  destruct (v2_search_rows df q' Hl' Hn Hc Htx) as (o2' & H2' & Hr2').
  eexists _, _, o2, o2'.
  split; [by apply v1_search_literal|].
  split; [by apply v1_search_literal|].
  repeat (split; [done|]). simpl. rewrite Hr2, Hr2'.
  split; by apply filter_narrow.
Qed.

(** "Juan Pe" after "Juan" in the registry of Juan Perez. *)
Lemma longer_query_narrows_witness :
  ∃ out1 out1',
    Variant1.search_filter (Examples.loaded Examples.registry) "Juan" = Ok out1 ∧
    Variant1.search_filter (Examples.loaded Examples.registry) "Juan Pe"
      = Ok out1' ∧
    sublist (rows out1') (rows out1).
Proof.
  destruct (longer_query_narrows (H := Exact.runtime)
              (Examples.loaded Examples.registry) "Juan" "Juan Pe")
    as (o1 & o1' & _ & _ & H1 & H1' & _ & _ & Hs & _).
  - vm_compute. reflexivity.
  - vm_compute. reflexivity.
  - exists "", " Pe". reflexivity.
  - vm_compute. reflexivity.
  - vm_compute. reflexivity.
  - vm_compute. reflexivity.
  - vm_compute. reflexivity.
  - exists o1, o1'. by repeat split.
Defined.

(** ** Counts and totals by regional *)

Lemma length_filter_or {A} (P Q R : A → Prop) `{!∀ x, Decision (P x)}
    `{!∀ x, Decision (Q x)} `{!∀ x, Decision (R x)} (l : list A) :
  (∀ x, R x ↔ P x ∨ Q x) → (∀ x, P x → Q x → False) →
  length (filter R l) = (length (filter P l) + length (filter Q l))%nat.
Proof.
  intros Hor Hdis. induction l as [|a l IH]; [done|].
  rewrite !filter_cons. specialize (Hor a). specialize (Hdis a).
  destruct (decide (R a)), (decide (P a)), (decide (Q a)); simpl;
    try tauto; lia.
Qed.

Lemma length_filter_filter_le {A} (P Q : A → Prop) `{!∀ x, Decision (P x)}
    `{!∀ x, Decision (Q x)} (l : list A) :
  (length (filter P (filter Q l)) ≤ length (filter P l))%nat.
Proof.
  induction l as [|a l IH]; [done|].
  rewrite !filter_cons.
  destruct (decide (Q a)); [rewrite filter_cons|];
    destruct (decide (P a)); simpl; lia.
Qed.

Lemma traverse_Forall2 {A B} (f : A → result B) (l : list A) (ys : list B) :
  Forall2 (λ a y, f a = Ok y) l ys → traverse f l = Ok ys.
Proof.
  induction 1 as [|a y l ys Hy _ IH]; [done|].
  simpl. rewrite Hy. simpl. by rewrite IH.
Qed.

Section RegionalFacts.
Context {F : Type} `{Runtime F}.
Implicit Types (df : DataFrame F) (s : list (cell F)) (k : value F).

(** The groups of distinct keys share no element. *)
Lemma groups_count {A} (key : A → cell F) (ks : list (value F)) (l : list A) :
  NoDup ks →
  sum_list ((λ k, length (filter (λ a, key a = Some k) l)) <$> ks) =
  length (filter (λ a, key a ∈ (Some <$> ks)) l).
Proof.
  induction 1 as [|k ks Hk Hnd IH].
  - simpl. rewrite filter_none; [done|]. intros a _. apply not_elem_of_nil.
  - rewrite fmap_cons. cbn [sum_list_with id]. rewrite IH. symmetry.
    apply length_filter_or.
    + intros a. rewrite fmap_cons, elem_of_cons. done.
    + intros a Ha Hin. rewrite Ha in Hin.
      apply list_elem_of_fmap in Hin as (k' & [= <-] & Hin). done.
Qed.

Lemma occurrences_column df c k :
  occurrences k (column df c) =
  length (filter (λ r : record F, r !! c = Some k) (rows df)).
Proof.
  unfold occurrences, column. by rewrite filter_fmap, length_fmap.
Qed.

Lemma occurrences_present k s : Some k ∈ s → (1 ≤ occurrences k s)%nat.
Proof.
  intros Hin. unfold occurrences.
  assert (Hf : Some k ∈ filter (λ c : cell F, c = Some k) s)
    by (by apply list_elem_of_filter).
  destruct (filter _ s); [by apply elem_of_nil in Hf | simpl; lia].
Qed.

Lemma value_counts_Permutation s :
  value_counts s ≡ₚ (λ k, (k, occurrences k s)) <$> remove_dups (omap id s).
Proof. apply merge_sort_Permutation. Qed.

Lemma elem_of_distinct s k : k ∈ remove_dups (omap id s) ↔ Some k ∈ s.
Proof.
  rewrite elem_of_remove_dups, list_elem_of_omap. split.
  - intros (c & Hc & Hk). simpl in Hk. by subst c.
  - intros Hk. by exists (Some k).
Qed.

Lemma value_counts_keys s : NoDup (value_counts s).*1.
Proof.
  rewrite value_counts_Permutation, <- list_fmap_compose. simpl.
  rewrite list_fmap_id. apply NoDup_remove_dups.
Qed.

Lemma elem_of_value_counts s k n :
  (k, n) ∈ value_counts s ↔ n = occurrences k s ∧ (1 ≤ n)%nat.
Proof.
  rewrite value_counts_Permutation, list_elem_of_fmap. split.
  - intros (k' & [= -> ->] & Hin). split; [done|].
    by apply occurrences_present, elem_of_distinct.
  - intros [-> Hn]. exists k. split; [done|]. apply elem_of_distinct.
    destruct (decide (Some k ∈ s)) as [Hin|Hin]; [done|].
    apply occurrences_absent in Hin. lia.
Qed.

Lemma value_counts_sum s :
  sum_list (value_counts s).*2 = length (filter (λ c : cell F, is_Some c) s).
Proof.
  rewrite value_counts_Permutation, <- list_fmap_compose.
  change (snd ∘ (λ k, (k, occurrences k s))) with (λ k, occurrences k s).
  unfold occurrences.
  rewrite (groups_count id) by apply NoDup_remove_dups.
  f_equal. apply filter_ext_in. intros c Hc. simpl. split.
  - intros (k & -> & _)%list_elem_of_fmap. by eexists.
  - intros [k ->]. apply list_elem_of_fmap. exists k. split; [done|].
    by apply elem_of_distinct.
Qed.

Lemma value_counts_sorted s : StronglySorted count_ge (value_counts s).
Proof. apply StronglySorted_merge_sort; apply _. Qed.

(** The totals of the groups, read as variant 2 reads them *)
Lemma v2_total_of_summary (kg : value F * DataFrame F) line :
  Variant1.summarise kg = Ok line →
  (s ← getitem kg.2 "SUMA_CUOTAS_NUM";
   total ← series_sum s;
   Ok (kg.1, total)) = Ok (REGIONAL line, Recaudo_Total line).
Proof.
  unfold Variant1.summarise.
  destruct (getitem kg.2 "CEDULA"); simpl; [|done].
  destruct (getitem kg.2 "ESTADO_AFILIADO"); simpl; [|done].
  destruct (getitem kg.2 "SUMA_CUOTAS_NUM"); simpl; [|done].
  destruct (series_sum _); simpl; [|done].
  by intros [= <-].
Qed.

Lemma v1_resumen_counts df lines :
  Variant1.resumen_regional df = Ok lines →
  Afiliados <$> lines =
    (λ k, length (filter (λ r : record F, r !! "REGIONAL" = Some k)
                    (filter (λ r : record F, is_Some (r !! "CEDULA"))
                            (rows df))))
      <$> group_keys (column df "REGIONAL") ∧
  Activos <$> lines =
    (λ k, length (filter (λ r : record F, r !! "REGIONAL" = Some k)
                    (filter (status_is "ACTIVO") (rows df))))
      <$> group_keys (column df "REGIONAL").
Proof.
  unfold Variant1.resumen_regional, groupby.
  destruct (getitem df "REGIONAL") as [s|e] eqn:E0; simpl; [|done].
  apply getitem_ok_inv in E0 as [_ ->].
  destruct (getitem df "CEDULA"); simpl; [|done].
  destruct (getitem df "ESTADO_AFILIADO"); simpl; [|done].
  destruct (getitem df "SUMA_CUOTAS_NUM"); simpl; [|done].
  intros Ht. split.
  - rewrite (traverse_ok_proj _
               (λ kg, series_count (column kg.2 "CEDULA")) _ _ _ Ht).
    + rewrite <- list_fmap_compose. apply list_fmap_ext. intros _ k _.
      simpl. unfold series_count, column, group. cbn [rows].
      rewrite filter_fmap, length_fmap, !list_filter_filter.
      f_equal. apply filter_ext_in. intros r _. tauto.
    + intros kg y _ Hy. by apply v1_summarise_inv in Hy as (_ & -> & _).
  - rewrite (traverse_ok_proj _
               (λ kg, count_true (eq_scalar (column kg.2 "ESTADO_AFILIADO")
                                            (Str "ACTIVO"))) _ _ _ Ht).
    + rewrite <- list_fmap_compose. apply list_fmap_ext. intros _ k _.
      simpl. unfold count_true, eq_scalar, column, group. cbn [rows].
      rewrite <- list_fmap_compose, filter_fmap, length_fmap.
      rewrite !list_filter_filter.
      f_equal. apply filter_ext_in. intros r _. unfold status_is. simpl.
      rewrite bool_decide_eq_true. tauto.
    + intros kg y _ Hy. by apply v1_summarise_inv in Hy as (_ & _ & -> & _).
Qed.

Lemma regional_groups_count df (l : list (record F)) :
  (∀ r, r ∈ l → r ∈ rows df) →
  sum_list ((λ k, length (filter (λ r : record F, r !! "REGIONAL" = Some k) l))
              <$> group_keys (column df "REGIONAL")) =
  length (filter (λ r : record F, has_regional r) l).
Proof.
  intros Hl. rewrite groups_count by apply NoDup_group_keys.
  f_equal. apply filter_ext_in. intros r Hr. unfold has_regional. split.
  - intros (k & -> & _)%list_elem_of_fmap. by eexists.
  - intros [k Hk]. rewrite Hk. apply list_elem_of_fmap. exists k.
    split; [done|]. apply elem_of_group_keys. rewrite <- Hk.
    by apply elem_of_column, Hl.
Qed.

Lemma fmap_pointwise_le {A B} (f f' : A → nat) (g g' : B → nat)
    (l : list A) (bs : list B) :
  f <$> l = g <$> bs → f' <$> l = g' <$> bs →
  (∀ b, (g' b ≤ g b)%nat) →
  Forall (λ a, (f' a ≤ f a)%nat) l.
Proof.
  intros Hf Hf' Hle. revert bs Hf Hf'.
  induction l as [|a l IH]; intros [|b bs]; try done.
  rewrite !fmap_cons. intros [= Ha Hl] [= Ha' Hl'].
  constructor; [rewrite Ha, Ha'; apply Hle | by apply IH with bs].
Qed.
End RegionalFacts.

(** X14.  The bar chart of members by regional, which both dashboards draw
    from [value_counts]: one bar for each regional that occurs, none twice,
    the tallest first; the height of a bar is the number of records of
    that regional and is never 0; the heights add up to the number of
    records that have a regional.  Both variants draw the same bars for
    the same table. *)
Theorem regional_bar_chart {F : Type} `{Runtime F}
    (df : DataFrame F) (counts : list (value F * nat)) :
  Variant2.regional_counts df = Ok counts →
  NoDup counts.*1 ∧
  StronglySorted count_ge counts ∧
  (∀ k n, (k, n) ∈ counts ↔
          n = length (filter (λ r : record F, r !! "REGIONAL" = Some k)
                             (rows df)) ∧ (1 ≤ n)%nat) ∧
  sum_list counts.*2 =
    length (filter (λ r : record F, has_regional r) (rows df)) ∧
  (∀ page, Variant1.dashboard df = Ok page →
           page !! 4%nat = Some (st_plotly_chart (BarCounts counts))) ∧
  (∀ page, Variant2.dashboard df = Ok page →
           page !! 4%nat = Some (st_plotly_chart (BarCounts counts))).
Proof.
  unfold Variant2.regional_counts.
  destruct (getitem df "REGIONAL") as [s|e] eqn:E; simpl; [|done].
  pose proof E as [_ ->]%getitem_ok_inv. intros [= <-].
  split; [apply value_counts_keys|].
  split; [apply value_counts_sorted|].
  split; [|split; [|split]].
  - intros k n. by rewrite elem_of_value_counts, occurrences_column.
  - rewrite value_counts_sum. unfold column, has_regional.
    by rewrite filter_fmap, length_fmap.
  - intros page. unfold Variant1.dashboard.
    destruct (Variant1.kpis df); simpl; [|done].
    destruct (py_truediv _ _); simpl; [|done].
    rewrite E. simpl.
    destruct (getitem df "ESTADO_AFILIADO"); simpl; [|done].
    by intros [= <-].
  - intros page. unfold Variant2.dashboard, Variant2.regional_counts.
    destruct (Variant2.kpis df); simpl; [|done].
    rewrite E. simpl.
    destruct (Variant2.recaudo_reg df); simpl; [|done].
    by intros [= <-].
Qed.

(** The session of Juan Perez has one bar, SUR, of height 1. *)
Lemma regional_bar_chart_witness :
  Variant2.regional_counts Examples.session = Ok [(Str "SUR", 1%nat)] ∧
  length (filter (λ r : record Qc, has_regional r) (rows Examples.session))
    = 1%nat.
Proof.
  assert (Hc : Variant2.regional_counts Examples.session =
               Ok [(Str "SUR", 1%nat)]) by (vm_compute; reflexivity).
  split; [exact Hc|].
  destruct (regional_bar_chart (H := Exact.runtime) Examples.session
              [(Str "SUR", 1%nat)] Hc) as (_ & _ & _ & Hsum & _).
  by rewrite <- Hsum.
Defined.

(** X15.  The regional report of variant 1 has one line for each regional
    that occurs.  "Afiliados" counts the cedulas of the group, so the
    numbers of the lines add up to the number of records that have a
    regional and a cedula; "Activos" adds up to the number of records that
    have a regional and the status ACTIVO.  An active member without a
    cedula is counted in the second and not in the first; when every
    record has a cedula, no line has more active members than members. *)
Theorem regional_report_counts {F : Type} `{Runtime F}
    (df : DataFrame F) (lines : list (SummaryLine F)) :
  Variant1.resumen_regional df = Ok lines →
  NoDup (REGIONAL <$> lines) ∧
  sum_list (Afiliados <$> lines) =
    length (filter (λ r : record F, has_regional r)
              (filter (λ r : record F, is_Some (r !! "CEDULA")) (rows df))) ∧
  sum_list (Activos <$> lines) =
    length (filter (λ r : record F, has_regional r)
              (filter (status_is "ACTIVO") (rows df))) ∧
  ((∀ r : record F, r ∈ rows df → is_Some (r !! "CEDULA")) →
   Forall (λ l, (Activos l ≤ Afiliados l)%nat) lines).
Proof.
  intros Hres.
  destruct (v1_resumen_inv _ _ Hres) as [Hkeys _].
  destruct (v1_resumen_counts _ _ Hres) as [Haf Hac].
  split; [rewrite Hkeys; apply NoDup_group_keys|].
  split; [|split].
  - rewrite Haf. apply regional_groups_count.
    intros r Hr. by apply list_elem_of_filter in Hr as [_ Hr].
  - rewrite Hac. apply regional_groups_count.
    intros r Hr. by apply list_elem_of_filter in Hr as [_ Hr].
  - intros Hced. apply (fmap_pointwise_le _ _ _ _ _ _ Haf Hac).
    intros k. rewrite (filter_all (λ r : record F, is_Some (r !! "CEDULA")))
      by done.
    apply length_filter_filter_le.
Qed.

(** Juan Perez (SUR) and Luis Diaz (no regional), loaded by variant 1:
    the numbers of members of the lines add up to 1. *)
Lemma regional_report_counts_witness :
  ∃ lines,
    Variant1.resumen_regional (Examples.loaded Examples.registry_sin_regional)
      = Ok lines ∧
    sum_list (Afiliados <$> lines) = 1%nat.
Proof.
  destruct (Variant1.resumen_regional
              (Examples.loaded Examples.registry_sin_regional))
    as [lines|e] eqn:Hl; [|by vm_compute in Hl].
  exists lines. split; [done|].
  destruct (regional_report_counts (H := Exact.runtime) _ lines Hl)
    as (_ & -> & _).
  vm_compute. reflexivity.
Defined.

(** X16.  The two charts of dues by regional agree: on a table for which
    the report of variant 1 is drawn, its bar chart shows, regional by
    regional and in the same order, the totals that variant 2 computes for
    the pie chart of its dashboard. *)
Theorem regional_total_charts_agree {F : Type} `{Runtime F}
    (df : DataFrame F) (page1 : list (output F)) :
  Variant1.reportes df = Ok page1 →
  ∃ totals,
    Variant2.recaudo_reg df = Ok totals ∧
    page1 !! 1%nat = Some (st_plotly_chart (BarTotals totals)) ∧
    (∀ page2, Variant2.dashboard df = Ok page2 →
              page2 !! 5%nat = Some (st_plotly_chart (PieTotals totals))).
Proof.
  unfold Variant1.reportes.
  destruct (Variant1.resumen_regional df) as [lines|e] eqn:Hres;
    simpl; [|done].
  intros [= <-].
  exists ((λ l, (REGIONAL l, Recaudo_Total l)) <$> lines).
  assert (Hrec : Variant2.recaudo_reg df =
                 Ok ((λ l, (REGIONAL l, Recaudo_Total l)) <$> lines)).
  { revert Hres. unfold Variant1.resumen_regional, Variant2.recaudo_reg.
    destruct (groupby df "REGIONAL") as [groups|e]; simpl; [|done].
    destruct (getitem df "CEDULA"); simpl; [|done].
    destruct (getitem df "ESTADO_AFILIADO"); simpl; [|done].
    destruct (getitem df "SUMA_CUOTAS_NUM"); simpl; [|done].
    intros Ht%traverse_ok_inv. apply traverse_Forall2.
    apply Forall2_fmap_r.
    eapply Forall2_impl; [exact Ht|]. intros kg line.
    apply v2_total_of_summary. }
  split; [done|]. split; [done|].
  intros page2. unfold Variant2.dashboard. rewrite Hrec.
  destruct (Variant2.kpis df); simpl; [|done].
  destruct (Variant2.regional_counts df); simpl; [|done].
  by intros [= <-].
Qed.

(** The report on the registry of Juan Perez, loaded by variant 1. *)
Lemma regional_total_charts_agree_witness :
  ∃ page1 totals,
    Variant1.reportes (Examples.loaded Examples.registry) = Ok page1 ∧
    Variant2.recaudo_reg (Examples.loaded Examples.registry) = Ok totals ∧
    page1 !! 1%nat = Some (st_plotly_chart (BarTotals totals)).
Proof.
  destruct (Variant1.reportes (Examples.loaded Examples.registry))
    as [page1|e] eqn:Hp; [|by vm_compute in Hp].
  destruct (regional_total_charts_agree (H := Exact.runtime) _ page1 Hp)
    as (totals & Ht & Hc & _).
  by exists page1, totals.
Defined.

(** ** Sources without records, failed imports, and the export after the form *)

Lemma list_difference_nil_subseteq `{EqDecision A} (l k : list A) :
  (∀ x, x ∈ l → x ∈ k) → list_difference l k = [].
Proof.
  induction l as [|a l IH]; intros Hl; [done|]. simpl.
  case_decide as Ha.
  - apply IH. intros x Hx. by apply Hl, list_elem_of_further.
  - destruct Ha. apply Hl, list_elem_of_here.
Qed.

Section EdgeFacts.
Context {F : Type} `{Runtime F}.
Implicit Types (df raw : DataFrame F).

Lemma v1_load_no_rows raw :
  rows raw = [] →
  ∃ df, Variant1.load_data (Ok raw) = (df, []) ∧ rows df = [].
Proof.
  intros Hr.
  assert (Hcol : ∀ c, column raw c = [])
    by (intros c; unfold column; by rewrite Hr).
  destruct (v1_load_try_ok raw) as [df Hdf].
  { intros _ t Ht. rewrite Hcol in Ht. by apply elem_of_nil in Ht. }
  { unfold status_loads. rewrite Hr.
    rewrite (bool_decide_eq_true_2 _ eq_refl).
    by destruct (has_column "ESTADO_AFILIADO" raw). }
  exists df. split.
  - unfold Variant1.load_data. by rewrite Hdf.
  - apply v1_load_try_inv in Hdf as (Hlen & _).
    apply nil_length_inv. unfold len in Hlen. by rewrite Hlen, Hr.
Qed.

Lemma columns_append_row df ui :
  columns (Variant2.append_row df ui) =
  columns df ++ list_difference Variant2.new_row_columns (columns df).
Proof. done. Qed.

(** The fields a table is written with after the form: the header, the
    lines of the records it had, the line of the new one. *)
Lemma csv_records_append_row df ui :
  csv_records (Variant2.append_row df ui) =
  columns (Variant2.append_row df ui) ::
  ((λ r : record F,
      (λ c, csv_cell (column (Variant2.append_row df ui) c) (r !! c))
        <$> columns (Variant2.append_row df ui))
     <$> rows df) ++
  [(λ c, csv_cell (column (Variant2.append_row df ui) c)
                  (Variant2.new_row ui !! c))
     <$> columns (Variant2.append_row df ui)].
Proof. unfold csv_records. by rewrite rows_append_row, fmap_app. Qed.
End EdgeFacts.

(** X17.  A source that parses and has no record, such as a file with the
    header line alone.  Variant 1 loads it, finds the table empty and shows
    the warning that asks for the file, whatever the page and the columns.
    Variant 2, given the status and the regional column, loads it and draws
    its dashboard from zeros: no member, nothing collected, no bar and no
    slice. *)
Theorem source_without_records {F : Type} `{Runtime F} (raw : DataFrame F) :
  rows raw = [] →
  (∀ ui, Variant1.script (Ok raw) ui =
         Ok [st_warning Variant1.missing_file_warning]) ∧
  (has_column "ESTADO_AFILIADO" raw = true →
   has_column "REGIONAL" raw = true →
   ∃ df, Variant2.load_data (Ok raw) = Ok df ∧
         Variant2.kpis df = Ok (Variant2.mkKpis 0 0 0 fzero) ∧
         Variant2.regional_counts df = Ok [] ∧
         Variant2.recaudo_reg df = Ok []).
Proof.
  intros Hr. split.
  - intros ui. destruct (v1_load_no_rows raw Hr) as (df & Hl & Hdf).
    rewrite v1_script_empty; rewrite Hl; [done|]. simpl.
    unfold df_empty. rewrite Hdf. apply orb_true_r.
  - intros Hst Hreg.
    destruct (v2_load_ok raw Hst Hreg) as (df & Hl & Hlen & _).
    exists df. split; [done|].
    pose proof (v2_load_session_ok _ _ Hl) as Hok.
    pose proof (session_ok_inv _ Hok) as (_ & Hrg & Hd & _ & Hn).
    assert (Hdf : rows df = []).
    { apply nil_length_inv. unfold len in Hlen. by rewrite Hlen, Hr. }
    split; [|split].
    + rewrite (v2_kpis_ok _ Hok) by (unfold column; by rewrite Hdf).
      unfold len. by rewrite Hdf.
    + unfold Variant2.regional_counts. rewrite (getitem_has _ _ Hrg).
      unfold column. by rewrite Hdf.
    + rewrite (v2_recaudo_ok _ Hrg Hd Hn). unfold column. by rewrite Hdf.
Qed.

(** The six headers of the example registry and no record. *)
Lemma source_without_records_witness :
  Variant1.script (Ok (mkDataFrame Examples.headers []))
                  (Examples.ui1 Variant1.Dashboard false "") =
  Ok [st_warning Variant1.missing_file_warning].
Proof.
  apply (source_without_records (H := Exact.runtime)
           (mkDataFrame Examples.headers []) eq_refl).
Defined.

(** X18.  A confirmed import that fails.  When the upload does not parse,
    or parses without the status column, or with it and without the
    regional column, the run ends with the exception of the load
    (ParserError and the like, KeyError) instead of a page, and the table
    of the session is not replaced: it is the table the run started
    with. *)
Theorem failed_import {F : Type} `{Runtime F}
    (session : option (DataFrame F)) (read up : result (DataFrame F))
    (ui : Variant2.Inputs F) :
  Variant2.menu ui = Variant2.ImportarExportar →
  Variant2.uploaded_file ui = Some up →
  Variant2.confirm ui = true →
  (∀ e, up = Raise e → Variant2.script session read ui = Raise e) ∧
  (∀ raw, up = Ok raw → has_column "ESTADO_AFILIADO" raw = false →
          Variant2.script session read ui =
          Raise (KeyError "ESTADO_AFILIADO")) ∧
  (∀ raw, up = Ok raw → has_column "ESTADO_AFILIADO" raw = true →
          has_column "REGIONAL" raw = false →
          Variant2.script session read ui = Raise (KeyError "REGIONAL")) ∧
  (∀ e, Variant2.load_data up = Raise e →
        Variant2.script session read ui = Raise e ∧
        next_session session read ui = Variant2.session_init session read).
Proof.
  intros Hm Hu Hc.
  assert (Hrun : ∀ e, Variant2.load_data up = Raise e →
                      Variant2.script session read ui = Raise e).
  { intros e He. unfold Variant2.script, Variant2.importar_exportar.
    by rewrite Hm, Hu, Hc, He. }
  repeat split.
  - intros e ->. by apply Hrun.
  - intros raw -> Hst. by apply Hrun, v2_load_missing_status.
  - intros raw -> Hst Hreg. by apply Hrun, v2_load_missing_regional.
  - by apply Hrun.
  - unfold next_session. by rewrite (Hrun e).
Qed.

(** The source with neither column, uploaded into the session of Juan
    Perez. *)
Lemma failed_import_witness :
  Variant2.script (Some Examples.session)
    (Raise (ReadError "DB_AFILIADOS.csv"))
    (Examples.ui2 Variant2.ImportarExportar false ""
                  (Some (Ok Examples.registry_sin_estado)) true) =
  Raise (KeyError "ESTADO_AFILIADO").
Proof.
  destruct (failed_import (H := Exact.runtime) (Some Examples.session)
              (Raise (ReadError "DB_AFILIADOS.csv")) (Ok Examples.registry_sin_estado)
              (Examples.ui2 Variant2.ImportarExportar false ""
                 (Some (Ok Examples.registry_sin_estado)) true)
              eq_refl eq_refl eq_refl) as (_ & Hst & _).
  apply (Hst Examples.registry_sin_estado eq_refl).
  vm_compute. reflexivity.
Defined.

(** X19.  The export that follows a submitted form.  The run of the form
    leaves in the session the table with the new record, and the export
    page of the next run offers that table.  Its header begins with the
    columns the table had; what the form brings and the table lacked comes
    after them, and nothing when the table has the six columns of the
    form.  Read back, the text has one line more than the table had
    records, the last one for the new record: the cedula, the name, the
    regional, the status and the formatted dues as text, the dues as a
    number, and an empty field under every other column.  In the lines of
    the earlier records every text and every missing entry is written as
    it was.  (A number may be written differently: a column of integers
    becomes a floating-point one when the form leaves it empty or adds a
    float to it.) *)
Theorem export_after_form {F : Type} `{Runtime F}
    (session : option (DataFrame F)) (read read' : result (DataFrame F))
    (ui ui' : Variant2.Inputs F) :
  Variant2.menu ui = Variant2.Gestion → Variant2.submit ui = true →
  Variant2.menu ui' = Variant2.ImportarExportar →
  Variant2.uploaded_file ui' = None →
  columns (Variant2.session_init session read) ≠ [] →
  let df := Variant2.session_init session read in
  let df' := next_session session read ui in
  Variant2.script (Some df') read' ui' =
    Ok (df', [Variant2.export df'; st_warning Variant2.replace_note]) ∧
  columns df `prefix_of` columns df' ∧
  ((∀ c, c ∈ Variant2.new_row_columns → has_column c df = true) →
   columns df' = columns df) ∧
  ∃ (old_lines : list (list string)) (new_line : list string),
    csv_read (to_csv df') = columns df' :: old_lines ++ [new_line] ∧
    length old_lines = length (rows df) ∧
    (∀ (j : nat) (c : string),
       columns df' !! j = Some c →
       new_line !! j =
       Some (if decide (c = "CEDULA") then Variant2.cedula ui
             else if decide (c = "APELLIDOS / NOMBRES") then Variant2.nombre ui
             else if decide (c = "REGIONAL")
                  then Variant2.regional_text (Variant2.reg ui)
             else if decide (c = "ESTADO_AFILIADO")
                  then estado_text (Variant2.estado ui)
             else if decide (c = "SUMA_CUOTAS")
                  then fmt_money (Variant2.cuota ui)
             else if decide (c = "SUMA_CUOTAS_NUM")
                  then (if has_text (column df' c) || int_column (column df' c)
                        then py_str (Variant2.cuota ui)
                        else py_str (float_of (Variant2.cuota ui)))
             else "")) ∧
    (∀ (i : nat) (r : record F),
       rows df !! i = Some r →
       ∃ line,
         old_lines !! i = Some line ∧
         ∀ (j : nat) (c : string),
           columns df !! j = Some c →
           (r !! c = None → line !! j = Some "") ∧
           (∀ t, r !! c = Some (Str t) → line !! j = Some t)).
Proof.
  intros Hm Hs Hm' Hu' Hne df df'.
  assert (Hdf' : df' = Variant2.append_row df ui).
  { unfold df', next_session, Variant2.script, Variant2.gestion.
    by rewrite Hm, Hs. }
  assert (Hpre : columns df `prefix_of` columns df').
  { rewrite Hdf', columns_append_row. by eexists. }
  assert (Hne' : columns df' ≠ []).
  { destruct Hpre as [k Hk]. rewrite Hk. fold df in Hne.
    by destruct (columns df). }
  split; [|split; [done|split]].
  - unfold Variant2.script, Variant2.importar_exportar.
    by rewrite Hm', Hu'.
  - intros Hall. rewrite Hdf', columns_append_row.
    rewrite list_difference_nil_subseteq; [apply app_nil_r|].
    intros c Hc. specialize (Hall c Hc). unfold has_column in Hall.
    by apply bool_decide_eq_true in Hall.
  - rewrite (csv_read_to_csv df' Hne'), Hdf', csv_records_append_row.
    rewrite <- Hdf'.
    eexists _, _. split; [reflexivity|].
    split; [by rewrite length_fmap|]. split.
    + intros j c Hc. rewrite list_lookup_fmap, Hc.
      cbn [fmap option_fmap option_map]. f_equal.
      destruct (new_row_fields ui) as (H1 & H2 & H3 & H4 & H5 & H6).
      repeat (case_decide;
              [subst c; by rewrite ?H1, ?H2, ?H3, ?H4, ?H5, ?H6|]).
      assert (Hno : Variant2.new_row ui !! c = None).
      { unfold Variant2.new_row.
        rewrite !lookup_insert_ne by congruence. apply lookup_empty. }
      by rewrite Hno.
    + intros i r Hr.
      exists ((λ c, csv_cell (column df' c) (r !! c)) <$> columns df').
      split; [by rewrite list_lookup_fmap, Hr|].
      intros j c Hc.
      assert (Hc' : columns df' !! j = Some c).
      { destruct Hpre as [k Hk]. rewrite Hk. by apply lookup_app_l_Some. }
      rewrite list_lookup_fmap, Hc'. cbn [fmap option_fmap option_map].
      split; [by intros ->|]. by intros t ->.
Qed.

(** Rosa Mora added to the session of Juan Perez, then the export page:
    the header, the line of Juan Perez and the line of Rosa Mora, whose
    third field is SUR. *)
Lemma export_after_form_witness :
  ∃ header old_lines new_line,
    csv_read
      (to_csv (next_session (Some Examples.session)
                 (Raise (ReadError "DB_AFILIADOS.csv"))
                 (Examples.ui2 Variant2.Gestion true "" None false))) =
    header :: old_lines ++ [new_line] ∧
    length old_lines = 1%nat ∧
    new_line !! 2%nat = Some "SUR".
Proof.
  destruct (export_after_form (H := Exact.runtime) (Some Examples.session)
              (Raise (ReadError "DB_AFILIADOS.csv"))
              (Raise (ReadError "DB_AFILIADOS.csv"))
              (Examples.ui2 Variant2.Gestion true "" None false)
              (Examples.ui2 Variant2.ImportarExportar false "" None false)
              eq_refl eq_refl eq_refl eq_refl)
    as (_ & _ & _ & old_lines & new_line & Hread & Hlen & Hnew & _);
    [by vm_compute|].
  eexists _, old_lines, new_line.
  split; [exact Hread|]. split; [exact Hlen|].
  by rewrite (Hnew 2%nat "REGIONAL" ltac:(vm_compute; reflexivity)).
Defined.
